(** * The state-fusion core of [python_matlab_bridge.py]

    A shallow embedding of [DroneSimulationBridge]: the per-agent state
    store and its sparse merge, the bounded ingestion queue, the mission
    registry, the command dispatcher and the main processing loop with
    every step of a pass: the drain, the MATLAB synchronisation, the
    WebSocket broadcast, the ZeroMQ message and the ROS2 paths.

    Python objects are mutable and shared, so the store is a dictionary of
    references into a heap of [DroneState] objects.  Calls that can raise or
    suspend return an [outcome].  Collaborators (the MATLAB engine, the
    MAVLink link, the wall clock) are fields of the bridge that the code only
    reads or calls; what they answer during a pass of the main loop, and
    what is raised into it, is given pass by pass. *)

From Stdlib Require Import Floats ZArith Ascii.
From stdpp Require Import gmap strings list fin_maps.
From stdpp Require Import pretty.

(** ** Data model *)

(** [@dataclass DroneState] (lines 58-69).  Numpy arrays of floats are
    modelled by the list of their elements. *)
Record DroneState : Type := mkDroneState {
  drone_id : string;
  timestamp : float;
  position : list float;
  velocity : list float;
  attitude : list float;
  battery_voltage : float;
  flight_mode : string;
  armed : bool;
  gps_fix : Z
}.

(** [np.zeros(3)] *)
Definition np_zeros3 : list float := [0%float; 0%float; 0%float].

(** [DroneState(drone_id=..., timestamp=...)]: every other field takes its
    declared default. *)
Definition new_DroneState (d : string) (t : float) : DroneState :=
  {| drone_id := d; timestamp := t;
     position := np_zeros3; velocity := np_zeros3; attitude := np_zeros3;
     battery_voltage := 0%float; flight_mode := "UNKNOWN";
     armed := false; gps_fix := 0%Z |}.

(** [@dataclass MissionWaypoint] (lines 71-83). *)
Record MissionWaypoint : Type := mkMissionWaypoint {
  sequence : Z;
  lat : float;
  lon : float;
  alt : float;
  command : Z;
  param1 : float;
  param2 : float;
  param3 : float;
  param4 : float;
  autocontinue : bool
}.

(** The [state_data] dictionary of a ['drone_state'] item: the key
    ['drone_id'] is always there, every other key may be missing. *)
Record StateData : Type := mkStateData {
  sd_drone_id : string;
  sd_position : option (list float);
  sd_velocity : option (list float);
  sd_attitude : option (list float);
  sd_battery_voltage : option float;
  sd_flight_mode : option string;
  sd_armed : option bool;
  sd_gps_fix : option Z
}.

(** One entry of the ['waypoints'] list built at lines 933-939. *)
Record WaypointDict : Type := mkWaypointDict {
  wd_sequence : Z;
  wd_lat : float;
  wd_lon : float;
  wd_alt : float;
  wd_command : Z
}.

Record MissionData : Type := mkMissionData {
  md_drone_id : string;
  md_waypoints : list WaypointDict
}.

(** The [command_data] dictionary of a ['matlab_command'] item; [.get]
    returns [None] for a missing key. *)
Record CommandData : Type := mkCommandData {
  cmd_type : option string;
  cmd_file : option string;
  cmd_distance : option float
}.

(** Items of [self.data_queue], tagged by their ['type'] key. *)
Inductive DataItem : Type :=
| drone_state (data : StateData)
| mission_waypoint (data : MissionData)
| matlab_command (data : CommandData).

(** Python exceptions the modelled code can meet and catch; all derive
    from [Exception]. *)
Inductive exn : Type :=
| ValueError (msg : string)
| AttributeError (msg : string)
| Exception (msg : string).

(** Requests sent to the MATLAB engine. *)
Inductive MatlabRequest : Type :=
| call_function (func_name : string) (args : list (option string))
| evaluate_safety_distance (distance : float).

(** The messages of a mission upload (lines 222-239):
    [mission_clear_all_send], [mission_count_send] and one
    [mission_item_send] for each waypoint. *)
Inductive MissionMessage : Type :=
| MISSION_CLEAR_ALL
| MISSION_COUNT (count : nat)
| MISSION_ITEM (wp : MissionWaypoint).

(** Observable effects, in the order they happen. *)
Inductive Effect : Type :=
| logger_error (site : string) (e : exn)
| asyncio_sleep (seconds : float)
| matlab_request (r : MatlabRequest)
| mavlink_send (target_system : Z) (m : MissionMessage).

(** The bridge object together with the collaborators it talks to. *)
Record Bridge : Type := mkBridge {
  MAVLINK_AVAILABLE : bool;
  time_time : nat -> float;          (* the n-th reading of [time.time()] *)
  clock : nat;                       (* readings taken so far *)
  matlab_is_connected : bool;
  matlab_engine : MatlabRequest -> option exn;  (* [Some e]: the call raises *)
  mavlink_is_connected : bool;
  mavlink_send_raises : nat -> option exn;
                   (* [Some e]: the n-th send of an upload raises, n from 0 *)
  heap : list DroneState;            (* the DroneState objects, by reference *)
  drone_states : gmap string nat;
  mission_waypoints : gmap string (list MissionWaypoint);
  data_queue : list DataItem;        (* front of the queue first *)
  running : bool;
  effects : list Effect
}.

Definition set_clock (n : nat) (b : Bridge) : Bridge :=
  mkBridge (MAVLINK_AVAILABLE b) (time_time b) n (matlab_is_connected b)
    (matlab_engine b) (mavlink_is_connected b) (mavlink_send_raises b)
    (heap b) (drone_states b) (mission_waypoints b) (data_queue b)
    (running b) (effects b).

Definition set_heap (h : list DroneState) (b : Bridge) : Bridge :=
  mkBridge (MAVLINK_AVAILABLE b) (time_time b) (clock b) (matlab_is_connected b)
    (matlab_engine b) (mavlink_is_connected b) (mavlink_send_raises b)
    h (drone_states b) (mission_waypoints b) (data_queue b)
    (running b) (effects b).

Definition set_drone_states (m : gmap string nat) (b : Bridge) : Bridge :=
  mkBridge (MAVLINK_AVAILABLE b) (time_time b) (clock b) (matlab_is_connected b)
    (matlab_engine b) (mavlink_is_connected b) (mavlink_send_raises b)
    (heap b) m (mission_waypoints b) (data_queue b)
    (running b) (effects b).

Definition set_mission_waypoints (m : gmap string (list MissionWaypoint))
    (b : Bridge) : Bridge :=
  mkBridge (MAVLINK_AVAILABLE b) (time_time b) (clock b) (matlab_is_connected b)
    (matlab_engine b) (mavlink_is_connected b) (mavlink_send_raises b)
    (heap b) (drone_states b) m (data_queue b)
    (running b) (effects b).

Definition set_data_queue (q : list DataItem) (b : Bridge) : Bridge :=
  mkBridge (MAVLINK_AVAILABLE b) (time_time b) (clock b) (matlab_is_connected b)
    (matlab_engine b) (mavlink_is_connected b) (mavlink_send_raises b)
    (heap b) (drone_states b) (mission_waypoints b) q
    (running b) (effects b).

Definition set_running (r : bool) (b : Bridge) : Bridge :=
  mkBridge (MAVLINK_AVAILABLE b) (time_time b) (clock b) (matlab_is_connected b)
    (matlab_engine b) (mavlink_is_connected b) (mavlink_send_raises b)
    (heap b) (drone_states b) (mission_waypoints b) (data_queue b)
    r (effects b).

Definition set_connected (matlab mavlink : bool) (b : Bridge) : Bridge :=
  mkBridge (MAVLINK_AVAILABLE b) (time_time b) (clock b) matlab
    (matlab_engine b) mavlink (mavlink_send_raises b)
    (heap b) (drone_states b) (mission_waypoints b) (data_queue b)
    (running b) (effects b).

(** Append one effect to the trace. *)
Definition emit (e : Effect) (b : Bridge) : Bridge :=
  mkBridge (MAVLINK_AVAILABLE b) (time_time b) (clock b) (matlab_is_connected b)
    (matlab_engine b) (mavlink_is_connected b) (mavlink_send_raises b)
    (heap b) (drone_states b) (mission_waypoints b) (data_queue b)
    (running b) (effects b ++ [e]).

(** What a call does: it returns, it raises, or it is suspended inside a
    blocking primitive. *)
Inductive outcome (A : Type) : Type :=
| Returns (a : A) (b : Bridge)
| Raises (e : exn) (b : Bridge)
| Blocks (b : Bridge).
Arguments Returns {A} a b.
Arguments Raises {A} e b.
Arguments Blocks {A} b.

(** ** Agent state store *)

(** [time.time()] *)
Definition time (b : Bridge) : float * Bridge :=
  (time_time b (clock b), set_clock (S (clock b)) b).

(** Lines 655-672 on the object [state]: the timestamp is always written,
    every other attribute only when its key is in [state_data]. *)
Definition write_fields (t : float) (state_data : StateData)
    (state : DroneState) : DroneState :=
  {| drone_id := drone_id state;
     timestamp := t;
     position := default (position state) (sd_position state_data);
     velocity := default (velocity state) (sd_velocity state_data);
     attitude := default (attitude state) (sd_attitude state_data);
     battery_voltage :=
       default (battery_voltage state) (sd_battery_voltage state_data);
     flight_mode := default (flight_mode state) (sd_flight_mode state_data);
     armed := default (armed state) (sd_armed state_data);
     gps_fix := default (gps_fix state) (sd_gps_fix state_data) |}.

(** Lines 651-652: create the agent's object on its first update. *)
Definition ensure_drone (d : string) (b : Bridge) : Bridge :=
  match drone_states b !! d with
  | Some _ => b
  | None =>
      let '(t, b1) := time b in
      set_drone_states (<[d := length (heap b1)]> (drone_states b1))
        (set_heap (heap b1 ++ [new_DroneState d t]) b1)
  end.

(** [DroneSimulationBridge._update_drone_state] (lines 647-672). *)
Definition _update_drone_state (state_data : StateData) (b : Bridge) : Bridge :=
  let d := sd_drone_id state_data in
  let b1 := ensure_drone d b in
  match drone_states b1 !! d with
  | None => b1
  | Some ref =>
      let '(t, b2) := time b1 in
      set_heap (alter (write_fields t state_data) ref (heap b2)) b2
  end.

(** Reading an agent's state through a dictionary of references. *)
Definition deref (states : gmap string nat) (b : Bridge) (d : string)
    : option DroneState :=
  ref ← states !! d; heap b !! ref.

Definition state_of (b : Bridge) (d : string) : option DroneState :=
  deref (drone_states b) b d.

(** [DroneSimulationBridge.get_drone_states] (lines 945-947):
    [dict.copy()] copies the dictionary, not the objects it refers to. *)
Definition get_drone_states (b : Bridge) : gmap string nat := drone_states b.

(** Apply a sequence of updates in arrival order. *)
Definition apply_updates (us : list StateData) (b : Bridge) : Bridge :=
  foldl (fun acc u => _update_drone_state u acc) b us.

(** Every reference in the store points into the heap, and no two agents
    share an object. *)
Definition wf (b : Bridge) : Prop :=
  (forall d ref, drone_states b !! d = Some ref -> ref < length (heap b)) /\
  (forall d1 d2 ref, drone_states b !! d1 = Some ref ->
                     drone_states b !! d2 = Some ref -> d1 = d2).

(** The bridge right after [__init__] (lines 507-535), for given
    collaborators. *)
Definition init (mav_available : bool) (wall : nat -> float)
    (engine : MatlabRequest -> option exn) (wire : nat -> option exn)
    : Bridge :=
  mkBridge mav_available wall 0 false engine false wire [] ∅ ∅ [] false [].

(** ** Specification of the merge, in the spec's words *)

(** Field-wise last-write-wins: after the updates [us], a field holds the
    value carried by the last update that names it, and its previous value
    when no update names it. *)
Definition last_write {A : Type} (field : StateData -> option A)
    (us : list StateData) (previous : A) : A :=
  default previous (last (omap field us)).

Definition lww_merge (previous : DroneState) (us : list StateData)
    (last_updated : float) : DroneState :=
  {| drone_id := drone_id previous;
     timestamp := last_updated;
     position := last_write sd_position us (position previous);
     velocity := last_write sd_velocity us (velocity previous);
     attitude := last_write sd_attitude us (attitude previous);
     battery_voltage :=
       last_write sd_battery_voltage us (battery_voltage previous);
     flight_mode := last_write sd_flight_mode us (flight_mode previous);
     armed := last_write sd_armed us (armed previous);
     gps_fix := last_write sd_gps_fix us (gps_fix previous) |}.

(** The state an agent has before a run of updates: its stored one, or a
    freshly created one. *)
Definition previous_state (b : Bridge) (d : string) : DroneState :=
  default (new_DroneState d (time_time b (clock b))) (state_of b d).

(** A partial update naming only some of the three vectors. *)
Definition partial (d : string) (p v a : option (list float)) : StateData :=
  mkStateData d p v a None None None None.

Definition vec3 (x y z : float) : list float := [x; y; z].

(** A wall clock that reads 100, 101, 102, ... *)
Definition ticking_clock (n : nat) : float :=
  PrimFloat.of_uint63 (Uint63.of_Z (100 + Z.of_nat n)).

Definition no_engine_fault (r : MatlabRequest) : option exn := None.

(** A link on which every send goes through. *)
Definition no_wire_fault (n : nat) : option exn := None.

Definition fresh_bridge : Bridge :=
  init true ticking_clock no_engine_fault no_wire_fault.

Definition scenario_a1 : list StateData :=
  [ partial "a1" (Some (vec3 1 2 3)) None None;
    partial "a1" None (Some (vec3 0 0 1)) None;
    partial "a1" (Some (vec3 4 5 6)) None None ].

(** ** Ingestion queue *)

(** [queue.Queue(maxsize=1000)] (line 529). *)
Definition maxsize : nat := 1000.

(** [Queue.put(item)] with the defaults [block=True, timeout=None], the only
    way the bridge enqueues: while the queue holds [maxsize] items the
    caller waits for a free slot. *)
Definition Queue_put (item : DataItem) (b : Bridge) : outcome unit :=
  if decide (maxsize <= length (data_queue b)) then Blocks b
  else Returns () (set_data_queue (data_queue b ++ [item]) b).

(** ** Command dispatcher *)

(** [MATLABBridge.call_function] and [MATLABBridge.evaluate] (lines
    128-151): refuse when not connected, otherwise forward the request; a
    failing request is logged and raised again. *)
Definition matlab_call (site : string) (r : MatlabRequest) (b : Bridge)
    : outcome unit :=
  if matlab_is_connected b then
    let b1 := emit (matlab_request r) b in
    match matlab_engine b r with
    | None => Returns () b1
    | Some e => Raises e (emit (logger_error site e) b1)
    end
  else Raises (Exception "MATLAB引擎未連接") b.

(** [command_type == 'literal'], where [command_type] comes from [.get]. *)
Definition is_kind (command_type : option string) (literal : string) : bool :=
  match command_type with
  | Some s => String.eqb s literal
  | None => false
  end.

(** [DroneSimulationBridge._execute_matlab_command] (lines 876-896). *)
Definition _execute_matlab_command (command_data : CommandData) (b : Bridge)
    : Bridge :=
  if negb (matlab_is_connected b) then b
  else
    let command_type := cmd_type command_data in
    let attempt : outcome unit :=
      if is_kind command_type "start_simulation" then
        matlab_call "MATLAB函數調用失敗"
          (call_function "start_simulation" []) b
      else if is_kind command_type "stop_simulation" then
        matlab_call "MATLAB函數調用失敗"
          (call_function "stop_simulation" []) b
      else if is_kind command_type "load_mission" then
        matlab_call "MATLAB函數調用失敗"
          (call_function "load_qgc_file" [cmd_file command_data]) b
      else if is_kind command_type "set_safety_distance" then
        matlab_call "MATLAB表達式執行失敗"
          (evaluate_safety_distance
             (default 5%float (cmd_distance command_data))) b
      else Returns () b in
    match attempt with
    | Returns _ b1 => b1
    | Raises e b1 => emit (logger_error "MATLAB命令執行錯誤" e) b1
    | Blocks b1 => b1
    end.

(** The command kinds the dispatcher has a branch for. *)
Definition known_kinds : list string :=
  ["start_simulation"; "stop_simulation"; "load_mission";
   "set_safety_distance"].

(** A command whose ['type'] is none of them (or is missing). *)
Definition unknown_kind (command_data : CommandData) : bool :=
  negb (existsb (is_kind (cmd_type command_data)) known_kinds).

(** ** Tick: draining the queue *)

(** [DroneSimulationBridge._process_data_item] (lines 636-645).  The class
    defines no method [_update_mission_waypoints], so the attribute lookup
    at line 643 raises. *)
Definition _process_data_item (data_item : DataItem) (b : Bridge)
    : outcome unit :=
  match data_item with
  | drone_state data => Returns () (_update_drone_state data b)
  | mission_waypoint data =>
      Raises (AttributeError "_update_mission_waypoints") b
  | matlab_command data => Returns () (_execute_matlab_command data b)
  end.

(** The loop of [_process_data_queue] (lines 626-634) over the items still
    queued: [get_nowait] takes the front item, and [processed_count] grows
    only when the item's handler returns. *)
Fixpoint process_loop (items : list DataItem) (processed_count : nat)
    (b : Bridge) : Bridge :=
  match items with
  | [] => b
  | data_item :: rest =>
      if decide (processed_count < 10) then
        match _process_data_item data_item (set_data_queue rest b) with
        | Returns _ b1 => process_loop rest (S processed_count) b1
        | Raises e b1 =>
            process_loop rest processed_count
              (emit (logger_error "數據處理錯誤" e) b1)
        | Blocks b1 => b1
        end
      else b
  end.

(** [DroneSimulationBridge._process_data_queue] (lines 622-634). *)
Definition _process_data_queue (b : Bridge) : Bridge :=
  process_loop (data_queue b) 0 b.

(** ** Public API *)

(** Python truth value of an optional list argument. *)
Definition truthy {A : Type} (arg : option (list A)) : bool :=
  match arg with
  | Some (_ :: _) => true
  | _ => false
  end.

(** The dictionary built at lines 902-910. *)
Definition add_drone_state_data (drone_id : string) (position : list float)
    (velocity attitude : option (list float)) : StateData :=
  {| sd_drone_id := drone_id;
     sd_position := Some position;
     sd_velocity := if truthy velocity then velocity else None;
     sd_attitude := if truthy attitude then attitude else None;
     sd_battery_voltage := None; sd_flight_mode := None;
     sd_armed := None; sd_gps_fix := None |}.

(** [DroneSimulationBridge.add_drone_state] (lines 899-915). *)
Definition add_drone_state (drone_id : string) (position : list float)
    (velocity attitude : option (list float)) (b : Bridge) : outcome unit :=
  Queue_put
    (drone_state (add_drone_state_data drone_id position velocity attitude)) b.

(** [str.split(sep)] for a one-character separator. *)
Fixpoint split (sep : ascii) (s : list ascii) : list (list ascii) :=
  match s with
  | [] => [[]]
  | c :: s' =>
      if Ascii.eqb c sep then [] :: split sep s'
      else match split sep s' with
           | seg :: segs => (c :: seg) :: segs
           | [] => [[c]]
           end
  end.

(** The white space [int] strips from ASCII text ([Py_ISSPACE]): tab, line
    feed, vertical tab, form feed, carriage return and space.  The
    separators of codes 28 to 31, which [str.strip] removes, are not among
    them. *)
Definition is_space (c : ascii) : bool :=
  let n := nat_of_ascii c in
  (Nat.leb 9 n && Nat.leb n 13) || Nat.eqb n 32.

Fixpoint lstrip (s : list ascii) : list ascii :=
  match s with
  | c :: s' => if is_space c then lstrip s' else s
  | [] => []
  end.

Definition strip (s : list ascii) : list ascii :=
  rev (lstrip (rev (lstrip s))).

Definition digit (c : ascii) : option Z :=
  let n := nat_of_ascii c in
  if Nat.leb 48 n && Nat.leb n 57 then Some (Z.of_nat n - 48)%Z else None.

Fixpoint digits (acc : Z) (s : list ascii) : option Z :=
  match s with
  | [] => Some acc
  | c :: s' =>
      match digit c with
      | Some d => digits (10 * acc + d)%Z s'
      | None => None
      end
  end.

(** [int(s)] on ASCII text: optional white space around an optional sign
    and at least one decimal digit; [None] stands for [ValueError].  Digit
    groups joined by single underscores are not used by any id below and
    are read as an error here.  Two things are outside this definition:
    text with characters beyond ASCII, where [int] also reads the decimal
    digits and strips the white space of other scripts, and the
    interpreter's limit on the number of digits ([int_max_str_digits]),
    beyond which [int] raises. *)
Definition py_int (s : list ascii) : option Z :=
  match strip s with
  | [] => None
  | c :: ds =>
      if Ascii.eqb c "+"%char then
        match ds with [] => None | _ => digits 0 ds end
      else if Ascii.eqb c "-"%char then
        match ds with [] => None | _ => Z.opp <$> digits 0 ds end
      else digits 0 (c :: ds)
  end.

(** Line 921: [int(drone_id.split('_')[-1]) if '_' in drone_id else 1]. *)
Definition target_system_of (drone_id : string) : option Z :=
  let s := String.list_ascii_of_string drone_id in
  if existsb (Ascii.eqb "_"%char) s then py_int (default [] (last (split "_"%char s)))
  else Some 1%Z.

(** The default of [sys.get_int_max_str_digits()], which the program never
    changes: [int] raises [ValueError] on text with more decimal digits. *)
Definition int_max_str_digits : nat := 4300.

(** The messages of an upload in the order of lines 222-239. *)
Definition mission_messages (waypoints : list MissionWaypoint)
    : list MissionMessage :=
  MISSION_CLEAR_ALL :: MISSION_COUNT (length waypoints)
    :: (MISSION_ITEM <$> waypoints).

(** The sends of lines 222-239 one after the other, [n] of them already
    made: the first one that raises ends the [try] block, and a send that
    raises puts nothing on the link. *)
Fixpoint send_all (target_system : Z) (n : nat) (msgs : list MissionMessage)
    (b : Bridge) : option exn * Bridge :=
  match msgs with
  | [] => (None, b)
  | m :: rest =>
      match mavlink_send_raises b n with
      | Some e => (Some e, b)
      | None =>
          send_all target_system (S n) rest (emit (mavlink_send target_system m) b)
      end
  end.

(** [MAVLinkInterface.send_waypoint_mission] (lines 215-246): a failure of
    the link part-way through the upload is caught, logged and turned into
    [False]; the messages sent before it stay sent. *)
Definition send_waypoint_mission (waypoints : list MissionWaypoint)
    (target_system : Z) (b : Bridge) : bool * Bridge :=
  if negb (mavlink_is_connected b) || negb (MAVLINK_AVAILABLE b) then (false, b)
  else
    match send_all target_system 0 (mission_messages waypoints) b with
    | (None, b1) => (true, b1)
    | (Some e, b1) => (false, emit (logger_error "發送航點任務失敗" e) b1)
    end.

Definition waypoint_dict (wp : MissionWaypoint) : WaypointDict :=
  {| wd_sequence := sequence wp; wd_lat := lat wp; wd_lon := lon wp;
     wd_alt := alt wp; wd_command := command wp |}.

(** [DroneSimulationBridge.send_mission_to_drone] (lines 917-943). *)
Definition send_mission_to_drone (drone_id : string)
    (waypoints : list MissionWaypoint) (b : Bridge) : outcome unit :=
  let sent : outcome unit :=
    if MAVLINK_AVAILABLE b && mavlink_is_connected b then
      match target_system_of drone_id with
      | Some target_system =>
          Returns () (snd (send_waypoint_mission waypoints target_system b))
      | None => Raises (ValueError "invalid literal for int() with base 10") b
      end
    else Returns () b in
  match sent with
  | Returns _ b1 =>
      let b2 :=
        set_mission_waypoints
          (<[drone_id := waypoints]> (mission_waypoints b1)) b1 in
      Queue_put
        (mission_waypoint
           {| md_drone_id := drone_id;
              md_waypoints := map waypoint_dict waypoints |}) b2
  | Raises e b1 => Raises e b1
  | Blocks b1 => Blocks b1
  end.

(** The bridge a call leaves behind, whatever its outcome. *)
Definition bridge_after {A : Type} (o : outcome A) : Bridge :=
  match o with
  | Returns _ b => b
  | Raises _ b => b
  | Blocks b => b
  end.

(** ** Pace and shutdown *)

(** [self.update_interval = 0.1] (line 533), as the double Python reads. *)
Definition update_interval : float := 0x1.999999999999ap-4%float.

(** [DroneSimulationBridge.stop] (lines 575-593). *)
Definition stop (b : Bridge) : Bridge :=
  set_connected false false (set_running false b).

(** ** Concrete bridges and inputs used below *)

Definition a1_at_123 : StateData :=
  partial "a1" (Some (vec3 1 2 3)) None None.

Definition a1_at_456 : StateData :=
  partial "a1" (Some (vec3 4 5 6)) None None.

(** A bridge whose queue holds [maxsize] items. *)
Definition full_bridge : Bridge :=
  set_data_queue (replicate maxsize (drone_state a1_at_123)) fresh_bridge.

(** A bridge whose MAVLink link is up. *)
Definition mavlink_up : Bridge := set_connected false true fresh_bridge.

(** A bridge whose MATLAB engine is connected. *)
Definition matlab_up : Bridge := set_connected true false fresh_bridge.

Definition waypoint (seq : Z) : MissionWaypoint :=
  mkMissionWaypoint seq 0 0 0 16 0 0 0 0 true.

Definition seq0 : MissionWaypoint := waypoint 0.
Definition seq1 : MissionWaypoint := waypoint 1.

(** The bridge after [n] calls of [send_mission_to_drone("a1", [seq0])]. *)
Fixpoint after_missions (n : nat) (b : Bridge) : Bridge :=
  match n with
  | 0 => b
  | S n' => after_missions n' (bridge_after (send_mission_to_drone "a1" [seq0] b))
  end.

Definition land_command : CommandData :=
  {| cmd_type := Some "land"; cmd_file := None; cmd_distance := None |}.

(** The bridge holding agent a1 at position (1, 2, 3). *)
Definition with_a1 : Bridge := _update_drone_state a1_at_123 fresh_bridge.

(** [state.timestamp = t] on its own. *)
Definition with_timestamp (t : float) (state : DroneState) : DroneState :=
  {| drone_id := drone_id state; timestamp := t;
     position := position state; velocity := velocity state;
     attitude := attitude state; battery_voltage := battery_voltage state;
     flight_mode := flight_mode state; armed := armed state;
     gps_fix := gps_fix state |}.

(** Two floats told apart by the IEEE comparison are different values. *)
Definition same_reading (x y : float) : bool := PrimFloat.eqb x y.

(** An item whose handler returns. *)
Definition handled (item : DataItem) : Prop :=
  match item with
  | mission_waypoint _ => False
  | _ => True
  end.

(** The queue stays within its capacity. *)
Definition bounded (b : Bridge) : Prop :=
  length (data_queue b) <= maxsize.

(** ** Extensions: runs of queue items and store statistics *)

(** The agent ids named by a run of updates. *)
Definition ids_of (us : list StateData) : gset string :=
  list_to_set (sd_drone_id <$> us).

(** The updates of a run that are addressed to agent [d]. *)
Definition updates_for (d : string) (us : list StateData) : list StateData :=
  filter (fun u => sd_drone_id u = d) us.

(** A run with updates to two agents interleaved. *)
Definition interleaved_run : list StateData :=
  [ a1_at_123;
    partial "b2" (Some (vec3 7 8 9)) None None;
    partial "a1" None (Some (vec3 0 0 1)) None;
    partial "b2" None None (Some (vec3 1 1 1));
    a1_at_456 ].

(** A queue item that is a mission item. *)
Definition is_mission (item : DataItem) : Prop :=
  match item with
  | mission_waypoint _ => True
  | _ => False
  end.

(** The error the drain logs for a mission item. *)
Definition mission_item_error : Effect :=
  logger_error "數據處理錯誤" (AttributeError "_update_mission_waypoints").

(** [k] ticks' worth of draining. *)
Fixpoint drain_times (k : nat) (b : Bridge) : Bridge :=
  match k with
  | 0 => b
  | S k' => drain_times k' (_process_data_queue b)
  end.

(** A bridge with twelve state updates queued. *)
Definition twelve_queued : Bridge :=
  set_data_queue (replicate 12 (drone_state a1_at_123)) fresh_bridge.

(** The item [add_drone_state] enqueues. *)
Definition added_item (drone_id : string) (position : list float)
    (velocity attitude : option (list float)) : DataItem :=
  drone_state (add_drone_state_data drone_id position velocity attitude).

(** Emit a run of effects in order. *)
Definition emit_all (es : list Effect) (b : Bridge) : Bridge :=
  foldl (fun acc e => emit e acc) b es.

(** ** Extensions: the dispatcher's requests *)

(** A queue item that is a MATLAB command. *)
Definition is_command (item : DataItem) : Prop :=
  match item with
  | matlab_command _ => True
  | _ => False
  end.

(** The log site of the MATLAB call a request goes through:
    [call_function] or [evaluate]. *)
Definition call_site (r : MatlabRequest) : string :=
  match r with
  | call_function _ _ => "MATLAB函數調用失敗"
  | evaluate_safety_distance _ => "MATLAB表達式執行失敗"
  end.

(** What the dispatcher emits for a request [r] on engine [engine]. *)
Definition request_effects (engine : MatlabRequest -> option exn)
    (r : MatlabRequest) : list Effect :=
  match engine r with
  | None => [matlab_request r]
  | Some e =>
      [matlab_request r; logger_error (call_site r) e;
       logger_error "MATLAB命令執行錯誤" e]
  end.

(** An engine on which every request fails. *)
Definition broken_engine (r : MatlabRequest) : option exn :=
  Some (Exception "engine down").

Definition matlab_broken : Bridge :=
  set_connected true false
    (init true ticking_clock broken_engine no_wire_fault).

Definition load_without_file : CommandData :=
  {| cmd_type := Some "load_mission"; cmd_file := None; cmd_distance := None |}.

Definition safety_without_distance : CommandData :=
  {| cmd_type := Some "set_safety_distance"; cmd_file := None;
     cmd_distance := None |}.

(** A bridge with MATLAB down and twelve commands queued. *)
Definition commands_queued : Bridge :=
  set_data_queue (replicate 12 (matlab_command load_without_file)) fresh_bridge.

(** ** Extensions: missions and MAVLink identifiers *)

(** The queue item [send_mission_to_drone] builds (lines 928-943). *)
Definition mission_item (drone_id : string) (waypoints : list MissionWaypoint)
    : DataItem :=
  mission_waypoint {| md_drone_id := drone_id;
                      md_waypoints := map waypoint_dict waypoints |}.

(** [str(n)] for a Python integer. *)
Definition py_str (n : Z) : string := pretty n.

(** The agent id the MAVLink handlers give to system [src]
    (lines 808, 831, 849): [f"mavlink_{msg.get_srcSystem()}"]. *)
Definition mavlink_drone_id (src : Z) : string := "mavlink_" +:+ py_str src.

(** A link that goes down after the first two sends of an upload. *)
Definition lost_after_two (n : nat) : option exn :=
  if Nat.ltb n 2 then None else Some (Exception "link lost").

(** A bridge whose link is up and fails part-way through an upload. *)
Definition mavlink_failing : Bridge :=
  set_connected false true
    (init true ticking_clock no_engine_fault lost_after_two).

(** A character [digit] accepts. *)
Definition is_digit (c : ascii) : Prop := exists d, digit c = Some d.

(** ** Extensions: MAVLink telemetry *)

(** The fields the handlers read from a [GLOBAL_POSITION_INT], an
    [ATTITUDE] and a [SYS_STATUS] message; integers are at most 32 bits
    wide on the wire. *)
Record GlobalPositionInt : Type := mkGlobalPositionInt {
  gp_srcSystem : Z;
  gp_lat : Z;
  gp_lon : Z;
  gp_alt : Z;
  gp_vx : Z;
  gp_vy : Z;
  gp_vz : Z
}.

Record AttitudeMsg : Type := mkAttitudeMsg {
  at_srcSystem : Z;
  at_roll : float;
  at_pitch : float;
  at_yaw : float
}.

Record SysStatus : Type := mkSysStatus {
  st_srcSystem : Z;
  st_voltage_battery : Z;
  st_onboard_control_sensors_enabled : Z
}.

(** [float(n)] for an integer below 2^63 in magnitude. *)
Definition float_of_int (n : Z) : float :=
  if (n <? 0)%Z then PrimFloat.opp (PrimFloat.of_uint63 (Uint63.of_Z (- n)))
  else PrimFloat.of_uint63 (Uint63.of_Z n).

(** [n / d] for an integer [n] and a float [d]. *)
Definition true_div (n : Z) (d : float) : float :=
  PrimFloat.div (float_of_int n) d.

(** The dictionary built at lines 810-822. *)
Definition position_data (msg : GlobalPositionInt) : StateData :=
  {| sd_drone_id := mavlink_drone_id (gp_srcSystem msg);
     sd_position :=
       Some [true_div (gp_lat msg) 10000000; true_div (gp_lon msg) 10000000;
             true_div (gp_alt msg) 1000];
     sd_velocity :=
       Some [true_div (gp_vx msg) 100; true_div (gp_vy msg) 100;
             true_div (gp_vz msg) 100];
     sd_attitude := None; sd_battery_voltage := None; sd_flight_mode := None;
     sd_armed := None; sd_gps_fix := None |}.

(** The dictionary built at lines 833-840. *)
Definition attitude_data (msg : AttitudeMsg) : StateData :=
  {| sd_drone_id := mavlink_drone_id (at_srcSystem msg);
     sd_position := None; sd_velocity := None;
     sd_attitude := Some [at_roll msg; at_pitch msg; at_yaw msg];
     sd_battery_voltage := None; sd_flight_mode := None;
     sd_armed := None; sd_gps_fix := None |}.

(** [bool(x & 0x80000000)] *)
Definition armed_flag (sensors_enabled : Z) : bool :=
  negb (Z.eqb (Z.land sensors_enabled 2147483648) 0).

(** The dictionary built at lines 851-855. *)
Definition status_data (msg : SysStatus) : StateData :=
  {| sd_drone_id := mavlink_drone_id (st_srcSystem msg);
     sd_position := None; sd_velocity := None; sd_attitude := None;
     sd_battery_voltage := Some (true_div (st_voltage_battery msg) 1000);
     sd_flight_mode := None;
     sd_armed :=
       Some (armed_flag (st_onboard_control_sensors_enabled msg));
     sd_gps_fix := None |}.

(** [_handle_mavlink_position] (lines 806-827). *)
Definition _handle_mavlink_position (msg : GlobalPositionInt) (b : Bridge)
    : outcome unit :=
  Queue_put (drone_state (position_data msg)) b.

(** [_handle_mavlink_attitude] (lines 829-845). *)
Definition _handle_mavlink_attitude (msg : AttitudeMsg) (b : Bridge)
    : outcome unit :=
  Queue_put (drone_state (attitude_data msg)) b.

(** [_handle_mavlink_status] (lines 847-860). *)
Definition _handle_mavlink_status (msg : SysStatus) (b : Bridge)
    : outcome unit :=
  Queue_put (drone_state (status_data msg)) b.

(** Three messages from system 7. *)
Definition position_msg_7 : GlobalPositionInt :=
  mkGlobalPositionInt 7 473977420 85455940 488000 100 (-50) 0.

Definition attitude_msg_7 : AttitudeMsg := mkAttitudeMsg 7 0 0 1.

Definition status_msg_7 : SysStatus := mkSysStatus 7 12600 2147483648.

(** The three updates in the order status, position, attitude. *)
Definition telemetry_run_7 : list StateData :=
  [status_data status_msg_7; position_data position_msg_7;
   attitude_data attitude_msg_7].

(** *** The MAVLink message loop *)

(** Messages read from the link; a message the bridge has no use for is
    represented by a heartbeat. *)
Inductive MavlinkMessage : Type :=
| GLOBAL_POSITION_INT (msg : GlobalPositionInt)
| ATTITUDE (msg : AttitudeMsg)
| SYS_STATUS (msg : SysStatus)
| HEARTBEAT (srcSystem : Z).

(** [msg.get_type()] *)
Definition get_type (msg : MavlinkMessage) : string :=
  match msg with
  | GLOBAL_POSITION_INT _ => "GLOBAL_POSITION_INT"
  | ATTITUDE _ => "ATTITUDE"
  | SYS_STATUS _ => "SYS_STATUS"
  | HEARTBEAT _ => "HEARTBEAT"
  end.

(** A registered callable. *)
Definition Handler : Type := MavlinkMessage -> Bridge -> outcome unit.

(** The three bound methods as callables on any message: reading a field
    the message does not have raises [AttributeError]. *)
Definition on_position : Handler := fun msg b =>
  match msg with
  | GLOBAL_POSITION_INT m => _handle_mavlink_position m b
  | _ => Raises (AttributeError "lat") b
  end.

Definition on_attitude : Handler := fun msg b =>
  match msg with
  | ATTITUDE m => _handle_mavlink_attitude m b
  | _ => Raises (AttributeError "roll") b
  end.

Definition on_status : Handler := fun msg b =>
  match msg with
  | SYS_STATUS m => _handle_mavlink_status m b
  | _ => Raises (AttributeError "voltage_battery") b
  end.

(** [MAVLinkInterface.register_handler] (lines 209-213). *)
Definition register_handler (message_type : string) (handler : Handler)
    (message_handlers : gmap string (list Handler))
    : gmap string (list Handler) :=
  <[message_type := default [] (message_handlers !! message_type) ++ [handler]]>
    message_handlers.

(** The registrations of [start] (lines 551-553). *)
Definition handlers_at_start : gmap string (list Handler) :=
  register_handler "SYS_STATUS" on_status
    (register_handler "ATTITUDE" on_attitude
       (register_handler "GLOBAL_POSITION_INT" on_position ∅)).

(** Lines 276-280: call every handler, log the ones that raise. *)
Fixpoint call_handlers (handlers : list Handler) (msg : MavlinkMessage)
    (b : Bridge) : outcome unit :=
  match handlers with
  | [] => Returns () b
  | handler :: rest =>
      match handler msg b with
      | Returns _ b1 => call_handlers rest msg b1
      | Raises e b1 =>
          call_handlers rest msg (emit (logger_error "消息處理器錯誤" e) b1)
      | Blocks b1 => Blocks b1
      end
  end.

(** Lines 271-280 for a message that was received. *)
Definition dispatch_message (message_handlers : gmap string (list Handler))
    (msg : MavlinkMessage) (b : Bridge) : outcome unit :=
  match message_handlers !! get_type msg with
  | Some handlers => call_handlers handlers msg b
  | None => Returns () b
  end.

(** What one turn of the loop meets: the loop condition has become false,
    [recv_match] timed out, returned a message, or raised. *)
Inductive Poll : Type :=
| poll_stopped
| poll_timeout
| poll_message (msg : MavlinkMessage)
| poll_error (e : exn).

(** Where the message loop is once the polls have been played. *)
Inductive message_loop_state : Type :=
| loop_ended (b : Bridge)    (* the thread has returned *)
| loop_polling (b : Bridge)  (* about to poll again *)
| loop_blocked (b : Bridge)  (* suspended inside a handler *).

Definition loop_bridge (s : message_loop_state) : Bridge :=
  match s with
  | loop_ended b => b
  | loop_polling b => b
  | loop_blocked b => b
  end.

(** [MAVLinkInterface._message_loop] (lines 266-284). *)
Fixpoint _message_loop (message_handlers : gmap string (list Handler))
    (polls : list Poll) (b : Bridge) : message_loop_state :=
  match polls with
  | [] => loop_polling b
  | poll_stopped :: _ => loop_ended b
  | poll_timeout :: rest => _message_loop message_handlers rest b
  | poll_message msg :: rest =>
      match dispatch_message message_handlers msg b with
      | Returns _ b1 => _message_loop message_handlers rest b1
      | Raises e b1 => loop_ended (emit (logger_error "消息接收錯誤" e) b1)
      | Blocks b1 => loop_blocked b1
      end
  | poll_error e :: _ => loop_ended (emit (logger_error "消息接收錯誤" e) b)
  end.

(** The state update a message is turned into, if any. *)
Definition update_of_poll (p : Poll) : option StateData :=
  match p with
  | poll_message (GLOBAL_POSITION_INT m) => Some (position_data m)
  | poll_message (ATTITUDE m) => Some (attitude_data m)
  | poll_message (SYS_STATUS m) => Some (status_data m)
  | _ => None
  end.

(** A poll that lets the loop go on. *)
Definition goes_on (p : Poll) : Prop :=
  match p with
  | poll_stopped | poll_error _ => False
  | _ => True
  end.

Definition telemetry_polls : list Poll :=
  [poll_message (HEARTBEAT 7); poll_message (SYS_STATUS status_msg_7);
   poll_timeout; poll_message (GLOBAL_POSITION_INT position_msg_7);
   poll_message (ATTITUDE attitude_msg_7)].

(** ** Extensions: the WebSocket fan-out *)

(** What [await client.send(message)] does for one client. *)
Inductive SendResult : Type :=
| sent
| connection_closed                (* [websockets.exceptions.ConnectionClosed] *)
| send_failed (e : exn).

Definition delivered (r : SendResult) : bool :=
  match r with
  | sent => true
  | _ => false
  end.

(** The loop of [broadcast_data] (lines 420-427) over the clients still to
    be served, in the order the set yields them. *)
Fixpoint broadcast_loop (send : nat -> SendResult) (clients : list nat)
    (disconnected : gset nat) (b : Bridge) : gset nat * Bridge :=
  match clients with
  | [] => (disconnected, b)
  | client :: rest =>
      match send client with
      | sent => broadcast_loop send rest disconnected b
      | connection_closed =>
          broadcast_loop send rest (disconnected ∪ {[client]}) b
      | send_failed e =>
          broadcast_loop send rest (disconnected ∪ {[client]})
            (emit (logger_error "廣播錯誤" e) b)
      end
  end.

(** [WebSocketServer.broadcast_data] (lines 414-431) for a dictionary
    [json.dumps] accepts: the new set of clients and the bridge with its
    log. *)
Definition broadcast_data (send : nat -> SendResult) (clients : gset nat)
    (b : Bridge) : gset nat * Bridge :=
  if decide (clients = ∅) then (clients, b)
  else
    let '(disconnected, b1) := broadcast_loop send (elements clients) ∅ b in
    (clients ∖ disconnected, b1).

(** The log entry a client's send leaves. *)
Definition send_log (r : SendResult) : option Effect :=
  match r with
  | send_failed e => Some (logger_error "廣播錯誤" e)
  | _ => None
  end.

(** Clients 1 and 3 receive, client 2 has closed, client 4 fails. *)
Definition flaky_send (client : nat) : SendResult :=
  match client with
  | 2 => connection_closed
  | 4 => send_failed (Exception "broken pipe")
  | _ => sent
  end.

(** ** Extensions: the ZeroMQ publisher and the statistics *)

(** [self.socket]: none before a setup call, then a publisher or a
    subscriber socket. *)
Inductive SocketType : Type := PUB | SUB.

(** The dictionary built at lines 774-781. *)
Record ZmqData : Type := mkZmqData {
  zd_timestamp : float;
  zd_drone_count : nat;
  zd_positions : gmap string (list float)
}.

(** The envelope built at lines 477-481. *)
Record ZmqMessage : Type := mkZmqMessage {
  zm_topic : string;
  zm_timestamp : float;
  zm_data : ZmqData
}.

(** [ZMQCommunicator.send_data] (lines 474-482): the message handed to the
    socket, if any; [send_raises] is what [send_string] does. *)
Definition send_data (socket : option SocketType) (send_raises : option exn)
    (topic : string) (data : ZmqData) (b : Bridge)
    : outcome (option ZmqMessage) :=
  match socket with
  | Some PUB =>
      let '(t, b1) := time b in
      match send_raises with
      | None => Returns (Some (mkZmqMessage topic t data)) b1
      | Some e => Raises e b1
      end
  | _ => Returns None b
  end.

(** [{drone_id: state.position.tolist() for ...}] *)
Definition positions_of (b : Bridge) : gmap string (list float) :=
  omap (fun ref => position <$> heap b !! ref) (drone_states b).

(** [DroneSimulationBridge._send_zmq_data] (lines 770-786): the message
    that went out, if any, and the bridge. *)
Definition _send_zmq_data (socket : option SocketType)
    (send_raises : option exn) (b : Bridge) : option ZmqMessage * Bridge :=
  if decide (drone_states b = ∅) then (None, b)
  else
    let '(t, b1) := time b in
    let zmq_data := mkZmqData t (size (drone_states b1)) (positions_of b1) in
    match send_data socket send_raises "simulation_update" zmq_data b1 with
    | Returns m b2 => (m, b2)
    | Raises e b2 => (None, emit (logger_error "ZMQ發送錯誤" e) b2)
    | Blocks b2 => (None, b2)
    end.

(** The dictionary [get_simulation_stats] returns (lines 949-958). *)
Record SimulationStats : Type := mkSimulationStats {
  connected_drones : nat;
  matlab_connected : bool;
  mavlink_connected : bool;
  ros2_initialized : bool;
  websocket_clients : nat;
  stats_running : bool
}.

(** [DroneSimulationBridge.get_simulation_stats]; the ROS2 flags and the
    WebSocket clients are the parts of the object outside [Bridge]. *)
Definition get_simulation_stats (ROS2_AVAILABLE ros2_is_initialized : bool)
    (clients : gset nat) (b : Bridge) : SimulationStats :=
  {| connected_drones := size (drone_states b);
     matlab_connected := matlab_is_connected b;
     mavlink_connected :=
       if MAVLINK_AVAILABLE b then mavlink_is_connected b else false;
     ros2_initialized :=
       if ROS2_AVAILABLE then ros2_is_initialized else false;
     websocket_clients := size clients;
     stats_running := running b |}.

(** ** Extensions: pauses and clients *)

(** The pauses in a trace of effects, in order. *)
Definition sleeps_of (es : list Effect) : list float :=
  omap (fun e => match e with
                 | asyncio_sleep seconds => Some seconds
                 | _ => None
                 end) es.

(** *** Clients coming and going *)

(** [self.clients.add(websocket)] (line 405). *)
Definition register_enter (websocket : nat) (clients : gset nat) : gset nat :=
  clients ∪ {[websocket]}.

(** The [finally] block of [register] (line 411): [set.remove] raises
    [KeyError] for an element that is not in the set; [None] stands for
    that. *)
Definition register_leave (websocket : nat) (clients : gset nat)
    : option (gset nat) :=
  if decide (websocket ∈ clients) then Some (clients ∖ {[websocket]})
  else None.

Definition four_clients : gset nat := {[1; 2; 3; 4]}.

(** ** Extensions: the MATLAB steps of a tick *)

(** What a tick tells MATLAB about one agent (lines 690-695). *)
Record AgentSync : Type := mkAgentSync {
  as_position : list float;
  as_velocity : list float;
  as_attitude : list float;
  as_timestamp : float
}.

(** The expressions the tick evaluates; the JSON text passed to
    [update_drone_states_from_python] is represented by the dictionary it
    encodes. *)
Inductive Expression : Type :=
| simulator_current_time
| simulator_is_playing
| update_drone_states_from_python (state_data : gmap string AgentSync).

(** Values MATLAB hands back. *)
Inductive MatlabValue : Type :=
| mv_double (x : float)
| mv_logical (v : bool).

(** [bool(v)] *)
Definition py_bool (v : MatlabValue) : bool :=
  match v with
  | mv_double x => negb (PrimFloat.eqb x 0)
  | mv_logical v => v
  end.

(** [self.engine.eval]: a value, or an exception. *)
Definition Engine : Type := Expression -> MatlabValue + exn.

(** The bridge together with the expressions evaluated so far. *)
Record Session : Type := mkSession {
  bridge : Bridge;
  evaluated : list Expression
}.

Definition log_error (site : string) (e : exn) (s : Session) : Session :=
  mkSession (emit (logger_error site e) (bridge s)) (evaluated s).

Inductive eval_result : Type :=
| eval_returns (v : MatlabValue) (s : Session)
| eval_raises (e : exn) (s : Session).

(** [MATLABBridge.evaluate] (lines 141-151). *)
Definition evaluate (engine : Engine) (expression : Expression) (s : Session)
    : eval_result :=
  if matlab_is_connected (bridge s) then
    let s1 := mkSession (bridge s) (evaluated s ++ [expression]) in
    match engine expression with
    | inl v => eval_returns v s1
    | inr e => eval_raises e (log_error "MATLAB表達式執行失敗" e s1)
    end
  else eval_raises (Exception "MATLAB引擎未連接") s.

(** The dictionary built at lines 689-697. *)
Definition sync_data (b : Bridge) : gmap string AgentSync :=
  omap (fun ref =>
          (fun state => mkAgentSync (position state) (velocity state)
                          (attitude state) (timestamp state))
            <$> heap b !! ref)
    (drone_states b).

(** [_update_matlab_drone_states] (lines 709-716). *)
Definition _update_matlab_drone_states (engine : Engine)
    (state_data : gmap string AgentSync) (s : Session) : Session :=
  match evaluate engine (update_drone_states_from_python state_data) s with
  | eval_returns _ s1 => s1
  | eval_raises e s1 => log_error "MATLAB狀態更新失敗" e s1
  end.

(** [_update_matlab_simulation] (lines 674-707); the calls handed to the
    thread pool are awaited, so they run in sequence. *)
Definition _update_matlab_simulation (engine : Engine) (s : Session) : Session :=
  if negb (matlab_is_connected (bridge s)) then s
  else
    match evaluate engine simulator_current_time s with
    | eval_returns _ s1 =>
        if decide (drone_states (bridge s1) = ∅) then s1
        else _update_matlab_drone_states engine (sync_data (bridge s1)) s1
    | eval_raises e s1 => log_error "MATLAB模擬更新錯誤" e s1
    end.

(** The dictionary [_get_matlab_simulation_data] returns on success. *)
Record MatlabSimulation : Type := mkMatlabSimulation {
  ms_current_time : MatlabValue;
  ms_is_playing : bool;
  ms_drone_count : nat
}.

(** [_get_matlab_simulation_data] (lines 754-768); [None] is the empty
    dictionary returned after a failure. *)
Definition _get_matlab_simulation_data (engine : Engine) (s : Session)
    : option MatlabSimulation * Session :=
  match evaluate engine simulator_current_time s with
  | eval_raises e s1 => (None, log_error "獲取MATLAB數據失敗" e s1)
  | eval_returns current_time s1 =>
      match evaluate engine simulator_is_playing s1 with
      | eval_raises e s2 => (None, log_error "獲取MATLAB數據失敗" e s2)
      | eval_returns is_playing s2 =>
          (Some (mkMatlabSimulation current_time (py_bool is_playing)
                   (size (drone_states (bridge s2)))), s2)
      end
  end.

(** What a viewer is told about one agent (lines 728-735). *)
Record AgentView : Type := mkAgentView {
  av_position : list float;
  av_velocity : list float;
  av_attitude : list float;
  av_battery_voltage : float;
  av_flight_mode : string;
  av_armed : bool
}.

Definition view_of (state : DroneState) : AgentView :=
  mkAgentView (position state) (velocity state) (attitude state)
    (battery_voltage state) (flight_mode state) (armed state).

(** The dictionary built at lines 725-746; the key ['matlab_simulation']
    may be missing, and may hold the empty dictionary. *)
Record BroadcastData : Type := mkBroadcastData {
  bd_timestamp : float;
  bd_drone_states : gmap string AgentView;
  bd_matlab_simulation : option (option MatlabSimulation)
}.

Definition views_of (b : Bridge) : gmap string AgentView :=
  omap (fun ref => view_of <$> heap b !! ref) (drone_states b).

(** [_broadcast_simulation_data] (lines 718-752): what was broadcast, if
    anything, the clients left and the session. *)
Definition _broadcast_simulation_data (send : nat -> SendResult)
    (engine : Engine) (clients : gset nat) (s : Session)
    : option BroadcastData * gset nat * Session :=
  if decide (clients = ∅) then (None, clients, s)
  else
    let '(t, b1) := time (bridge s) in
    let s1 := mkSession b1 (evaluated s) in
    let drone_views := views_of b1 in
    let '(matlab_key, s2) :=
      if matlab_is_connected b1 then
        let '(matlab_data, s2) := _get_matlab_simulation_data engine s1 in
        (Some matlab_data, s2)
      else (None, s1) in
    let '(clients', b3) := broadcast_data send clients (bridge s2) in
    (Some (mkBroadcastData t drone_views matlab_key), clients',
     mkSession b3 (evaluated s2)).

(** An engine that answers every query. *)
Definition healthy_engine : Engine := fun expression =>
  match expression with
  | simulator_is_playing => inl (mv_logical true)
  | _ => inl (mv_double 0)
  end.

(** An engine that fails every query. *)
Definition failing_engine : Engine := fun _ => inr (Exception "engine down").

(** A session on a bridge with MATLAB connected and agent a1 stored. *)
Definition matlab_session : Session :=
  mkSession (set_connected true false with_a1) [].

Definition sync_of (state : DroneState) : AgentSync :=
  mkAgentSync (position state) (velocity state) (attitude state)
    (timestamp state).

(** ** Extensions: commands from the ROS2 topic *)

(** [_handle_ros2_command] (lines 863-874); [json_loads] stands for
    [json.loads] on the message text, giving a command dictionary or
    raising. *)
Definition _handle_ros2_command (json_loads : string -> CommandData + exn)
    (msg_data : string) (b : Bridge) : outcome unit :=
  match json_loads msg_data with
  | inl command_data => Queue_put (matlab_command command_data) b
  | inr e => Returns () (emit (logger_error "ROS2命令處理錯誤" e) b)
  end.

Definition stop_command : CommandData :=
  {| cmd_type := Some "stop_simulation"; cmd_file := None;
     cmd_distance := None |}.

(** A parser whose every text decodes to the stop command. *)
Definition loads_stop (text : string) : CommandData + exn := inl stop_command.

(** ** Extensions: items and ids under the producers *)

(** An item that counts against the ten of a drain: its handler returns, so
    [processed_count] grows (line 630).  A mission item does not: its
    handler raises before the counter is touched. *)
Definition counts (item : DataItem) : bool :=
  match item with
  | mission_waypoint _ => false
  | _ => true
  end.

(** The state updates among a run of items, in order. *)
Definition updates_of (items : list DataItem) : list StateData :=
  omap (fun item => match item with
                    | drone_state data => Some data
                    | _ => None
                    end) items.

(** A queue with a command, a mission item and a state update of agent b2
    waiting. *)
Definition mixed_backlog : Bridge :=
  set_data_queue
    [matlab_command land_command; mission_item "a1" [seq0];
     drone_state (partial "b2" (Some (vec3 7 8 9)) None None)]
    fresh_bridge.

(** An agent id written in ASCII, the text [py_int] covers. *)
Definition ascii_text (s : string) : Prop :=
  Forall (fun c => nat_of_ascii c < 128) (String.list_ascii_of_string s).

(** The effects of an upload that got as far as its first [sent] messages
    and then failed with [e], or went through ([None]). *)
Definition upload_effects (target_system : Z)
    (waypoints : list MissionWaypoint) (sent : nat) (failure : option exn)
    : list Effect :=
  (mavlink_send target_system <$> take sent (mission_messages waypoints)) ++
  match failure with
  | Some e => [logger_error "發送航點任務失敗" e]
  | None => []
  end.

(** ** The ROS2 publisher *)

(** [geometry_msgs.msg.Point] *)
Record Point : Type := mkPoint {
  point_x : float;
  point_y : float;
  point_z : float
}.

(** A [nav_msgs.msg.Path] handed to a publisher: the topic it went out on
    and the positions of its poses. *)
Record PathMsg : Type := mkPathMsg {
  path_topic : string;
  path_poses : list Point
}.

(** The parts of [ROS2Bridge] (lines 286-392) the main loop uses;
    [self.node] is set exactly when [is_initialized] is. *)
Record ROS2Bridge : Type := mkROS2Bridge {
  is_initialized : bool;
  publishers : gset string;       (* the topics of [self.publishers] *)
  published : list PathMsg        (* what was published, oldest first *)
}.

(** [ROS2Bridge.create_publisher] (lines 345-353); [create_raises] is what
    [node.create_publisher] does for the topic. *)
Definition create_publisher (create_raises : string -> option exn)
    (topic : string) (r : ROS2Bridge) : option exn * ROS2Bridge :=
  if negb (is_initialized r) then (None, r)
  else
    match create_raises topic with
    | Some e => (Some e, r)
    | None =>
        (None,
         mkROS2Bridge (is_initialized r) (publishers r ∪ {[topic]})
           (published r))
    end.

(** [for x, y, z in waypoints] (line 375) on one waypoint: unpacking wants
    exactly three numbers. *)
Definition unpack3 (waypoint : list float) : option Point :=
  match waypoint with
  | [x; y; z] => Some (mkPoint x y z)
  | _ => None
  end.

(** [ROS2Bridge.publish_drone_path] (lines 365-382): the exception that
    comes out of it, if any, and the ROS2 side afterwards.  Without a node
    the clock read of line 373 raises; [publish_raises] is what
    [publisher.publish] does on the topic. *)
Definition publish_drone_path (create_raises publish_raises : string -> option exn)
    (topic : string) (waypoints : list (list float)) (r : ROS2Bridge)
    : option exn * ROS2Bridge :=
  let '(raised, r1) :=
    if decide (topic ∈ publishers r) then (None, r)
    else create_publisher create_raises topic r in
  match raised with
  | Some e => (Some e, r1)
  | None =>
      if negb (is_initialized r1) then (Some (AttributeError "get_clock"), r1)
      else
        match mapM unpack3 waypoints with
        | None => (Some (ValueError "values to unpack (expected 3)"), r1)
        | Some poses =>
            match publish_raises topic with
            | Some e => (Some e, r1)
            | None =>
                (None,
                 mkROS2Bridge (is_initialized r1) (publishers r1)
                   (published r1 ++ [mkPathMsg topic poses]))
            end
        end
  end.

(** [self.drone_states.items()]: a dictionary is iterated in insertion
    order.  An agent is inserted when its object is allocated (line 652)
    and is never removed or replaced, so that is the order of the
    references. *)
Definition drone_items (b : Bridge) : list (string * DroneState) :=
  mjoin
    (imap (fun ref state =>
             (fun entry : string * nat => (entry.1, state)) <$>
               filter (fun entry : string * nat => entry.2 = ref)
                 (map_to_list (drone_states b)))
       (heap b)).

(** The loop of lines 794-800: the first exception ends it. *)
Fixpoint publish_paths (create_raises publish_raises : string -> option exn)
    (items : list (string * DroneState)) (r : ROS2Bridge)
    : option exn * ROS2Bridge :=
  match items with
  | [] => (None, r)
  | (drone_id, state) :: rest =>
      let topic := "/drone_sim/" +:+ drone_id +:+ "/path" in
      match publish_drone_path create_raises publish_raises topic
              [position state] r with
      | (Some e, r1) => (Some e, r1)
      | (None, r1) => publish_paths create_raises publish_raises rest r1
      end
  end.

(** ** The main loop *)

(** The bridge object with the parts of its collaborators that a pass of
    the main loop reads or writes. *)
Record Runtime : Type := mkRuntime {
  session : Session;                 (* the bridge and the MATLAB session *)
  ws_clients : gset nat;             (* [websocket_server.clients] *)
  broadcasts : list BroadcastData;   (* what the viewers were sent *)
  zmq_socket : option SocketType;    (* [zmq_communicator.socket] *)
  zmq_messages : list ZmqMessage;    (* what the socket was handed *)
  ROS2_AVAILABLE : bool;
  ros2_bridge : ROS2Bridge
}.

Definition bridge_of (w : Runtime) : Bridge := bridge (session w).

Definition set_session (s : Session) (w : Runtime) : Runtime :=
  mkRuntime s (ws_clients w) (broadcasts w) (zmq_socket w) (zmq_messages w)
    (ROS2_AVAILABLE w) (ros2_bridge w).

Definition set_bridge (b : Bridge) (w : Runtime) : Runtime :=
  set_session (mkSession b (evaluated (session w))) w.

Definition set_ros2_bridge (r : ROS2Bridge) (w : Runtime) : Runtime :=
  mkRuntime (session w) (ws_clients w) (broadcasts w) (zmq_socket w)
    (zmq_messages w) (ROS2_AVAILABLE w) r.

(** [DroneSimulationBridge._update_ros2_topics] (lines 788-803). *)
Definition _update_ros2_topics (create_raises publish_raises : string -> option exn)
    (w : Runtime) : Runtime :=
  if negb (ROS2_AVAILABLE w) || negb (is_initialized (ros2_bridge w)) then w
  else
    match publish_paths create_raises publish_raises
            (drone_items (bridge_of w)) (ros2_bridge w) with
    | (None, r1) => set_ros2_bridge r1 w
    | (Some e, r1) =>
        set_bridge (emit (logger_error "ROS2更新錯誤" e) (bridge_of w))
          (set_ros2_bridge r1 w)
    end.

(** Exceptions that derive from [BaseException] only, which
    [except Exception] does not catch: the cancellation of the task
    ([asyncio.CancelledError], a [BaseException] since Python 3.8), an
    interrupt from the keyboard, [sys.exit]. *)
Inductive BaseException : Type :=
| CancelledError
| KeyboardInterrupt
| SystemExit.

(** What can come out of a statement of the loop body. *)
Inductive Raised : Type :=
| raised_exception (e : exn)            (* what [except Exception] catches *)
| raised_base (e : BaseException)       (* what it does not catch *).

(** The statements of the loop body: those of the [try] block (lines
    601-616) and the sleep of the handler (line 620). *)
Inductive Step : Type :=
| at_process_data_queue
| at_update_matlab_simulation
| at_broadcast_simulation_data
| at_send_zmq_data
| at_update_ros2_topics
| at_sleep
| at_error_sleep.

(** What the surroundings do during one pass of the loop body.  The
    collaborators answer the calls of the pass.  Something may be raised
    that the statement it reaches does not catch itself ([tick_fault]):
    every step of lines 603-614 catches [Exception] in its own body, so
    this is an exception raised by a handler's own logging call, or one
    thrown into the task; the statements before it have run, the statement
    itself and those after it are skipped, and a raise at [at_sleep] or
    [at_error_sleep] comes out of the [await] of line 616 or 620 before the
    pause is over.  [stop()] may run while the pass is suspended in the
    sleep that ends it (line 616 or 620). *)
Record Iteration : Type := mkIteration {
  matlab_eval : Engine;                         (* [engine.eval] *)
  client_send : nat -> SendResult;              (* [client.send] *)
  zmq_send_raises : option exn;                 (* [socket.send_string] *)
  create_publisher_raises : string -> option exn;
  publish_raises : string -> option exn;
  tick_fault : Step -> option Raised;
  stop_requested : bool
}.

(** One statement of the [try] block. *)
Definition run_step (it : Iteration) (k : Step) (w : Runtime) : Runtime :=
  match k with
  | at_process_data_queue => set_bridge (_process_data_queue (bridge_of w)) w
  | at_update_matlab_simulation =>
      set_session (_update_matlab_simulation (matlab_eval it) (session w)) w
  | at_broadcast_simulation_data =>
      let '(data, clients', s') :=
        _broadcast_simulation_data (client_send it) (matlab_eval it)
          (ws_clients w) (session w) in
      mkRuntime s' clients' (broadcasts w ++ option_list data)
        (zmq_socket w) (zmq_messages w) (ROS2_AVAILABLE w) (ros2_bridge w)
  | at_send_zmq_data =>
      let '(message, b') :=
        _send_zmq_data (zmq_socket w) (zmq_send_raises it) (bridge_of w) in
      mkRuntime (mkSession b' (evaluated (session w))) (ws_clients w)
        (broadcasts w) (zmq_socket w) (zmq_messages w ++ option_list message)
        (ROS2_AVAILABLE w) (ros2_bridge w)
  | at_update_ros2_topics =>
      _update_ros2_topics (create_publisher_raises it) (publish_raises it) w
  | at_sleep => set_bridge (emit (asyncio_sleep update_interval) (bridge_of w)) w
  | at_error_sleep => set_bridge (emit (asyncio_sleep 1%float) (bridge_of w)) w
  end.

(** The statements in order, up to the first one at which something is
    raised. *)
Fixpoint run_steps (it : Iteration) (steps : list Step) (w : Runtime)
    : Runtime + Raised * Runtime :=
  match steps with
  | [] => inl w
  | k :: rest =>
      match tick_fault it k with
      | Some r => inr (r, w)
      | None => run_steps it rest (run_step it k w)
      end
  end.

(** Lines 601-614 in order: the work of a pass. *)
Definition work : list Step :=
  [at_process_data_queue; at_update_matlab_simulation;
   at_broadcast_simulation_data; at_send_zmq_data; at_update_ros2_topics].

(** Lines 601-616 in order. *)
Definition try_block : list Step := work ++ [at_sleep].

(** The statements that sleep. *)
Definition sleeps (k : Step) : bool :=
  match k with
  | at_sleep | at_error_sleep => true
  | _ => false
  end.

(** The runtime a run of statements leaves, cut short or not. *)
Definition reached (o : Runtime + Raised * Runtime) : Runtime :=
  match o with
  | inl w => w
  | inr (_, w) => w
  end.

(** What escapes the [try] block in a pass, if anything. *)
Definition escapes (it : Iteration) : option Raised :=
  head (omap (tick_fault it) try_block).

(** What leaves the loop in a pass, if anything: an exception the handler
    does not catch, or one raised while the handler sleeps. *)
Definition leaves (it : Iteration) : option Raised :=
  match escapes it with
  | Some (raised_base e) => Some (raised_base e)
  | Some (raised_exception _) => tick_fault it at_error_sleep
  | None => None
  end.

(** How a pass through the body of the [while] ends. *)
Inductive pass_result : Type :=
| pass_done (w : Runtime)                 (* back at the loop head *)
| pass_raised (r : Raised) (w : Runtime)  (* out of [_main_loop] *).

Definition after_pass (r : pass_result) : Runtime :=
  match r with
  | pass_done w => w
  | pass_raised _ w => w
  end.

(** [stop()] running while the pass sleeps. *)
Definition stop_during_sleep (it : Iteration) (w : Runtime) : Runtime :=
  if stop_requested it then set_bridge (stop (bridge_of w)) w else w.

(** One pass through the body of the [while] (lines 600-620). *)
Definition tick (it : Iteration) (w : Runtime) : pass_result :=
  match run_steps it try_block w with
  | inl w1 => pass_done (stop_during_sleep it w1)
  | inr (raised_exception e, w1) =>
      let w2 :=
        set_bridge (emit (logger_error "主循環錯誤" e) (bridge_of w1)) w1 in
      match run_steps it [at_error_sleep] w2 with
      | inl w3 => pass_done (stop_during_sleep it w3)
      | inr (r, w3) => pass_raised r w3
      end
  | inr (raised_base e, w1) => pass_raised (raised_base e) w1
  end.

(** Where [_main_loop] is once the schedule has been played. *)
Inductive loop_state : Type :=
| Exited (w : Runtime)      (* the [while] condition failed: the loop returned *)
| AtLoopHead (w : Runtime)  (* about to start the next pass *)
| Propagated (r : Raised) (w : Runtime)
                            (* an exception left the loop *).

(** [DroneSimulationBridge._main_loop] (lines 595-620) against a schedule
    of passes. *)
Fixpoint _main_loop (schedule : list Iteration) (w : Runtime) : loop_state :=
  match schedule with
  | [] => if running (bridge_of w) then AtLoopHead w else Exited w
  | it :: rest =>
      if running (bridge_of w) then
        match tick it w with
        | pass_done w1 => _main_loop rest w1
        | pass_raised r w1 => Propagated r w1
        end
      else Exited w
  end.

(** A log entry. *)
Definition is_log (e : Effect) : Prop :=
  match e with
  | logger_error _ _ => True
  | _ => False
  end.

(** [b'] is [b] after some readings of the clock and some log entries, and
    nothing else. *)
Definition only_logged (b b' : Bridge) : Prop :=
  MAVLINK_AVAILABLE b' = MAVLINK_AVAILABLE b /\
  time_time b' = time_time b /\
  clock b <= clock b' /\
  matlab_is_connected b' = matlab_is_connected b /\
  matlab_engine b' = matlab_engine b /\
  mavlink_is_connected b' = mavlink_is_connected b /\
  mavlink_send_raises b' = mavlink_send_raises b /\
  heap b' = heap b /\
  drone_states b' = drone_states b /\
  mission_waypoints b' = mission_waypoints b /\
  data_queue b' = data_queue b /\
  running b' = running b /\
  exists es, effects b' = effects b ++ es /\ Forall is_log es.

(** The pause a pass ends with when nothing leaves the loop: the update
    interval after a clean pass, one second after a pass in which an
    exception was caught at line 618. *)
Definition pause_of (it : Iteration) : float :=
  match escapes it with
  | None => update_interval
  | Some _ => 1%float
  end.

(** The pauses a pass completes: the one it ends with, or none when the
    pass is cut by an exception that leaves the loop. *)
Definition pauses_of (it : Iteration) : list float :=
  match leaves it with
  | None => [pause_of it]
  | Some _ => []
  end.

(** A pass during which nobody stops the bridge and out of which nothing
    leaves the loop. *)
Definition undisturbed (it : Iteration) : Prop :=
  stop_requested it = false /\ leaves it = None.

(** *** Concrete runtimes and passes *)



(** Started with agent a1 stored, MATLAB connected and four viewers. *)
Definition busy : Runtime :=
  mkRuntime (mkSession (set_running true (set_connected true false with_a1)) [])
    four_clients [] (Some PUB) [] true
    (mkROS2Bridge true {["/drone_sim/paths"]} []).

Definition no_fault (k : Step) : option Raised := None.

(** A pass in which every collaborator answers and nothing is raised. *)
Definition quiet_pass : Iteration :=
  {| matlab_eval := healthy_engine; client_send := fun _ => sent;
     zmq_send_raises := None;
     create_publisher_raises := fun _ => None;
     publish_raises := fun _ => None;
     tick_fault := no_fault; stop_requested := false |}.

(** A pass in which an exception escapes the broadcast. *)
Definition faulty_pass : Iteration :=
  {| matlab_eval := healthy_engine; client_send := flaky_send;
     zmq_send_raises := None;
     create_publisher_raises := fun _ => None;
     publish_raises := fun _ => None;
     tick_fault := fun k =>
       match k with
       | at_broadcast_simulation_data =>
           Some (raised_exception (Exception "boom"))
       | _ => None
       end;
     stop_requested := false |}.

(** A pass during whose sleep [stop()] runs. *)
Definition stopping_pass : Iteration :=
  {| matlab_eval := healthy_engine; client_send := fun _ => sent;
     zmq_send_raises := None;
     create_publisher_raises := fun _ => None;
     publish_raises := fun _ => None;
     tick_fault := no_fault; stop_requested := true |}.

(** A pass during whose sleep the task is cancelled. *)
Definition cancelled_pass : Iteration :=
  {| matlab_eval := healthy_engine; client_send := fun _ => sent;
     zmq_send_raises := None;
     create_publisher_raises := fun _ => None;
     publish_raises := fun _ => None;
     tick_fault := fun k =>
       match k with
       | at_sleep => Some (raised_base CancelledError)
       | _ => None
       end;
     stop_requested := false |}.


(** * Properties *)

(** ** The store under [_update_drone_state] *)

Lemma update_known (sd : StateData) (b : Bridge) (ref : nat) :
  drone_states b !! sd_drone_id sd = Some ref ->
  _update_drone_state sd b =
    set_heap (alter (write_fields (time_time b (clock b)) sd) ref (heap b))
      (set_clock (S (clock b)) b).
Proof.
  intros Hd. unfold _update_drone_state, ensure_drone.
  rewrite Hd. simpl. rewrite Hd. reflexivity.
Qed.

Lemma update_new (sd : StateData) (b : Bridge) :
  drone_states b !! sd_drone_id sd = None ->
  _update_drone_state sd b =
    set_heap
      (alter (write_fields (time_time b (S (clock b))) sd) (length (heap b))
         (heap b ++ [new_DroneState (sd_drone_id sd) (time_time b (clock b))]))
      (set_clock (S (S (clock b)))
         (set_drone_states
            (<[sd_drone_id sd := length (heap b)]> (drone_states b)) b)).
Proof.
  intros Hd. unfold _update_drone_state, ensure_drone.
  rewrite Hd. simpl. rewrite lookup_insert_eq. reflexivity.
Qed.

(** The collaborators and every part of the bridge other than the store and
    the clock are left alone. *)
Lemma update_frame (sd : StateData) (b : Bridge) :
  let b' := _update_drone_state sd b in
  time_time b' = time_time b /\ data_queue b' = data_queue b /\
  running b' = running b /\ effects b' = effects b /\
  mission_waypoints b' = mission_waypoints b /\
  matlab_is_connected b' = matlab_is_connected b /\
  mavlink_is_connected b' = mavlink_is_connected b /\
  MAVLINK_AVAILABLE b' = MAVLINK_AVAILABLE b.
Proof.
  simpl. destruct (drone_states b !! sd_drone_id sd) as [ref|] eqn:Hd.
  - rewrite (update_known _ _ _ Hd). simpl. repeat split.
  - rewrite (update_new _ _ Hd). simpl. repeat split.
Qed.

Lemma wf_init (available : bool) (wall : nat -> float)
    (engine : MatlabRequest -> option exn) (wire : nat -> option exn) :
  wf (init available wall engine wire).
Proof.
  split; simpl; intros *; rewrite lookup_empty; discriminate.
Qed.

Lemma wf_update (sd : StateData) (b : Bridge) :
  wf b -> wf (_update_drone_state sd b).
Proof.
  intros [Hin Hinj].
  destruct (drone_states b !! sd_drone_id sd) as [ref|] eqn:Hd.
  - rewrite (update_known _ _ _ Hd). split; simpl.
    + intros d r Hr. rewrite length_alter. eauto.
    + exact Hinj.
  - rewrite (update_new _ _ Hd). split; simpl.
    + intros d r. rewrite length_alter, length_app. simpl.
      destruct (decide (sd_drone_id sd = d)) as [->|Hne].
      * rewrite lookup_insert_eq. intros [= <-]. lia.
      * rewrite lookup_insert_ne by done. intros Hr.
        apply Hin in Hr. lia.
    + intros d1 d2 r.
      destruct (decide (sd_drone_id sd = d1)) as [<-|H1];
        destruct (decide (sd_drone_id sd = d2)) as [<-|H2];
        rewrite ?lookup_insert_eq, ?lookup_insert_ne by done; try done.
      * intros [= <-] Hr. apply Hin in Hr. lia.
      * intros Hr [= <-]. apply Hin in Hr. lia.
      * apply Hinj.
Qed.

(** After an update the agent's state is the written-over previous state,
    stamped with the last clock reading taken. *)
Lemma state_of_update (sd : StateData) (b : Bridge) :
  wf b ->
  state_of (_update_drone_state sd b) (sd_drone_id sd) =
    Some (write_fields
            (time_time b (pred (clock (_update_drone_state sd b)))) sd
            (previous_state b (sd_drone_id sd))).
Proof.
  intros [Hin _]. unfold previous_state, state_of, deref.
  destruct (drone_states b !! sd_drone_id sd) as [ref|] eqn:Hd.
  - rewrite (update_known _ _ _ Hd). simpl. rewrite Hd. simpl.
    rewrite list_lookup_alter_eq.
    destruct (lookup_lt_is_Some_2 (heap b) ref (Hin _ _ Hd)) as [st Hst].
    rewrite Hst. reflexivity.
  - rewrite (update_new _ _ Hd). simpl. rewrite lookup_insert_eq. simpl.
    rewrite list_lookup_alter_eq, lookup_app_r by lia.
    rewrite Nat.sub_diag. reflexivity.
Qed.

(** Updates to one agent leave every other agent's state alone. *)
Lemma state_of_update_other (sd : StateData) (b : Bridge) (d : string) :
  wf b -> d <> sd_drone_id sd ->
  state_of (_update_drone_state sd b) d = state_of b d.
Proof.
  intros [Hin Hinj] Hne. unfold state_of, deref.
  destruct (drone_states b !! sd_drone_id sd) as [ref|] eqn:Hd.
  - rewrite (update_known _ _ _ Hd). simpl.
    destruct (drone_states b !! d) as [r|] eqn:Hr; simpl; [|done].
    rewrite list_lookup_alter_ne; [done|].
    intros ->. apply Hne. eapply Hinj; eauto.
  - rewrite (update_new _ _ Hd). simpl.
    rewrite lookup_insert_ne by done.
    destruct (drone_states b !! d) as [r|] eqn:Hr; simpl; [|done].
    pose proof (Hin _ _ Hr).
    rewrite list_lookup_alter_ne by lia.
    apply lookup_app_l. done.
Qed.

Lemma apply_updates_snoc (us : list StateData) (u : StateData) (b : Bridge) :
  apply_updates (us ++ [u]) b = _update_drone_state u (apply_updates us b).
Proof. unfold apply_updates. rewrite foldl_app. reflexivity. Qed.

Lemma wf_apply_updates (us : list StateData) (b : Bridge) :
  wf b -> wf (apply_updates us b).
Proof.
  induction us as [|u us IH] using rev_ind; [done|].
  intros Hwf. rewrite apply_updates_snoc. apply wf_update, IH, Hwf.
Qed.

Lemma time_time_apply_updates (us : list StateData) (b : Bridge) :
  time_time (apply_updates us b) = time_time b.
Proof.
  induction us as [|u us IH] using rev_ind; [done|].
  rewrite apply_updates_snoc.
  destruct (update_frame u (apply_updates us b)) as [-> _]. exact IH.
Qed.

Lemma apply_updates_other_agents (us : list StateData) (b : Bridge)
    (d : string) :
  wf b -> Forall (fun u => sd_drone_id u <> d) us ->
  state_of (apply_updates us b) d = state_of b d.
Proof.
  intros Hwf. induction us as [|u us IH] using rev_ind; [done|].
  intros [Hus Hu]%Forall_app. rewrite Forall_singleton in Hu.
  rewrite apply_updates_snoc, state_of_update_other.
  - apply IH, Hus.
  - apply wf_apply_updates, Hwf.
  - intros Heq. apply Hu. symmetry. exact Heq.
Qed.

Lemma last_write_snoc {A : Type} (field : StateData -> option A)
    (us : list StateData) (u : StateData) (previous : A) :
  last_write field (us ++ [u]) previous =
    default (last_write field us previous) (field u).
Proof.
  unfold last_write. rewrite omap_app. simpl.
  destruct (field u) as [x|]; simpl.
  - rewrite last_snoc. reflexivity.
  - rewrite app_nil_r. reflexivity.
Qed.

Lemma lww_merge_snoc (previous : DroneState) (us : list StateData)
    (u : StateData) (t t' : float) :
  lww_merge previous (us ++ [u]) t = write_fields t u (lww_merge previous us t').
Proof.
  unfold lww_merge, write_fields. simpl.
  rewrite !last_write_snoc. reflexivity.
Qed.

Lemma lww_merge_nil (previous : DroneState) :
  lww_merge previous [] (timestamp previous) = previous.
Proof. destruct previous. reflexivity. Qed.

Lemma write_fields_timestamp (t t' : float) (u : StateData) (st : DroneState) :
  write_fields t u
    (mkDroneState (drone_id st) t' (position st) (velocity st) (attitude st)
       (battery_voltage st) (flight_mode st) (armed st) (gps_fix st)) =
  write_fields t u st.
Proof. reflexivity. Qed.

(** The merge of a run of updates to one agent, for any stored or fresh
    agent. *)
Lemma apply_updates_lww (b : Bridge) (d : string) (us : list StateData) :
  wf b ->
  Forall (fun u => sd_drone_id u = d) us ->
  us <> [] ->
  state_of (apply_updates us b) d =
    Some (lww_merge (previous_state b d) us
            (time_time b (pred (clock (apply_updates us b))))).
Proof.
  intros Hwf. induction us as [|u us IH] using rev_ind; [done|].
  intros [Hus Hu]%Forall_app _. rewrite Forall_singleton in Hu. subst d.
  rewrite apply_updates_snoc.
  rewrite state_of_update by (apply wf_apply_updates, Hwf).
  rewrite time_time_apply_updates. f_equal.
  destruct us as [|u0 us'].
  - simpl. rewrite <- (lww_merge_nil (previous_state b (sd_drone_id u))) at 1.
    rewrite <- (lww_merge_snoc _ [] u _ _). reflexivity.
  - unfold previous_state at 1. rewrite IH by done. simpl default.
    symmetry. apply lww_merge_snoc.
Qed.

Lemma clock_update_known (sd : StateData) (b : Bridge) :
  is_Some (drone_states b !! sd_drone_id sd) ->
  clock (_update_drone_state sd b) = S (clock b) /\
  drone_states (_update_drone_state sd b) = drone_states b.
Proof.
  intros [ref Hd]. rewrite (update_known _ _ _ Hd). split; reflexivity.
Qed.

Lemma clock_update_new (sd : StateData) (b : Bridge) :
  drone_states b !! sd_drone_id sd = None ->
  clock (_update_drone_state sd b) = S (S (clock b)) /\
  is_Some (drone_states (_update_drone_state sd b) !! sd_drone_id sd).
Proof.
  intros Hd. rewrite (update_new _ _ Hd). split; [reflexivity|].
  simpl. rewrite lookup_insert_eq. eauto.
Qed.

(** C1. For every run of partial state updates applied to one agent id, the
    agent's state is the field-wise last-write-wins merge of the run, in
    arrival order, over the state the agent had before (the stored one, or a
    new one with default fields): a field named by an update takes the value
    of the last update naming it, a field no update names keeps its previous
    value, and the timestamp is the last clock reading taken.  In particular
    position (1,2,3), then velocity (0,0,1), then position (4,5,6) applied
    to an agent not yet in the store give position (4,5,6), velocity
    (0,0,1) and every other field at its default. *)
Theorem update_is_last_write_wins :
  (forall (b : Bridge) (d : string) (us : list StateData),
     wf b ->
     Forall (fun u => sd_drone_id u = d) us ->
     us <> [] ->
     state_of (apply_updates us b) d =
       Some (lww_merge (previous_state b d) us
               (time_time b (pred (clock (apply_updates us b)))))) /\
  (forall b : Bridge,
     wf b ->
     drone_states b !! "a1" = None ->
     state_of (apply_updates scenario_a1 b) "a1" =
       Some {| drone_id := "a1";
               timestamp := time_time b (3 + clock b);
               position := vec3 4 5 6;
               velocity := vec3 0 0 1;
               attitude := np_zeros3;
               battery_voltage := 0;
               flight_mode := "UNKNOWN";
               armed := false;
               gps_fix := 0 |}).
Proof.
  split; [exact apply_updates_lww|].
  intros b Hwf Hfresh.
  rewrite (apply_updates_lww b "a1" scenario_a1 Hwf);
    [|repeat constructor|discriminate].
  unfold previous_state, state_of, deref. rewrite Hfresh. simpl.
  set (u1 := partial "a1" (Some (vec3 1 2 3)) None None).
  set (u2 := partial "a1" None (Some (vec3 0 0 1)) None).
  set (u3 := partial "a1" (Some (vec3 4 5 6)) None None).
  destruct (clock_update_new u1 b Hfresh) as [Hc1 Hs1].
  destruct (clock_update_known u2 (_update_drone_state u1 b) Hs1) as [Hc2 Hd2].
  assert (Hs2 : is_Some (drone_states (_update_drone_state u2
                            (_update_drone_state u1 b)) !! sd_drone_id u3))
    by (rewrite Hd2; exact Hs1).
  destruct (clock_update_known u3 _ Hs2) as [Hc3 _].
  rewrite Hc3, Hc2, Hc1. reflexivity.
Qed.

Lemma update_is_last_write_wins_witness :
  wf fresh_bridge /\
  Forall (fun u => sd_drone_id u = "a1") scenario_a1 /\
  scenario_a1 <> [] /\
  state_of (apply_updates scenario_a1 fresh_bridge) "a1" =
    Some (lww_merge (previous_state fresh_bridge "a1") scenario_a1
            (time_time fresh_bridge
               (pred (clock (apply_updates scenario_a1 fresh_bridge))))).
Proof.
  assert (Hwf : wf fresh_bridge) by apply wf_init.
  assert (Hall : Forall (fun u => sd_drone_id u = "a1") scenario_a1)
    by (repeat constructor).
  assert (Hne : scenario_a1 <> []) by discriminate.
  split; [exact Hwf|]. split; [exact Hall|]. split; [exact Hne|].
  exact (proj1 update_is_last_write_wins fresh_bridge "a1" scenario_a1
           Hwf Hall Hne).
Defined.

(** ** Idempotence of the merge *)

Lemma write_fields_twice (t1 t2 : float) (sd : StateData) (st : DroneState) :
  write_fields t2 sd (write_fields t1 sd st) =
    with_timestamp t2 (write_fields t1 sd st).
Proof.
  destruct sd as [d [p|] [v|] [a|] [bv|] [fm|] [ar|] [g|]]; reflexivity.
Qed.

Lemma previous_state_stored (b : Bridge) (d : string) (st : DroneState) :
  state_of b d = Some st -> previous_state b d = st.
Proof. unfold previous_state. intros ->. reflexivity. Qed.

(** C4, as the code has it.  Applying the same state update twice in
    succession gives the state of applying it once in every field but the
    timestamp, which each application sets to its own clock reading. *)
Theorem update_twice_refreshes_timestamp (b : Bridge) (sd : StateData) :
  wf b ->
  let once := _update_drone_state sd b in
  let twice := _update_drone_state sd once in
  state_of twice (sd_drone_id sd) =
    with_timestamp (time_time b (pred (clock twice)))
      <$> state_of once (sd_drone_id sd).
Proof.
  intros Hwf. cbv zeta.
  rewrite (state_of_update sd (_update_drone_state sd b))
    by (apply wf_update, Hwf).
  destruct (update_frame sd b) as [-> _].
  pose proof (state_of_update sd b Hwf) as Honce.
  rewrite (previous_state_stored _ _ _ Honce), Honce. simpl.
  rewrite write_fields_twice. reflexivity.
Qed.

Lemma update_twice_refreshes_timestamp_witness :
  wf fresh_bridge /\
  state_of (_update_drone_state a1_at_123
              (_update_drone_state a1_at_123 fresh_bridge)) "a1" =
    with_timestamp (ticking_clock 2)
      <$> state_of (_update_drone_state a1_at_123 fresh_bridge) "a1".
Proof.
  split; [apply wf_init|].
  exact (update_twice_refreshes_timestamp fresh_bridge a1_at_123
           (wf_init _ _ _ _)).
Defined.

(** C4 as stated fails: with a clock that advances, the second application
    of the same update leaves a later timestamp than the first. *)
Lemma update_twice_differs :
  state_of (_update_drone_state a1_at_123
              (_update_drone_state a1_at_123 fresh_bridge)) "a1" <>
  state_of (_update_drone_state a1_at_123 fresh_bridge) "a1".
Proof.
  intros H.
  apply (f_equal (fun o => match o with
                           | Some st => same_reading (timestamp st)
                                          (ticking_clock 1)
                           | None => false
                           end)) in H.
  vm_compute in H. discriminate H.
Qed.

(** ** Optional arguments of [add_drone_state] *)

Lemma falsy_not_truthy {A : Type} (arg : option (list A)) :
  arg = None \/ arg = Some [] -> truthy arg = false.
Proof. intros [-> | ->]; reflexivity. Qed.

Lemma Queue_put_returns (item : DataItem) (b b' : Bridge) (r : unit) :
  Queue_put item b = Returns r b' ->
  data_queue b' = data_queue b ++ [item].
Proof.
  unfold Queue_put. destruct (decide _); [discriminate|].
  intros [= _ <-]. reflexivity.
Qed.

(** C9. When the velocity (or attitude) argument of [add_drone_state] is
    [None] or an empty list, the state update that is enqueued has no
    velocity (attitude) key, and applying that update leaves the velocity
    (attitude) the agent had stored as it was. *)
Theorem falsy_vector_is_omitted (drone_id : string) (position : list float)
    (vel att : option (list float)) :
  let state_data := add_drone_state_data drone_id position vel att in
  (forall (b b' : Bridge) (r : unit),
     add_drone_state drone_id position vel att b = Returns r b' ->
     data_queue b' = data_queue b ++ [drone_state state_data]) /\
  (vel = None \/ vel = Some [] ->
     sd_velocity state_data = None /\
     forall (b : Bridge) (st : DroneState),
       wf b -> state_of b drone_id = Some st ->
       velocity <$>
         state_of (_update_drone_state state_data b) drone_id =
       Some (velocity st)) /\
  (att = None \/ att = Some [] ->
     sd_attitude state_data = None /\
     forall (b : Bridge) (st : DroneState),
       wf b -> state_of b drone_id = Some st ->
       attitude <$>
         state_of (_update_drone_state state_data b) drone_id =
       Some (attitude st)).
Proof.
  cbv zeta. split; [|split].
  - intros b b' r. apply Queue_put_returns.
  - intros Hfalsy. apply falsy_not_truthy in Hfalsy.
    assert (Hkey : sd_velocity
                     (add_drone_state_data drone_id position vel att)
                   = None) by (simpl; rewrite Hfalsy; reflexivity).
    split; [exact Hkey|].
    intros b st Hwf Hst.
    pose proof (state_of_update
                  (add_drone_state_data drone_id position vel att)
                  b Hwf) as Hupd.
    simpl sd_drone_id in Hupd. rewrite Hupd.
    rewrite (previous_state_stored _ _ _ Hst).
    simpl. rewrite Hfalsy. reflexivity.
  - intros Hfalsy. apply falsy_not_truthy in Hfalsy.
    assert (Hkey : sd_attitude
                     (add_drone_state_data drone_id position vel att)
                   = None) by (simpl; rewrite Hfalsy; reflexivity).
    split; [exact Hkey|].
    intros b st Hwf Hst.
    pose proof (state_of_update
                  (add_drone_state_data drone_id position vel att)
                  b Hwf) as Hupd.
    simpl sd_drone_id in Hupd. rewrite Hupd.
    rewrite (previous_state_stored _ _ _ Hst).
    simpl. rewrite Hfalsy. reflexivity.
Qed.

Lemma falsy_vector_is_omitted_witness :
  wf with_a1 /\
  state_of with_a1 "a1" <> None /\
  velocity <$>
    state_of (_update_drone_state
                (add_drone_state_data "a1" (vec3 4 5 6) (Some []) None)
                with_a1) "a1" =
  Some np_zeros3.
Proof.
  assert (Hwf : wf with_a1) by apply wf_update, wf_init.
  split; [exact Hwf|]. split; [discriminate|].
  destruct (falsy_vector_is_omitted "a1" (vec3 4 5 6) (Some []) None)
    as (_ & Hvel & _).
  destruct (Hvel (or_intror eq_refl)) as [_ Hkeep].
  exact (Hkeep with_a1 _ Hwf eq_refl).
Defined.

(** ** The ingestion queue *)

(** The dispatcher only emits effects. *)
Lemma execute_matlab_command_frame (c : CommandData) (b : Bridge) :
  let b' := _execute_matlab_command c b in
  data_queue b' = data_queue b /\ running b' = running b /\
  heap b' = heap b /\ drone_states b' = drone_states b /\
  mission_waypoints b' = mission_waypoints b.
Proof.
  unfold _execute_matlab_command, matlab_call.
  destruct (matlab_is_connected b); simpl; [|done].
  repeat match goal with
         | |- context [if ?c then _ else _] => destruct c
         | |- context [match matlab_engine ?x ?y with _ => _ end] =>
             destruct (matlab_engine x y)
         end; simpl; done.
Qed.

(** Handling one item never touches the queue or the running flag, and
    never suspends. *)
Lemma process_data_item_frame (item : DataItem) (b : Bridge) :
  let o := _process_data_item item b in
  data_queue (bridge_after o) = data_queue b /\
  running (bridge_after o) = running b /\
  (forall b', o <> Blocks b').
Proof.
  destruct item as [sd|md|c]; simpl.
  - destruct (update_frame sd b) as (_ & Hq & Hr & _). done.
  - done.
  - destruct (execute_matlab_command_frame c b) as (Hq & Hr & _). done.
Qed.

(** The drain takes items off the front: what stays queued is a suffix of
    what was queued, in the same order. *)
Lemma process_loop_suffix (items : list DataItem) (n : nat) (b : Bridge) :
  data_queue b = items ->
  exists k, k <= length items /\
            data_queue (process_loop items n b) = drop k items.
Proof.
  revert n b. induction items as [|item rest IH]; intros n b Hq.
  - exists 0. simpl. split; [lia|exact Hq].
  - simpl. destruct (decide (n < 10)) as [Hn|Hn].
    + pose proof (process_data_item_frame item (set_data_queue rest b))
        as (Hq1 & _ & Hnb). simpl in Hq1.
      destruct (_process_data_item item (set_data_queue rest b))
        as [r b1|e b1|b1]; simpl in Hq1.
      * destruct (IH (S n) b1 Hq1) as (k & Hk & Hd).
        exists (S k). split; [simpl; lia|exact Hd].
      * destruct (IH n (emit (logger_error "數據處理錯誤" e) b1) Hq1)
          as (k & Hk & Hd).
        exists (S k). split; [simpl; lia|exact Hd].
      * exfalso. eapply Hnb. reflexivity.
    + exists 0. split; [lia|exact Hq].
Qed.

Lemma process_loop_running (items : list DataItem) (n : nat) (b : Bridge) :
  running (process_loop items n b) = running b.
Proof.
  revert n b. induction items as [|item rest IH]; intros n b; [done|].
  simpl. destruct (decide (n < 10)); [|done].
  pose proof (process_data_item_frame item (set_data_queue rest b))
    as (_ & Hr & _). simpl in Hr.
  destruct (_process_data_item item (set_data_queue rest b))
    as [r b1|e b1|b1]; simpl in Hr; rewrite ?IH; simpl; exact Hr.
Qed.

(** When every handler returns, the counter does cap the drain. *)
Lemma process_loop_capped (items : list DataItem) (n : nat) (b : Bridge) :
  data_queue b = items -> Forall handled items ->
  data_queue (process_loop items n b) = drop (10 - n) items.
Proof.
  revert n b. induction items as [|item rest IH]; intros n b Hq Hall.
  - simpl. rewrite drop_nil. exact Hq.
  - simpl. apply Forall_cons in Hall as [Hitem Hrest].
    destruct (decide (n < 10)) as [Hn|Hn].
    + replace (10 - n) with (S (10 - S n)) by lia. simpl drop.
      destruct item as [sd|md|c]; simpl; [|contradiction|].
      * apply IH; [|exact Hrest].
        destruct (update_frame sd (set_data_queue rest b)) as (_ & -> & _).
        reflexivity.
      * apply IH; [|exact Hrest].
        destruct (execute_matlab_command_frame c (set_data_queue rest b))
          as (-> & _). reflexivity.
    + replace (10 - n) with 0 by lia. exact Hq.
Qed.

Lemma Queue_put_full (item : DataItem) (b : Bridge) :
  maxsize <= length (data_queue b) -> Queue_put item b = Blocks b.
Proof. intros Hfull. unfold Queue_put. rewrite decide_True; done. Qed.

Lemma Queue_put_room (item : DataItem) (b : Bridge) :
  length (data_queue b) < maxsize ->
  Queue_put item b = Returns () (set_data_queue (data_queue b ++ [item]) b).
Proof. intros Hroom. unfold Queue_put. rewrite decide_False; [done|lia]. Qed.

Lemma Queue_put_bounded (item : DataItem) (b : Bridge) :
  bounded b -> bounded (bridge_after (Queue_put item b)).
Proof.
  unfold bounded, Queue_put. intros Hb.
  destruct (decide _) as [Hfull|Hroom]; simpl; [exact Hb|].
  rewrite length_app. simpl. lia.
Qed.

(** Emitting effects changes nothing but the trace. *)
Lemma emit_all_frame (es : list Effect) (b : Bridge) :
  data_queue (emit_all es b) = data_queue b /\
  mission_waypoints (emit_all es b) = mission_waypoints b /\
  heap (emit_all es b) = heap b /\
  drone_states (emit_all es b) = drone_states b /\
  running (emit_all es b) = running b /\
  clock (emit_all es b) = clock b /\
  mavlink_send_raises (emit_all es b) = mavlink_send_raises b.
Proof.
  unfold emit_all. revert b. induction es as [|e es IH]; intros b; [done|].
  simpl. destruct (IH (emit e b)) as (-> & -> & -> & -> & -> & -> & ->). done.
Qed.

Lemma emit_all_cons (e : Effect) (es : list Effect) (b : Bridge) :
  emit_all (e :: es) b = emit_all es (emit e b).
Proof. reflexivity. Qed.

Lemma emit_all_snoc (es : list Effect) (e : Effect) (b : Bridge) :
  emit_all (es ++ [e]) b = emit e (emit_all es b).
Proof. unfold emit_all. rewrite foldl_app. reflexivity. Qed.

(** An upload does nothing but emit effects: the messages that went out
    and, when a send failed, one log entry. *)
Lemma send_all_emits (ts : Z) (n : nat) (msgs : list MissionMessage)
    (b : Bridge) :
  exists es, snd (send_all ts n msgs b) = emit_all es b.
Proof.
  revert n b. induction msgs as [|m rest IH]; intros n b; simpl.
  - exists []. reflexivity.
  - destruct (mavlink_send_raises b n); [exists []; reflexivity|].
    destruct (IH (S n) (emit (mavlink_send ts m) b)) as [es Hes].
    exists (mavlink_send ts m :: es). rewrite Hes. reflexivity.
Qed.

Lemma send_waypoint_mission_emits (wps : list MissionWaypoint) (ts : Z)
    (b : Bridge) :
  exists es, snd (send_waypoint_mission wps ts b) = emit_all es b.
Proof.
  unfold send_waypoint_mission.
  destruct (negb (mavlink_is_connected b) || negb (MAVLINK_AVAILABLE b));
    [exists []; reflexivity|].
  destruct (send_all_emits ts 0 (mission_messages wps) b) as [es Hes].
  destruct (send_all ts 0 (mission_messages wps) b) as [[e|] b1];
    simpl in Hes; rewrite Hes.
  - exists (es ++ [logger_error "發送航點任務失敗" e]).
    simpl. rewrite emit_all_snoc. reflexivity.
  - exists es. reflexivity.
Qed.

Lemma send_waypoint_mission_queue (wps : list MissionWaypoint) (ts : Z)
    (b : Bridge) :
  data_queue (snd (send_waypoint_mission wps ts b)) = data_queue b /\
  mission_waypoints (snd (send_waypoint_mission wps ts b)) =
    mission_waypoints b.
Proof.
  destruct (send_waypoint_mission_emits wps ts b) as [es ->].
  destruct (emit_all_frame es b) as (-> & -> & _). done.
Qed.

Lemma send_mission_bounded (d : string) (wps : list MissionWaypoint)
    (b : Bridge) :
  bounded b -> bounded (bridge_after (send_mission_to_drone d wps b)).
Proof.
  intros Hb. unfold send_mission_to_drone.
  destruct (MAVLINK_AVAILABLE b && mavlink_is_connected b).
  - destruct (target_system_of d) as [ts|]; [|exact Hb].
    apply Queue_put_bounded. unfold bounded. simpl.
    destruct (send_waypoint_mission_queue wps ts b) as [-> _]. exact Hb.
  - apply Queue_put_bounded. exact Hb.
Qed.

Lemma process_data_queue_bounded (b : Bridge) :
  bounded b -> bounded (_process_data_queue b).
Proof.
  unfold bounded, _process_data_queue. intros Hb.
  destruct (process_loop_suffix (data_queue b) 0 b eq_refl) as (k & _ & ->).
  rewrite length_drop. lia.
Qed.

Lemma full_bridge_is_full : length (data_queue full_bridge) = maxsize.
Proof. apply length_replicate. Qed.

(** C2 as stated fails: on a full queue [add_drone_state] does not return
    at all, so it hands no failure indicator to its caller; it blocks. *)
Lemma add_drone_state_on_full_queue_never_returns :
  length (data_queue full_bridge) = maxsize /\
  forall (r : unit) (b' : Bridge),
    add_drone_state "a1" (vec3 1 2 3) None None full_bridge <> Returns r b'.
Proof.
  split; [apply full_bridge_is_full|].
  intros r b'. unfold add_drone_state.
  rewrite Queue_put_full by (rewrite full_bridge_is_full; reflexivity).
  discriminate.
Qed.

(** C5.  The drain stops after ten items whose handler returned, not after
    ten items taken: eleven mission items, as eleven calls of
    [send_mission_to_drone] enqueue them, are all removed by one drain,
    each one logged as a processing error. *)
Theorem drain_takes_eleven_mission_items :
  length (data_queue (after_missions 11 fresh_bridge)) = 11 /\
  data_queue (_process_data_queue (after_missions 11 fresh_bridge)) = [] /\
  length (effects (_process_data_queue (after_missions 11 fresh_bridge))) = 11.
Proof. vm_compute. repeat split. Qed.

(** What does hold of one drain: the items left are a suffix of the queue,
    in their order, and when every handler returns at most ten are taken. *)
Lemma process_data_queue_fifo (b : Bridge) :
  (exists k, k <= length (data_queue b) /\
             data_queue (_process_data_queue b) = drop k (data_queue b)) /\
  (Forall handled (data_queue b) ->
   data_queue (_process_data_queue b) = drop 10 (data_queue b)).
Proof.
  split.
  - apply process_loop_suffix. reflexivity.
  - intros Hall. apply (process_loop_capped (data_queue b) 0 b eq_refl Hall).
Qed.

(** ** Mission registry *)

(** When the target system can be worked out, or the link is not used, the
    mission is stored whatever the link then does. *)
Lemma send_mission_stores (d : string) (wps : list MissionWaypoint)
    (b : Bridge) :
  MAVLINK_AVAILABLE b && mavlink_is_connected b = false \/
  is_Some (target_system_of d) ->
  mission_waypoints (bridge_after (send_mission_to_drone d wps b)) !! d =
    Some wps.
Proof.
  intros Hok. unfold send_mission_to_drone.
  assert (Hput : forall item b0,
             mission_waypoints (bridge_after (Queue_put item b0)) =
             mission_waypoints b0).
  { intros item b0. unfold Queue_put. destruct (decide _); reflexivity. }
  destruct (MAVLINK_AVAILABLE b && mavlink_is_connected b).
  - destruct Hok as [Hoff|[ts Hts]]; [discriminate|]. rewrite Hts.
    rewrite Hput. simpl. apply lookup_insert_eq.
  - rewrite Hput. simpl. apply lookup_insert_eq.
Qed.

(** Setting a mission twice keeps only the second one. *)
Lemma mission_replaced :
  mission_waypoints
    (bridge_after
       (send_mission_to_drone "a1" [seq0]
          (bridge_after (send_mission_to_drone "a1" [seq0; seq1] fresh_bridge))))
    !! "a1" = Some [seq0].
Proof. apply send_mission_stores. left. reflexivity. Qed.

(** C6.  With the MAVLink link up, setting a mission for an agent id whose
    part after the last underscore is not a number raises [ValueError] at
    line 921, before the registry is written: reading the mission back
    gives nothing. *)
Theorem mission_lost_for_non_numeric_suffix :
  send_mission_to_drone "drone_a" [seq0] mavlink_up =
    Raises (ValueError "invalid literal for int() with base 10") mavlink_up /\
  mission_waypoints
    (bridge_after (send_mission_to_drone "drone_a" [seq0] mavlink_up))
    !! "drone_a" = None.
Proof. split; reflexivity. Qed.

(** C10.  The same call stores the mission when the link is down and does
    not store it when the link is up: whether the registry is written
    depends on the transport. *)
Theorem mission_storage_depends_on_link :
  mavlink_is_connected fresh_bridge = false /\
  mission_waypoints
    (bridge_after (send_mission_to_drone "drone_a" [seq0] fresh_bridge))
    !! "drone_a" = Some [seq0] /\
  mavlink_is_connected mavlink_up = true /\
  mission_waypoints
    (bridge_after (send_mission_to_drone "drone_a" [seq0] mavlink_up))
    !! "drone_a" = None.
Proof. repeat split; reflexivity. Qed.

(** ** Snapshots *)

(** What [get_drone_states] returned keeps reading the store's objects. *)
Lemma snapshot_follows_store (sd : StateData) (b : Bridge) :
  is_Some (drone_states b !! sd_drone_id sd) ->
  deref (get_drone_states b) (_update_drone_state sd b) (sd_drone_id sd) =
    state_of (_update_drone_state sd b) (sd_drone_id sd).
Proof.
  intros Hd. unfold state_of, get_drone_states.
  destruct (clock_update_known sd b Hd) as [_ ->]. reflexivity.
Qed.

(** An agent the returned dictionary does not list stays out of it. *)
Lemma snapshot_misses_new_agent (sd : StateData) (b : Bridge) :
  drone_states b !! sd_drone_id sd = None ->
  deref (get_drone_states b) (_update_drone_state sd b) (sd_drone_id sd) = None.
Proof. intros Hd. unfold deref, get_drone_states. rewrite Hd. reflexivity. Qed.

(** The other agents read the same through it. *)
Lemma snapshot_other_agent (sd : StateData) (b : Bridge) (d : string) :
  wf b -> d <> sd_drone_id sd ->
  deref (get_drone_states b) (_update_drone_state sd b) d =
    deref (get_drone_states b) b d.
Proof.
  intros Hwf Hne.
  pose proof (state_of_update_other sd b d Hwf Hne) as Hother.
  unfold state_of, deref in Hother. unfold deref, get_drone_states.
  destruct (drone_states b !! d) as [ref|] eqn:Hd; [|reflexivity].
  rewrite <- Hother.
  destruct (drone_states b !! sd_drone_id sd) as [r|] eqn:Hs.
  - destruct (clock_update_known sd b (mk_is_Some _ _ Hs)) as [_ ->].
    rewrite Hd. reflexivity.
  - rewrite (update_new _ _ Hs). simpl.
    rewrite lookup_insert_ne by done. rewrite Hd. reflexivity.
Qed.

(** C8, as the code has it.  [get_drone_states] returns a copy of the
    store's dictionary that still refers to the store's state objects.  An
    agent first merged after the call does not appear in the returned
    value and the other agents read the same through it, but a merge applied
    later to an agent it lists shows through it: the agent then reads there
    exactly as in the store. *)
Theorem snapshot_is_a_shallow_copy (b : Bridge) (sd : StateData) :
  wf b ->
  let snapshot := get_drone_states b in
  let later := _update_drone_state sd b in
  (drone_states b !! sd_drone_id sd = None ->
   deref snapshot later (sd_drone_id sd) = None) /\
  (is_Some (drone_states b !! sd_drone_id sd) ->
   deref snapshot later (sd_drone_id sd) = state_of later (sd_drone_id sd)) /\
  (forall d : string,
     d <> sd_drone_id sd -> deref snapshot later d = deref snapshot b d).
Proof.
  intros Hwf. cbv zeta. split; [|split].
  - apply snapshot_misses_new_agent.
  - apply snapshot_follows_store.
  - intros d Hne. apply snapshot_other_agent; assumption.
Qed.

Lemma snapshot_is_a_shallow_copy_witness :
  wf with_a1 /\
  is_Some (drone_states with_a1 !! "a1") /\
  deref (get_drone_states with_a1) (_update_drone_state a1_at_456 with_a1) "a1"
    = state_of (_update_drone_state a1_at_456 with_a1) "a1".
Proof.
  assert (Hwf : wf with_a1) by apply wf_update, wf_init.
  assert (Hin : is_Some (drone_states with_a1 !! "a1"))
    by (exists 0; reflexivity).
  split; [exact Hwf|]. split; [exact Hin|].
  exact (proj1 (proj2 (snapshot_is_a_shallow_copy with_a1 a1_at_456 Hwf)) Hin).
Defined.

(** C8 as stated fails: agent a1 reads position (1,2,3) through the
    returned dictionary before a later merge and (4,5,6) after it. *)
Lemma snapshot_sees_later_merge :
  position <$> deref (get_drone_states with_a1) with_a1 "a1" =
    Some (vec3 1 2 3) /\
  position <$>
    deref (get_drone_states with_a1) (_update_drone_state a1_at_456 with_a1)
      "a1" = Some (vec3 4 5 6) /\
  deref (get_drone_states with_a1) (_update_drone_state a1_at_456 with_a1) "a1"
    <> deref (get_drone_states with_a1) with_a1 "a1".
Proof.
  split; [reflexivity|]. split; [reflexivity|].
  intros H.
  apply (f_equal (fun o => match o with
                           | Some st => match position st with
                                        | x :: _ => same_reading x 1
                                        | [] => false
                                        end
                           | None => false
                           end)) in H.
  vm_compute in H. discriminate H.
Qed.

(** ** Command dispatcher *)

(** C7, as the code has it.  A command whose kind is none of
    start_simulation, stop_simulation, load_mission and set_safety_distance
    falls through the dispatcher's branches: nothing is sent to MATLAB,
    nothing is logged, the bridge is unchanged, and handling the queued item
    returns normally. *)
Theorem unknown_command_is_dropped_silently (c : CommandData) (b : Bridge) :
  unknown_kind c = true ->
  _execute_matlab_command c b = b /\
  _process_data_item (matlab_command c) b = Returns () b.
Proof.
  intros Hunknown.
  assert (Hdrop : _execute_matlab_command c b = b).
  { unfold unknown_kind in Hunknown. simpl in Hunknown.
    unfold _execute_matlab_command.
    destruct (matlab_is_connected b); simpl; [|reflexivity].
    destruct (is_kind (cmd_type c) "start_simulation"); [discriminate|].
    destruct (is_kind (cmd_type c) "stop_simulation"); [discriminate|].
    destruct (is_kind (cmd_type c) "load_mission"); [discriminate|].
    destruct (is_kind (cmd_type c) "set_safety_distance"); [discriminate|].
    reflexivity. }
  split; [exact Hdrop|]. simpl. rewrite Hdrop. reflexivity.
Qed.

Lemma unknown_command_is_dropped_silently_witness :
  unknown_kind land_command = true /\
  _execute_matlab_command land_command matlab_up = matlab_up /\
  _process_data_item (matlab_command land_command) matlab_up =
    Returns () matlab_up.
Proof.
  split; [reflexivity|].
  exact (unknown_command_is_dropped_silently land_command matlab_up eq_refl).
Defined.

(** C7 as stated fails: with MATLAB connected, a command of the unknown
    kind "land" leaves the trace of effects empty; no report is made. *)
Lemma unknown_command_is_not_reported :
  matlab_is_connected matlab_up = true /\
  unknown_kind land_command = true /\
  effects (_execute_matlab_command land_command matlab_up) = [].
Proof. repeat split; reflexivity. Qed.

(** ** More on the store *)

Lemma update_keeps_agents (sd : StateData) (b : Bridge) (d : string)
    (ref : nat) :
  drone_states b !! d = Some ref ->
  drone_states (_update_drone_state sd b) !! d = Some ref.
Proof.
  intros Hd.
  destruct (drone_states b !! sd_drone_id sd) as [r|] eqn:Hs.
  - destruct (clock_update_known sd b (mk_is_Some _ _ Hs)) as [_ ->]. exact Hd.
  - rewrite (update_new _ _ Hs). simpl.
    rewrite lookup_insert_ne; [exact Hd|]. intros Heq. rewrite Heq in Hs. congruence.
Qed.

Lemma update_dom (sd : StateData) (b : Bridge) :
  dom (drone_states (_update_drone_state sd b)) =
    dom (drone_states b) ∪ {[sd_drone_id sd]}.
Proof.
  destruct (drone_states b !! sd_drone_id sd) as [r|] eqn:Hs.
  - destruct (clock_update_known sd b (mk_is_Some _ _ Hs)) as [_ ->].
    apply elem_of_dom_2 in Hs. set_solver.
  - rewrite (update_new _ _ Hs). simpl. rewrite dom_insert_L. set_solver.
Qed.

Lemma update_heap_grows (sd : StateData) (b : Bridge) :
  length (heap b) <= length (heap (_update_drone_state sd b)).
Proof.
  destruct (drone_states b !! sd_drone_id sd) as [r|] eqn:Hs.
  - rewrite (update_known _ _ _ Hs). simpl. rewrite length_alter. lia.
  - rewrite (update_new _ _ Hs). simpl.
    rewrite length_alter, length_app. lia.
Qed.

Lemma update_clock_grows (sd : StateData) (b : Bridge) :
  clock b < clock (_update_drone_state sd b).
Proof.
  destruct (drone_states b !! sd_drone_id sd) as [r|] eqn:Hs.
  - rewrite (update_known _ _ _ Hs). simpl. lia.
  - rewrite (update_new _ _ Hs). simpl. lia.
Qed.

Lemma apply_updates_clock_grows (us : list StateData) (b : Bridge) :
  clock b <= clock (apply_updates us b).
Proof.
  induction us as [|u us IH] using rev_ind; [done|].
  rewrite apply_updates_snoc.
  pose proof (update_clock_grows u (apply_updates us b)). lia.
Qed.

Lemma apply_updates_dom (us : list StateData) (b : Bridge) :
  dom (drone_states (apply_updates us b)) = dom (drone_states b) ∪ ids_of us.
Proof.
  unfold ids_of. induction us as [|u us IH] using rev_ind.
  - simpl. set_solver.
  - rewrite apply_updates_snoc, update_dom, IH, fmap_app, list_to_set_app_L.
    simpl. set_solver.
Qed.

Lemma write_fields_ignores_timestamp (t t' : float) (u : StateData)
    (st : DroneState) :
  write_fields t u (with_timestamp t' st) = write_fields t u st.
Proof. reflexivity. Qed.

Lemma previous_state_up_to_timestamp (b b' : Bridge) (d : string) :
  state_of b' d = state_of b d ->
  exists t', previous_state b' d = with_timestamp t' (previous_state b d).
Proof.
  unfold previous_state. intros ->.
  destruct (state_of b d) as [st|]; simpl.
  - exists (timestamp st). destruct st. reflexivity.
  - exists (time_time b' (clock b')). reflexivity.
Qed.

Lemma lww_merge_ignores_timestamp (t t' : float) (st : DroneState)
    (us : list StateData) :
  lww_merge (with_timestamp t' st) us t = lww_merge st us t.
Proof. reflexivity. Qed.

Lemma updates_for_none (d : string) (us : list StateData) :
  updates_for d us = [] -> Forall (fun u => sd_drone_id u <> d) us.
Proof.
  unfold updates_for. induction us as [|u us IH]; [constructor|].
  rewrite filter_cons. destruct (decide (sd_drone_id u = d)); [discriminate|].
  intros H. constructor; auto.
Qed.

(** The state of an agent after a run of updates to many agents depends only
    on the updates addressed to it. *)
Theorem interleaved_updates_merge_per_agent (b : Bridge) (d : string)
    (us : list StateData) :
  wf b ->
  updates_for d us <> [] ->
  exists n : nat,
    clock b <= n < clock (apply_updates us b) /\
    state_of (apply_updates us b) d =
      Some (lww_merge (previous_state b d) (updates_for d us) (time_time b n)).
Proof.
  intros Hwf. induction us as [|u us IH] using rev_ind; [done|].
  unfold updates_for in *. rewrite filter_app, apply_updates_snoc.
  pose proof (wf_apply_updates us b Hwf) as Hwf'.
  pose proof (update_clock_grows u (apply_updates us b)) as Hclk.
  pose proof (apply_updates_clock_grows us b) as Hclk0.
  rewrite filter_cons, filter_nil.
  destruct (decide (sd_drone_id u = d)) as [Hu|Hu].
  - intros _. subst d.
    exists (pred (clock (_update_drone_state u (apply_updates us b)))).
    split; [lia|].
    rewrite state_of_update by exact Hwf'.
    rewrite time_time_apply_updates. f_equal.
    destruct (decide (filter (fun u0 => sd_drone_id u0 = sd_drone_id u) us = []))
      as [Hnone|Hsome].
    + rewrite Hnone. simpl app.
      pose proof (apply_updates_other_agents us b (sd_drone_id u) Hwf
                    (updates_for_none _ _ Hnone)) as Hsame.
      destruct (previous_state_up_to_timestamp b (apply_updates us b)
                  (sd_drone_id u) Hsame) as [t' ->].
      rewrite write_fields_ignores_timestamp.
      rewrite <- (lww_merge_nil (previous_state b (sd_drone_id u))) at 1.
      rewrite <- (lww_merge_snoc _ [] u _ _). reflexivity.
    + destruct (IH Hsome) as (n & _ & Hst).
      rewrite (previous_state_stored _ _ _ Hst).
      symmetry. apply lww_merge_snoc.
  - rewrite app_nil_r. intros Hsome.
    destruct (IH Hsome) as (n & Hn & Hst).
    exists n. split; [lia|].
    rewrite state_of_update_other; [exact Hst|exact Hwf'|congruence].
Qed.

Lemma interleaved_updates_merge_per_agent_witness :
  wf fresh_bridge /\
  updates_for "a1" interleaved_run <> [] /\
  exists n : nat,
    clock fresh_bridge <= n < clock (apply_updates interleaved_run fresh_bridge) /\
    state_of (apply_updates interleaved_run fresh_bridge) "a1" =
      Some (lww_merge (previous_state fresh_bridge "a1")
              (updates_for "a1" interleaved_run) (time_time fresh_bridge n)).
Proof.
  assert (Hwf : wf fresh_bridge) by apply wf_init.
  assert (Hne : updates_for "a1" interleaved_run <> [])
    by (vm_compute; discriminate).
  split; [exact Hwf|]. split; [exact Hne|].
  exact (interleaved_updates_merge_per_agent fresh_bridge "a1" interleaved_run
           Hwf Hne).
Defined.

(** ** Draining runs of items *)

Lemma update_set_data_queue (sd : StateData) (q : list DataItem) (b : Bridge) :
  _update_drone_state sd (set_data_queue q b) =
    set_data_queue q (_update_drone_state sd b).
Proof.
  destruct (drone_states b !! sd_drone_id sd) as [r|] eqn:Hs.
  - rewrite (update_known sd (set_data_queue q b) r) by exact Hs.
    rewrite (update_known _ _ _ Hs). reflexivity.
  - rewrite (update_new sd (set_data_queue q b)) by exact Hs.
    rewrite (update_new _ _ Hs). reflexivity.
Qed.

Lemma apply_updates_set_data_queue (us : list StateData) (q : list DataItem)
    (b : Bridge) :
  apply_updates us (set_data_queue q b) = set_data_queue q (apply_updates us b).
Proof.
  induction us as [|u us IH] using rev_ind; [done|].
  rewrite !apply_updates_snoc, IH. apply update_set_data_queue.
Qed.

Lemma set_data_queue_twice (q q' : list DataItem) (b : Bridge) :
  set_data_queue q (set_data_queue q' b) = set_data_queue q b.
Proof. reflexivity. Qed.

Lemma set_data_queue_same (b : Bridge) (q : list DataItem) :
  data_queue b = q -> set_data_queue q b = b.
Proof. intros <-. destruct b. reflexivity. Qed.

Lemma process_loop_updates (sds : list StateData) (n : nat) (b : Bridge) :
  data_queue b = drone_state <$> sds ->
  process_loop (drone_state <$> sds) n b =
    set_data_queue (drone_state <$> drop (10 - n) sds)
      (apply_updates (take (10 - n) sds) b).
Proof.
  revert n b. induction sds as [|sd sds IH]; intros n b Hq.
  - simpl. rewrite drop_nil, take_nil. simpl.
    symmetry. apply set_data_queue_same. exact Hq.
  - simpl. destruct (decide (n < 10)) as [Hn|Hn].
    + replace (10 - n) with (S (10 - S n)) by lia. simpl.
      rewrite IH.
      * rewrite update_set_data_queue, apply_updates_set_data_queue.
        reflexivity.
      * rewrite update_set_data_queue. reflexivity.
    + replace (10 - n) with 0 by lia. simpl.
      symmetry. apply set_data_queue_same. exact Hq.
Qed.

Lemma process_data_queue_updates (sds : list StateData) (b : Bridge) :
  data_queue b = drone_state <$> sds ->
  _process_data_queue b =
    set_data_queue (drone_state <$> drop 10 sds)
      (apply_updates (take 10 sds) b).
Proof.
  intros Hq. unfold _process_data_queue. rewrite Hq.
  apply (process_loop_updates sds 0 b Hq).
Qed.

(** One drain of a queue of state updates applies the first ten of them, in
    order, and leaves the others queued. *)
Theorem drain_applies_first_ten_updates (sds : list StateData) (b : Bridge) :
  data_queue b = drone_state <$> sds ->
  _process_data_queue b =
    set_data_queue (drone_state <$> drop 10 sds)
      (apply_updates (take 10 sds) b).
Proof. apply process_data_queue_updates. Qed.

Lemma drain_applies_first_ten_updates_witness :
  data_queue twelve_queued = drone_state <$> replicate 12 a1_at_123 /\
  _process_data_queue twelve_queued =
    set_data_queue (drone_state <$> drop 10 (replicate 12 a1_at_123))
      (apply_updates (take 10 (replicate 12 a1_at_123)) twelve_queued).
Proof.
  split; [reflexivity|].
  exact (drain_applies_first_ten_updates (replicate 12 a1_at_123)
           twelve_queued eq_refl).
Defined.

Lemma Forall_handled_drop (k : nat) (items : list DataItem) :
  Forall handled items -> Forall handled (drop k items).
Proof. apply Forall_drop. Qed.

(** When every queued item has a handler that returns, [k] drains take the
    first [10 * k] items: a backlog of [n] such items is gone after
    [n / 10] ticks, rounded up. *)
Theorem drains_empty_the_backlog (k : nat) (b : Bridge) :
  Forall handled (data_queue b) ->
  data_queue (drain_times k b) = drop (10 * k) (data_queue b).
Proof.
  revert b. induction k as [|k IH]; intros b Hall.
  - simpl. reflexivity.
  - simpl drain_times.
    destruct (process_data_queue_fifo b) as [_ Hcap].
    specialize (Hcap Hall).
    rewrite IH by (rewrite Hcap; apply Forall_drop, Hall).
    rewrite Hcap, drop_drop. f_equal. lia.
Qed.

Lemma drains_empty_the_backlog_witness :
  Forall handled (data_queue twelve_queued) /\
  data_queue (drain_times 2 twelve_queued) = drop (10 * 2) (data_queue twelve_queued).
Proof.
  assert (Hall : Forall handled (data_queue twelve_queued))
    by (repeat constructor).
  split; [exact Hall|].
  exact (drains_empty_the_backlog 2 twelve_queued Hall).
Defined.

Lemma state_of_set_data_queue (q : list DataItem) (b : Bridge) (d : string) :
  state_of (set_data_queue q b) d = state_of b d.
Proof. reflexivity. Qed.

Lemma position_after_update (sd : StateData) (b : Bridge) (p : list float) :
  wf b -> sd_position sd = Some p ->
  position <$> state_of (_update_drone_state sd b) (sd_drone_id sd) = Some p.
Proof.
  intros Hwf Hp. rewrite state_of_update by exact Hwf.
  simpl. rewrite Hp. reflexivity.
Qed.

(** *** What a drain leaves alone *)

Lemma process_data_item_registry (item : DataItem) (b : Bridge) :
  mission_waypoints (bridge_after (_process_data_item item b)) =
    mission_waypoints b.
Proof.
  destruct item as [sd|md|c]; simpl.
  - destruct (update_frame sd b) as (_ & _ & _ & _ & Hm & _). exact Hm.
  - reflexivity.
  - destruct (execute_matlab_command_frame c b) as (_ & _ & _ & _ & Hm).
    exact Hm.
Qed.

Lemma process_loop_registry (items : list DataItem) (n : nat) (b : Bridge) :
  mission_waypoints (process_loop items n b) = mission_waypoints b.
Proof.
  revert n b. induction items as [|item rest IH]; intros n b; [done|].
  simpl. destruct (decide (n < 10)); [|done].
  pose proof (process_data_item_registry item (set_data_queue rest b)) as Hm.
  simpl in Hm.
  destruct (_process_data_item item (set_data_queue rest b))
    as [r b1|e b1|b1]; simpl in Hm; rewrite ?IH; simpl; exact Hm.
Qed.

Lemma process_loop_missions (items : list DataItem) (n : nat) (b : Bridge) :
  n < 10 -> Forall is_mission items -> data_queue b = items ->
  let b' := process_loop items n b in
  data_queue b' = [] /\
  effects b' = effects b ++ replicate (length items) mission_item_error /\
  heap b' = heap b /\ drone_states b' = drone_states b /\
  mission_waypoints b' = mission_waypoints b /\ clock b' = clock b.
Proof.
  intros Hn. unfold mission_item_error.
  revert b. induction items as [|item rest IH]; intros b Hall Hq.
  - simpl. rewrite app_nil_r. done.
  - apply Forall_cons in Hall as [Hitem Hrest].
    destruct item as [sd|md|c]; try contradiction.
    simpl. rewrite decide_True by exact Hn.
    destruct (IH (emit (logger_error "數據處理錯誤"
                          (AttributeError "_update_mission_waypoints"))
                    (set_data_queue rest b)) Hrest eq_refl)
      as (H1 & H2 & H3 & H4 & H5 & H6).
    split; [exact H1|]. split; [|done].
    rewrite H2. simpl. rewrite <- app_assoc. reflexivity.
Qed.

(** Mission items never reach the registry or the store: a drain of a queue
    holding only mission items takes every one of them, whatever their
    number, logs one processing error for each and changes nothing else. *)
Theorem drain_discards_mission_items (b : Bridge) :
  Forall is_mission (data_queue b) ->
  let b' := _process_data_queue b in
  data_queue b' = [] /\
  effects b' =
    effects b ++ replicate (length (data_queue b)) mission_item_error /\
  heap b' = heap b /\ drone_states b' = drone_states b /\
  mission_waypoints b' = mission_waypoints b /\ clock b' = clock b.
Proof.
  intros Hall. apply process_loop_missions; [lia|exact Hall|reflexivity].
Qed.

Lemma drain_discards_mission_items_witness :
  Forall is_mission (data_queue (after_missions 11 fresh_bridge)) /\
  data_queue (_process_data_queue (after_missions 11 fresh_bridge)) = [].
Proof.
  assert (Hall : Forall is_mission (data_queue (after_missions 11 fresh_bridge)))
    by (vm_compute; repeat constructor).
  split; [exact Hall|].
  exact (proj1 (drain_discards_mission_items _ Hall)).
Defined.

(** ** Invariants of the drain *)

Lemma emit_all_effects (es : list Effect) (b : Bridge) :
  effects (emit_all es b) = effects b ++ es.
Proof.
  unfold emit_all. revert b. induction es as [|e es IH]; intros b; simpl.
  - rewrite app_nil_r. reflexivity.
  - rewrite IH. simpl. rewrite <- app_assoc. reflexivity.
Qed.

(** The dispatcher does nothing but emit effects: at most one request to
    MATLAB, followed by two log entries when the request fails. *)
Lemma execute_matlab_command_emits (c : CommandData) (b : Bridge) :
  exists es, _execute_matlab_command c b = emit_all es b /\ length es <= 3.
Proof.
  unfold _execute_matlab_command, matlab_call.
  destruct (matlab_is_connected b); simpl; [|exists []; split; [done|simpl; lia]].
  repeat match goal with
         | |- context [if ?c then _ else _] => destruct c
         | |- context [match matlab_engine ?x ?y with _ => _ end] =>
             destruct (matlab_engine x y)
         end;
    first [ exists []; split; [reflexivity|simpl; lia]
          | eexists [_]; split; [reflexivity|simpl; lia]
          | eexists [_; _; _]; split; [reflexivity|simpl; lia] ].
Qed.

Section Invariant.
Variable P : Bridge -> Prop.
Hypothesis P_queue : forall q b, P b -> P (set_data_queue q b).
Hypothesis P_emit : forall e b, P b -> P (emit e b).
Hypothesis P_update : forall sd b, P b -> P (_update_drone_state sd b).
Hypothesis P_flags : forall r m v b, P b -> P (set_connected m v (set_running r b)).

Lemma emit_all_invariant (es : list Effect) (b : Bridge) :
  P b -> P (emit_all es b).
Proof.
  revert b. induction es as [|e es IH]; intros b Hb; [exact Hb|].
  apply IH, P_emit, Hb.
Qed.

Lemma process_data_item_invariant (item : DataItem) (b : Bridge) :
  P b -> P (bridge_after (_process_data_item item b)).
Proof.
  intros Hb. destruct item as [sd|md|c]; simpl.
  - apply P_update, Hb.
  - exact Hb.
  - destruct (execute_matlab_command_emits c b) as (es & -> & _).
    apply emit_all_invariant, Hb.
Qed.

Lemma process_loop_invariant (items : list DataItem) (n : nat) (b : Bridge) :
  P b -> P (process_loop items n b).
Proof.
  revert n b. induction items as [|item rest IH]; intros n b Hb; [exact Hb|].
  simpl. destruct (decide (n < 10)); [|exact Hb].
  pose proof (process_data_item_invariant item (set_data_queue rest b)
                (P_queue rest b Hb)) as Hitem.
  destruct (_process_data_item item (set_data_queue rest b))
    as [r b1|e b1|b1]; simpl in Hitem.
  - apply IH, Hitem.
  - apply IH, P_emit, Hitem.
  - exact Hitem.
Qed.

End Invariant.

Lemma wf_only_store (b b' : Bridge) :
  heap b' = heap b -> drone_states b' = drone_states b -> wf b -> wf b'.
Proof. unfold wf. intros -> ->. done. Qed.

Lemma wf_Queue_put (item : DataItem) (b : Bridge) :
  wf b -> wf (bridge_after (Queue_put item b)).
Proof.
  unfold Queue_put. destruct (decide _); simpl; [done|].
  apply wf_only_store; reflexivity.
Qed.

Lemma send_waypoint_mission_store (wps : list MissionWaypoint) (ts : Z)
    (b : Bridge) :
  heap (snd (send_waypoint_mission wps ts b)) = heap b /\
  drone_states (snd (send_waypoint_mission wps ts b)) = drone_states b.
Proof.
  destruct (send_waypoint_mission_emits wps ts b) as [es ->].
  destruct (emit_all_frame es b) as (_ & _ & -> & -> & _). done.
Qed.

Lemma wf_send_mission (d : string) (wps : list MissionWaypoint) (b : Bridge) :
  wf b -> wf (bridge_after (send_mission_to_drone d wps b)).
Proof.
  intros Hwf. unfold send_mission_to_drone.
  destruct (MAVLINK_AVAILABLE b && mavlink_is_connected b).
  - destruct (target_system_of d) as [ts|]; [|exact Hwf].
    apply wf_Queue_put.
    destruct (send_waypoint_mission_store wps ts b) as [Hh Hd].
    eapply wf_only_store; [| |exact Hwf]; simpl; assumption.
  - apply wf_Queue_put. eapply wf_only_store; [| |exact Hwf]; reflexivity.
Qed.

(** ** More on the dispatcher *)

(** The dispatch table, with its defaults: each of the four kinds sends one
    request to a connected MATLAB (a load without a file passes [None], a
    safety distance without a value passes 5.0); when the engine fails the
    failure is logged by the call and by the dispatcher, and the dispatcher
    still returns. *)
Theorem dispatch_sends_one_request (c : CommandData) (b : Bridge) :
  matlab_is_connected b = true ->
  (cmd_type c = Some "start_simulation" ->
   _execute_matlab_command c b =
     emit_all (request_effects (matlab_engine b)
                 (call_function "start_simulation" [])) b) /\
  (cmd_type c = Some "stop_simulation" ->
   _execute_matlab_command c b =
     emit_all (request_effects (matlab_engine b)
                 (call_function "stop_simulation" [])) b) /\
  (cmd_type c = Some "load_mission" ->
   _execute_matlab_command c b =
     emit_all (request_effects (matlab_engine b)
                 (call_function "load_qgc_file" [cmd_file c])) b) /\
  (cmd_type c = Some "set_safety_distance" ->
   _execute_matlab_command c b =
     emit_all (request_effects (matlab_engine b)
                 (evaluate_safety_distance (default 5%float (cmd_distance c))))
       b).
Proof.
  intros Hconn.
  repeat split; intros Ht; unfold _execute_matlab_command, matlab_call,
    request_effects; rewrite Hconn, Ht; simpl;
    match goal with
    | |- context [matlab_engine b ?r] => destruct (matlab_engine b r)
    end; reflexivity.
Qed.

Lemma dispatch_sends_one_request_witness :
  matlab_is_connected matlab_broken = true /\
  cmd_type safety_without_distance = Some "set_safety_distance" /\
  _execute_matlab_command safety_without_distance matlab_broken =
    emit_all (request_effects (matlab_engine matlab_broken)
                (evaluate_safety_distance
                   (default 5%float (cmd_distance safety_without_distance))))
      matlab_broken.
Proof.
  split; [reflexivity|]. split; [reflexivity|].
  exact (proj2 (proj2 (proj2
           (dispatch_sends_one_request safety_without_distance matlab_broken
              eq_refl))) eq_refl).
Defined.

Lemma execute_matlab_command_disconnected (c : CommandData) (b : Bridge) :
  matlab_is_connected b = false -> _execute_matlab_command c b = b.
Proof. intros Hoff. unfold _execute_matlab_command. rewrite Hoff. reflexivity. Qed.

Lemma process_loop_commands_lost (items : list DataItem) (n : nat)
    (b : Bridge) :
  matlab_is_connected b = false -> Forall is_command items ->
  data_queue b = items ->
  process_loop items n b = set_data_queue (drop (10 - n) items) b.
Proof.
  intros Hoff. revert n b Hoff.
  induction items as [|item rest IH]; intros n b Hoff Hall Hq.
  - simpl. rewrite drop_nil. symmetry. apply set_data_queue_same, Hq.
  - apply Forall_cons in Hall as [Hitem Hrest].
    destruct item as [sd|md|c]; try contradiction.
    simpl. destruct (decide (n < 10)) as [Hn|Hn].
    + replace (10 - n) with (S (10 - S n)) by lia. simpl.
      rewrite execute_matlab_command_disconnected by exact Hoff.
      rewrite IH; [reflexivity|exact Hoff|exact Hrest|reflexivity].
    + replace (10 - n) with 0 by lia. simpl.
      symmetry. apply set_data_queue_same, Hq.
Qed.

(** Commands are not kept for later: while MATLAB is not connected a drain
    takes up to ten queued commands and drops them, without a request, a
    log entry or any other change. *)
Theorem commands_lost_while_matlab_down (b : Bridge) :
  matlab_is_connected b = false ->
  Forall is_command (data_queue b) ->
  _process_data_queue b = set_data_queue (drop 10 (data_queue b)) b.
Proof.
  intros Hoff Hall.
  apply (process_loop_commands_lost (data_queue b) 0 b Hoff Hall eq_refl).
Qed.

Lemma commands_lost_while_matlab_down_witness :
  matlab_is_connected commands_queued = false /\
  Forall is_command (data_queue commands_queued) /\
  _process_data_queue commands_queued =
    set_data_queue (drop 10 (data_queue commands_queued)) commands_queued.
Proof.
  assert (Hall : Forall is_command (data_queue commands_queued))
    by (repeat constructor).
  split; [reflexivity|]. split; [exact Hall|].
  exact (commands_lost_while_matlab_down commands_queued eq_refl Hall).
Defined.

(** ** Agent ids of MAVLink systems *)

Lemma chars_append (s1 s2 : string) :
  String.list_ascii_of_string (s1 +:+ s2) =
    String.list_ascii_of_string s1 ++ String.list_ascii_of_string s2.
Proof. induction s1 as [|c s1 IH]; simpl; [done|]. rewrite IH. done. Qed.

(** A decimal digit is no white space, sign or underscore. *)
Lemma digit_plain (c : ascii) (d : Z) :
  digit c = Some d ->
  is_space c = false /\ Ascii.eqb c "+" = false /\ Ascii.eqb c "-" = false /\
  Ascii.eqb c "_" = false.
Proof.
  unfold digit, is_space. intros Hd.
  destruct (Nat.leb 48 (nat_of_ascii c) && Nat.leb (nat_of_ascii c) 57) eqn:Hr;
    [|discriminate].
  apply andb_true_iff in Hr as [H1 H2].
  apply Nat.leb_le in H1. apply Nat.leb_le in H2.
  repeat split.
  - apply orb_false_iff. split.
    + apply andb_false_iff. right. apply Nat.leb_gt. lia.
    + apply Nat.eqb_neq. lia.
  - apply Ascii.eqb_neq. intros ->. vm_compute in H1. lia.
  - apply Ascii.eqb_neq. intros ->. vm_compute in H1. lia.
  - apply Ascii.eqb_neq. intros ->. vm_compute in H2. lia.
Qed.

Lemma digit_pretty_N_char (x : N) :
  (x < 10)%N -> digit (pretty_N_char x) = Some (Z.of_N x).
Proof.
  intros Hx.
  assert (x = 0 \/ x = 1 \/ x = 2 \/ x = 3 \/ x = 4 \/ x = 5 \/ x = 6 \/
          x = 7 \/ x = 8 \/ x = 9)%N as Hc by lia.
  repeat destruct Hc as [->|Hc]; try subst x; reflexivity.
Qed.

(** The digits [pretty_N_go] puts in front of [s] read back as [x]. *)
Lemma pretty_N_go_digits (x : N) :
  forall s : string,
  exists ds : list ascii,
    String.list_ascii_of_string (pretty_N_go x s) =
      ds ++ String.list_ascii_of_string s /\
    Forall is_digit ds /\
    ((0 < x)%N -> ds <> []) /\
    forall (acc : Z) (rest : list ascii),
      digits acc (ds ++ rest) =
        digits (acc * 10 ^ Z.of_nat (length ds) + Z.of_N x)%Z rest.
Proof.
  induction (N.lt_wf_0 x) as [x _ IH]. intros s.
  assert (x = 0 \/ 0 < x)%N as [->|Hpos] by lia.
  - exists []. rewrite pretty_N_go_0. repeat split; [constructor|lia|].
    intros acc rest. simpl. f_equal. lia.
  - rewrite pretty_N_go_step by exact Hpos.
    destruct (IH (x `div` 10)%N (N.div_lt x 10 Hpos eq_refl)
                (String (pretty_N_char (x `mod` 10)) s))
      as (ds & Hchars & Hdig & _ & Hval).
    assert (Hlt : (x `mod` 10 < 10)%N) by (apply N.mod_lt; lia).
    exists (ds ++ [pretty_N_char (x `mod` 10)]). repeat split.
    + rewrite Hchars. simpl. rewrite <- app_assoc. reflexivity.
    + apply Forall_app. split; [exact Hdig|].
      constructor; [|constructor]. eexists. apply digit_pretty_N_char, Hlt.
    + intros _. destruct ds; discriminate.
    + intros acc rest. rewrite <- app_assoc, Hval. simpl.
      rewrite digit_pretty_N_char by exact Hlt. f_equal.
      rewrite length_app. simpl length.
      rewrite Nat2Z.inj_add, Z.pow_add_r by lia.
      pose proof (N.div_mod x 10 ltac:(lia)) as Hdm.
      assert (Z.of_N x = 10 * Z.of_N (x `div` 10) + Z.of_N (x `mod` 10))%Z
        by lia.
      change (10 ^ Z.of_nat 1)%Z with 10%Z. lia.
Qed.

Lemma lstrip_plain (s : list ascii) :
  match s with c :: _ => is_space c = false | [] => True end -> lstrip s = s.
Proof. destruct s as [|c s]; [done|]. simpl. intros ->. done. Qed.

Lemma strip_plain (s : list ascii) :
  Forall (fun c => is_space c = false) s -> strip s = s.
Proof.
  intros Hall. unfold strip.
  rewrite (lstrip_plain s) by (destruct Hall; done).
  rewrite lstrip_plain, rev_involutive; [done|].
  apply Forall_rev in Hall. destruct Hall; done.
Qed.

Lemma split_no_sep (sep : ascii) (s : list ascii) :
  Forall (fun c => Ascii.eqb c sep = false) s -> split sep s = [s].
Proof.
  induction 1 as [|c s Hc _ IH]; [done|]. simpl. rewrite Hc, IH. done.
Qed.

(** The last segment of a split is what follows the last separator. *)
Lemma split_last (sep : ascii) (s1 s2 : list ascii) :
  Forall (fun c => Ascii.eqb c sep = false) s2 ->
  last (split sep (s1 ++ sep :: s2)) = Some s2.
Proof.
  intros Hs2.
  assert (Hgen : exists seg segs,
             split sep (s1 ++ sep :: s2) = seg :: segs ++ [s2]).
  { induction s1 as [|c s1 (seg & segs & IH)]; simpl.
    - rewrite Ascii.eqb_refl, split_no_sep by exact Hs2. exists [], []. done.
    - destruct (Ascii.eqb c sep).
      + rewrite IH. exists [], (seg :: segs). done.
      + rewrite IH. exists (c :: seg), segs. done. }
  destruct Hgen as (seg & segs & ->).
  rewrite app_comm_cons. apply last_snoc.
Qed.

Lemma py_int_pretty (n : Z) :
  py_int (String.list_ascii_of_string (py_str n)) = Some n /\
  Forall (fun c => Ascii.eqb c "_" = false)
    (String.list_ascii_of_string (py_str n)).
Proof.
  assert (Hpos : forall p : positive,
    exists c ds,
      String.list_ascii_of_string (pretty (N.pos p)) = c :: ds /\
      Forall is_digit (c :: ds) /\
      digits 0 (c :: ds) = Some (Z.pos p)).
  { intros p. unfold pretty, pretty_N. rewrite decide_False by done.
    destruct (pretty_N_go_digits (N.pos p) "") as (ds & Hchars & Hdig & Hne & Hval).
    simpl in Hchars. rewrite app_nil_r in Hchars.
    destruct ds as [|c ds]; [destruct Hne; [lia|done]|].
    exists c, ds. split; [exact Hchars|]. split; [exact Hdig|].
    specialize (Hval 0%Z []). rewrite app_nil_r in Hval. rewrite Hval.
    simpl digits. f_equal. }
  assert (Hplain : forall l, Forall is_digit l ->
            Forall (fun c => is_space c = false) l /\
            Forall (fun c => Ascii.eqb c "_" = false) l).
  { intros l Hl. split; eapply Forall_impl; try exact Hl;
      intros c [d Hd]; apply (digit_plain c d Hd). }
  unfold py_str, pretty, pretty_Z. destruct n as [|p|p].
  - split; [reflexivity|repeat constructor].
  - destruct (Hpos p) as (c & ds & Hchars & Hdig & Hval).
    change (pretty p) with (pretty (N.pos p)). rewrite Hchars.
    destruct (Hplain _ Hdig) as [Hsp Hus]. split; [|exact Hus].
    unfold py_int. rewrite strip_plain by exact Hsp.
    apply Forall_inv in Hdig as [d Hd].
    destruct (digit_plain c d Hd) as (_ & -> & -> & _). exact Hval.
  - destruct (Hpos p) as (c & ds & Hchars & Hdig & Hval).
    change (pretty p) with (pretty (N.pos p)).
    rewrite chars_append, Hchars.
    destruct (Hplain _ Hdig) as [Hsp Hus]. split.
    + unfold py_int. rewrite strip_plain.
      * change (Z.opp <$> digits 0 (c :: ds) = Some (Z.neg p)).
        rewrite Hval. reflexivity.
      * constructor; [reflexivity|exact Hsp].
    + constructor; [reflexivity|exact Hus].
Qed.

(** The ids the MAVLink handlers make up are read back by
    [send_mission_to_drone]: the target system of ["mavlink_" + str(n)] is
    [n], so a mission for an agent first seen on the link goes to the system
    that reported it, and the call cannot fail on the id. *)
Theorem mavlink_drone_id_round_trip (n : Z) :
  target_system_of (mavlink_drone_id n) = Some n.
Proof.
  destruct (py_int_pretty n) as [Hint Hus].
  assert (Hchars : String.list_ascii_of_string (mavlink_drone_id n) =
            String.list_ascii_of_string "mavlink" ++
              "_"%char :: String.list_ascii_of_string (py_str n)).
  { unfold mavlink_drone_id. rewrite chars_append. reflexivity. }
  unfold target_system_of. cbv zeta. rewrite Hchars.
  rewrite existsb_app.
  replace (existsb (Ascii.eqb "_")
             ("_"%char :: String.list_ascii_of_string (py_str n)))
    with true by reflexivity.
  rewrite orb_true_r, split_last by exact Hus. exact Hint.
Qed.

(** ** MAVLink telemetry *)

(** The armed flag of a status message is bit 31 of its sensors word. *)
Theorem armed_flag_is_bit_31 (msg : SysStatus) :
  sd_armed (status_data msg) =
    Some (Z.testbit (st_onboard_control_sensors_enabled msg) 31).
Proof.
  unfold status_data. cbn [sd_armed]. f_equal. unfold armed_flag.
  generalize (st_onboard_control_sensors_enabled msg). intros x.
  change 2147483648%Z with (2 ^ 31)%Z.
  destruct (Z.testbit x 31) eqn:Hbit.
  - apply negb_true_iff, Z.eqb_neq. intros Hzero.
    assert (Z.testbit (Z.land x (2 ^ 31)) 31 = true) as Habs.
    { rewrite Z.land_spec, Hbit, Z.pow2_bits_true by lia. reflexivity. }
    rewrite Hzero, Z.bits_0 in Habs. discriminate.
  - apply negb_false_iff, Z.eqb_eq. apply Z.bits_inj'. intros i Hi.
    rewrite Z.land_spec, Z.bits_0.
    destruct (decide (i = 31%Z)) as [->|Hne].
    + rewrite Hbit. reflexivity.
    + rewrite Z.pow2_bits_false by lia. apply andb_false_r.
Qed.

Lemma last_write_once {A : Type} (field : StateData -> option A)
    (us us' : list StateData) (x previous : A) :
  us ≡ₚ us' -> omap field us' = [x] -> last_write field us previous = x.
Proof.
  intros Hperm Hone. unfold last_write.
  assert (Hus : omap field us = [x]).
  { apply Permutation_singleton_r. rewrite <- Hone.
    apply omap_Permutation, Hperm. }
  rewrite Hus. reflexivity.
Qed.

Lemma last_write_never {A : Type} (field : StateData -> option A)
    (us us' : list StateData) (previous : A) :
  us ≡ₚ us' -> omap field us' = [] -> last_write field us previous = previous.
Proof.
  intros Hperm Hnone. unfold last_write.
  assert (Hus : omap field us = []).
  { apply Permutation_nil_r. rewrite <- Hnone.
    apply omap_Permutation, Hperm. }
  rewrite Hus. reflexivity.
Qed.

(** The three kinds of telemetry write disjoint fields, so their merge does
    not depend on the order they arrive in: after a position, an attitude
    and a status message of one system, in any order, the agent holds the
    position and velocity of the first, the attitude of the second, the
    battery voltage and armed flag of the third, and keeps its flight mode
    and GPS fix. *)
Theorem telemetry_merges_in_any_order (p : GlobalPositionInt)
    (a : AttitudeMsg) (s : SysStatus) (src : Z) (us : list StateData)
    (b : Bridge) :
  wf b ->
  gp_srcSystem p = src -> at_srcSystem a = src -> st_srcSystem s = src ->
  us ≡ₚ [position_data p; attitude_data a; status_data s] ->
  exists t : float,
    state_of (apply_updates us b) (mavlink_drone_id src) =
      Some {| drone_id := drone_id (previous_state b (mavlink_drone_id src));
              timestamp := t;
              position :=
                [true_div (gp_lat p) 10000000; true_div (gp_lon p) 10000000;
                 true_div (gp_alt p) 1000];
              velocity :=
                [true_div (gp_vx p) 100; true_div (gp_vy p) 100;
                 true_div (gp_vz p) 100];
              attitude := [at_roll a; at_pitch a; at_yaw a];
              battery_voltage := true_div (st_voltage_battery s) 1000;
              flight_mode :=
                flight_mode (previous_state b (mavlink_drone_id src));
              armed := armed_flag (st_onboard_control_sensors_enabled s);
              gps_fix := gps_fix (previous_state b (mavlink_drone_id src)) |}.
Proof.
  intros Hwf Hp Ha Hs Hperm.
  assert (Hids : Forall (fun u => sd_drone_id u = mavlink_drone_id src) us).
  { rewrite Hperm. repeat constructor; simpl; congruence. }
  assert (Hne : us <> []).
  { intros ->. apply Permutation_nil_l in Hperm. discriminate. }
  eexists. rewrite (apply_updates_lww b _ us Hwf Hids Hne).
  f_equal. unfold lww_merge. f_equal.
  - eapply last_write_once; [exact Hperm|reflexivity].
  - eapply last_write_once; [exact Hperm|reflexivity].
  - eapply last_write_once; [exact Hperm|reflexivity].
  - eapply last_write_once; [exact Hperm|reflexivity].
  - eapply last_write_never; [exact Hperm|reflexivity].
  - eapply last_write_once; [exact Hperm|reflexivity].
  - eapply last_write_never; [exact Hperm|reflexivity].
Qed.

Lemma telemetry_merges_in_any_order_witness :
  wf fresh_bridge /\
  telemetry_run_7 ≡ₚ
    [position_data position_msg_7; attitude_data attitude_msg_7;
     status_data status_msg_7] /\
  exists t : float,
    state_of (apply_updates telemetry_run_7 fresh_bridge) (mavlink_drone_id 7) =
      Some {| drone_id := drone_id (previous_state fresh_bridge
                                      (mavlink_drone_id 7));
              timestamp := t;
              position :=
                [true_div (gp_lat position_msg_7) 10000000;
                 true_div (gp_lon position_msg_7) 10000000;
                 true_div (gp_alt position_msg_7) 1000];
              velocity :=
                [true_div (gp_vx position_msg_7) 100;
                 true_div (gp_vy position_msg_7) 100;
                 true_div (gp_vz position_msg_7) 100];
              attitude := [at_roll attitude_msg_7; at_pitch attitude_msg_7;
                           at_yaw attitude_msg_7];
              battery_voltage :=
                true_div (st_voltage_battery status_msg_7) 1000;
              flight_mode :=
                flight_mode (previous_state fresh_bridge (mavlink_drone_id 7));
              armed :=
                armed_flag (st_onboard_control_sensors_enabled status_msg_7);
              gps_fix :=
                gps_fix (previous_state fresh_bridge (mavlink_drone_id 7)) |}.
Proof.
  assert (Hwf : wf fresh_bridge) by apply wf_init.
  assert (Hperm : telemetry_run_7 ≡ₚ
            [position_data position_msg_7; attitude_data attitude_msg_7;
             status_data status_msg_7]).
  { unfold telemetry_run_7.
    apply (Permutation_cons_append
             [position_data position_msg_7; attitude_data attitude_msg_7]). }
  split; [exact Hwf|]. split; [exact Hperm|].
  exact (telemetry_merges_in_any_order position_msg_7 attitude_msg_7
           status_msg_7 7 telemetry_run_7 fresh_bridge Hwf eq_refl eq_refl
           eq_refl Hperm).
Defined.

(** *** The message loop *)




Lemma handlers_at_start_lookup (msg : MavlinkMessage) :
  handlers_at_start !! get_type msg =
    match msg with
    | GLOBAL_POSITION_INT _ => Some [on_position]
    | ATTITUDE _ => Some [on_attitude]
    | SYS_STATUS _ => Some [on_status]
    | HEARTBEAT _ => None
    end.
Proof. destruct msg; reflexivity. Qed.

Lemma dispatch_at_start (msg : MavlinkMessage) (b : Bridge) :
  length (data_queue b) < maxsize ->
  dispatch_message handlers_at_start msg b =
    Returns ()
      (set_data_queue
         (data_queue b ++
            (drone_state <$> option_list (update_of_poll (poll_message msg))))
         b).
Proof.
  intros Hroom. unfold dispatch_message. rewrite handlers_at_start_lookup.
  destruct msg as [m|m|m|src]; simpl;
    unfold _handle_mavlink_position, _handle_mavlink_attitude,
      _handle_mavlink_status;
    rewrite ?Queue_put_room by exact Hroom; try reflexivity.
  rewrite app_nil_r. symmetry. f_equal. apply set_data_queue_same. reflexivity.
Qed.

Lemma message_loop_updates (polls : list Poll) (b : Bridge) :
  Forall goes_on polls ->
  length (data_queue b) + length polls <= maxsize ->
  _message_loop handlers_at_start polls b =
    loop_polling
      (set_data_queue
         (data_queue b ++ (drone_state <$> omap update_of_poll polls)) b).
Proof.
  revert b. induction polls as [|p rest IH]; intros b Hall Hroom.
  - simpl. rewrite app_nil_r. f_equal. symmetry.
    apply set_data_queue_same. reflexivity.
  - apply Forall_cons in Hall as [Hp Hrest]. simpl in Hroom.
    destruct p as [| |msg|e]; try contradiction.
    + simpl. apply IH; [exact Hrest|lia].
    + cbn [_message_loop]. rewrite dispatch_at_start by lia.
      rewrite IH; [|exact Hrest|].
      * f_equal. simpl data_queue. rewrite set_data_queue_twice.
        f_equal. rewrite <- app_assoc. f_equal.
        destruct msg; reflexivity.
      * simpl data_queue. rewrite length_app, length_fmap.
        destruct msg; simpl; lia.
Qed.

(** With the handlers [start] registers, the message loop turns the
    position, attitude and status messages it receives into state updates
    at the back of the queue, one per message and in the order received;
    time-outs and other messages add nothing. *)
Theorem message_loop_enqueues_in_order (polls : list Poll) (b : Bridge) :
  Forall goes_on polls ->
  length (data_queue b) + length polls <= maxsize ->
  _message_loop handlers_at_start polls b =
    loop_polling
      (set_data_queue
         (data_queue b ++ (drone_state <$> omap update_of_poll polls)) b).
Proof. apply message_loop_updates. Qed.

Lemma message_loop_enqueues_in_order_witness :
  Forall goes_on telemetry_polls /\
  length (data_queue fresh_bridge) + length telemetry_polls <= maxsize /\
  _message_loop handlers_at_start telemetry_polls fresh_bridge =
    loop_polling
      (set_data_queue
         (data_queue fresh_bridge ++
            (drone_state <$> omap update_of_poll telemetry_polls))
         fresh_bridge).
Proof.
  assert (Hall : Forall goes_on telemetry_polls) by (repeat constructor).
  assert (Hroom : length (data_queue fresh_bridge) + length telemetry_polls
                  <= maxsize) by (unfold maxsize; simpl; lia).
  split; [exact Hall|]. split; [exact Hroom|].
  exact (message_loop_enqueues_in_order telemetry_polls fresh_bridge Hall Hroom).
Defined.

(** ** The WebSocket fan-out *)

Lemma broadcast_loop_spec (send : nat -> SendResult) (clients : list nat)
    (disconnected : gset nat) (b : Bridge) :
  let '(disconnected', b') := broadcast_loop send clients disconnected b in
  (forall c, c ∈ disconnected' <->
             c ∈ disconnected \/ (c ∈ clients /\ delivered (send c) = false)) /\
  b' = emit_all (omap (fun c => send_log (send c)) clients) b.
Proof.
  revert disconnected b.
  induction clients as [|client rest IH]; intros disconnected b; simpl.
  - split; [|reflexivity]. intros c. rewrite elem_of_nil. tauto.
  - destruct (send client) as [| |e] eqn:Hsend; simpl.
    + specialize (IH disconnected b).
      destruct (broadcast_loop send rest disconnected b) as [d' b'].
      destruct IH as [Hd Hb]. split; [|exact Hb].
      intros c. rewrite Hd, elem_of_cons. split; [tauto|].
      intros [H|[[->|H] Hf]]; [tauto| |tauto].
      rewrite Hsend in Hf. discriminate.
    + specialize (IH (disconnected ∪ {[client]}) b).
      destruct (broadcast_loop send rest (disconnected ∪ {[client]}) b)
        as [d' b'].
      destruct IH as [Hd Hb]. split; [|exact Hb].
      intros c. rewrite Hd, elem_of_cons, elem_of_union, elem_of_singleton.
      split; [|tauto].
      intros [[H| ->]|H]; [tauto| |tauto].
      right. rewrite Hsend. auto.
    + specialize (IH (disconnected ∪ {[client]})
                    (emit (logger_error "廣播錯誤" e) b)).
      destruct (broadcast_loop send rest (disconnected ∪ {[client]})
                  (emit (logger_error "廣播錯誤" e) b)) as [d' b'].
      destruct IH as [Hd Hb]. split; [|exact Hb].
      intros c. rewrite Hd, elem_of_cons, elem_of_union, elem_of_singleton.
      split; [|tauto].
      intros [[H| ->]|H]; [tauto| |tauto].
      right. rewrite Hsend. auto.
Qed.

Lemma broadcast_data_spec (send : nat -> SendResult)
    (clients : gset nat) (b : Bridge) :
  (forall c : nat,
     c ∈ fst (broadcast_data send clients b) <->
     c ∈ clients /\ delivered (send c) = true) /\
  snd (broadcast_data send clients b) =
    emit_all (omap (fun c => send_log (send c)) (elements clients)) b.
Proof.
  unfold broadcast_data. destruct (decide (clients = ∅)) as [->|Hne].
  - simpl. split.
    + intros c. rewrite elem_of_empty. tauto.
    + rewrite elements_empty. reflexivity.
  - pose proof (broadcast_loop_spec send (elements clients) ∅ b) as Hspec.
    destruct (broadcast_loop send (elements clients) ∅ b) as [d b'].
    destruct Hspec as [Hd Hb]. simpl. split; [|exact Hb].
    intros c. rewrite elem_of_difference, Hd, elem_of_elements, elem_of_empty.
    destruct (delivered (send c)); split.
    + intros [H _]. auto.
    + intros [H _]. split; [exact H|]. intros [[]|[_ ?]]. discriminate.
    + intros [H Hn]. destruct Hn. right. auto.
    + intros [_ ?]. discriminate.
Qed.

(** A broadcast keeps exactly the clients whose send succeeded, whatever
    the others did: a closed or failing client is dropped from the set and
    never costs another client its place, and only failures other than a
    closed connection are logged, once each. *)
Theorem broadcast_keeps_served_clients (send : nat -> SendResult)
    (clients : gset nat) (b : Bridge) :
  (forall c : nat,
     c ∈ fst (broadcast_data send clients b) <->
     c ∈ clients /\ delivered (send c) = true) /\
  snd (broadcast_data send clients b) =
    emit_all (omap (fun c => send_log (send c)) (elements clients)) b.
Proof. apply broadcast_data_spec. Qed.

(** ** The ZeroMQ publisher *)

Lemma positions_of_lookup (b : Bridge) (d : string) :
  positions_of b !! d = position <$> state_of b d.
Proof.
  unfold positions_of, state_of, deref. rewrite lookup_omap.
  destruct (drone_states b !! d) as [ref|]; reflexivity.
Qed.

(** The ZeroMQ step of a tick never raises.  With an empty store it sends
    nothing and reads no clock; without a publisher socket it sends
    nothing; otherwise the message that goes out counts the agents of the
    store and lists, for every agent, the position the store holds, and
    the payload's timestamp is the clock reading taken just before the
    envelope's. *)
Theorem zmq_message_mirrors_store (socket : option SocketType)
    (send_raises : option exn) (b : Bridge) :
  (drone_states b = ∅ -> _send_zmq_data socket send_raises b = (None, b)) /\
  (socket <> Some PUB -> fst (_send_zmq_data socket send_raises b) = None) /\
  (forall m : ZmqMessage,
     fst (_send_zmq_data socket send_raises b) = Some m ->
     socket = Some PUB /\ send_raises = None /\
     zm_topic m = "simulation_update" /\
     zd_drone_count (zm_data m) = size (drone_states b) /\
     (forall d : string,
        zd_positions (zm_data m) !! d = position <$> state_of b d) /\
     zd_timestamp (zm_data m) = time_time b (clock b) /\
     zm_timestamp m = time_time b (S (clock b))) /\
  (drone_states b <> ∅ -> socket = Some PUB -> send_raises = None ->
   is_Some (fst (_send_zmq_data socket send_raises b))).
Proof.
  unfold _send_zmq_data, send_data.
  split; [|split; [|split]].
  - intros ->. rewrite decide_True by reflexivity. reflexivity.
  - intros Hsock. destruct (decide _); [reflexivity|]. simpl.
    destruct socket as [[|]|]; try reflexivity. congruence.
  - intros m. destruct (decide _) as [|Hne]; [discriminate|]. simpl.
    destruct socket as [[|]|]; try discriminate. simpl.
    destruct send_raises; [discriminate|]. simpl. intros [= <-]. simpl.
    repeat split. intros d. apply (positions_of_lookup (set_clock _ b)).
  - intros Hne -> ->. rewrite decide_False by exact Hne. simpl. eauto.
Qed.

Lemma zmq_message_mirrors_store_witness :
  drone_states with_a1 <> ∅ /\
  is_Some (fst (_send_zmq_data (Some PUB) None with_a1)).
Proof.
  assert (Hne : drone_states with_a1 <> ∅).
  { intros H. apply (f_equal (fun m => m !! "a1")) in H.
    vm_compute in H. discriminate. }
  split; [exact Hne|].
  exact (proj2 (proj2 (proj2 (zmq_message_mirrors_store (Some PUB) None with_a1)))
           Hne eq_refl eq_refl).
Defined.

(** ** Statistics *)

(** The number of agents the statistics report is the number of distinct
    agent ids seen so far: after a run of updates it is the size of the set
    of ids stored before joined with the ids the run names, however often
    each id was updated. *)
Theorem stats_count_distinct_agents (ros2 ros2_init : bool)
    (clients : gset nat) (us : list StateData) (b : Bridge) :
  connected_drones
    (get_simulation_stats ros2 ros2_init clients (apply_updates us b)) =
    size (dom (drone_states b) ∪ ids_of us).
Proof.
  simpl. rewrite <- apply_updates_dom. symmetry. apply size_dom.
Qed.

(** ** Pauses in the trace *)

Lemma sleeps_of_app (es1 es2 : list Effect) :
  sleeps_of (es1 ++ es2) = sleeps_of es1 ++ sleeps_of es2.
Proof. apply omap_app. Qed.

Lemma execute_matlab_command_sleeps (c : CommandData) (b : Bridge) :
  sleeps_of (effects (_execute_matlab_command c b)) = sleeps_of (effects b).
Proof.
  unfold _execute_matlab_command, matlab_call.
  destruct (matlab_is_connected b); simpl; [|reflexivity].
  repeat match goal with
         | |- context [if ?c then _ else _] => destruct c
         | |- context [match matlab_engine ?x ?y with _ => _ end] =>
             destruct (matlab_engine x y)
         end; simpl; rewrite ?sleeps_of_app; simpl; rewrite ?app_nil_r;
    reflexivity.
Qed.

Lemma process_loop_sleeps (items : list DataItem) (n : nat) (b : Bridge) :
  sleeps_of (effects (process_loop items n b)) = sleeps_of (effects b).
Proof.
  revert n b. induction items as [|item rest IH]; intros n b; [done|].
  simpl. destruct (decide (n < 10)); [|done].
  destruct item as [sd|md|c]; simpl.
  - rewrite IH. destruct (update_frame sd (set_data_queue rest b))
      as (_ & _ & _ & -> & _). reflexivity.
  - rewrite IH. simpl. rewrite sleeps_of_app. simpl. apply app_nil_r.
  - rewrite IH. apply (execute_matlab_command_sleeps c (set_data_queue rest b)).
Qed.

(** *** Clients coming and going *)

(** A client that registers and leaves is gone from the set and nobody
    else is affected; but a client a broadcast has already dropped is no
    longer in the set when its connection closes, so the [remove] at the
    end of its [register] call raises [KeyError]. *)
Theorem dropped_client_cannot_leave (send : nat -> SendResult)
    (clients : gset nat) (b : Bridge) (websocket : nat) :
  (websocket ∉ clients ->
   register_leave websocket (register_enter websocket clients) = Some clients) /\
  (websocket ∈ clients -> delivered (send websocket) = false ->
   register_leave websocket (fst (broadcast_data send clients b)) = None).
Proof.
  unfold register_leave, register_enter. split.
  - intros Hnew. rewrite decide_True by set_solver. f_equal. set_solver.
  - intros Hin Hfail. rewrite decide_False; [reflexivity|].
    destruct (broadcast_data_spec send clients b) as [Hkept _].
    rewrite Hkept, Hfail. intros [_ ?]. discriminate.
Qed.

Lemma dropped_client_cannot_leave_witness :
  2 ∈ four_clients /\ delivered (flaky_send 2) = false /\
  register_leave 2 (fst (broadcast_data flaky_send four_clients fresh_bridge))
    = None.
Proof.
  assert (Hin : 2 ∈ four_clients) by (unfold four_clients; set_solver).
  split; [exact Hin|]. split; [reflexivity|].
  exact (proj2 (dropped_client_cannot_leave flaky_send four_clients
                  fresh_bridge 2) Hin eq_refl).
Defined.

(** ** From the link to the store *)

(** Telemetry received while the queue is empty reaches the store with the
    next drain: the first ten updates the messages give are merged, in the
    order the messages arrived, and the others wait in the queue. *)
Theorem telemetry_reaches_store (polls : list Poll) (b : Bridge) :
  data_queue b = [] ->
  Forall goes_on polls ->
  length polls <= maxsize ->
  _process_data_queue
    (loop_bridge (_message_loop handlers_at_start polls b)) =
    set_data_queue (drone_state <$> drop 10 (omap update_of_poll polls))
      (apply_updates (take 10 (omap update_of_poll polls)) b).
Proof.
  intros Hq Hall Hlen.
  rewrite message_loop_updates by (rewrite ?Hq; simpl; done).
  simpl loop_bridge. rewrite Hq. simpl app.
  rewrite (process_data_queue_updates (omap update_of_poll polls))
    by reflexivity.
  rewrite apply_updates_set_data_queue. reflexivity.
Qed.

Lemma telemetry_reaches_store_witness :
  data_queue fresh_bridge = [] /\
  Forall goes_on telemetry_polls /\
  length telemetry_polls <= maxsize /\
  _process_data_queue
    (loop_bridge (_message_loop handlers_at_start telemetry_polls fresh_bridge)) =
    set_data_queue
      (drone_state <$> drop 10 (omap update_of_poll telemetry_polls))
      (apply_updates (take 10 (omap update_of_poll telemetry_polls))
         fresh_bridge).
Proof.
  assert (Hall : Forall goes_on telemetry_polls) by (repeat constructor).
  assert (Hlen : length telemetry_polls <= maxsize)
    by (unfold maxsize; simpl; lia).
  split; [reflexivity|]. split; [exact Hall|]. split; [exact Hlen|].
  exact (telemetry_reaches_store telemetry_polls fresh_bridge eq_refl Hall Hlen).
Defined.

(** ** The MATLAB steps of a tick *)

Lemma sync_data_lookup (b : Bridge) (d : string) :
  sync_data b !! d = sync_of <$> state_of b d.
Proof.
  unfold sync_data, state_of, deref. rewrite lookup_omap.
  destruct (drone_states b !! d) as [ref|]; reflexivity.
Qed.

Lemma views_of_lookup (b : Bridge) (d : string) :
  views_of b !! d = view_of <$> state_of b d.
Proof.
  unfold views_of, state_of, deref. rewrite lookup_omap.
  destruct (drone_states b !! d) as [ref|]; reflexivity.
Qed.

(** The synchronisation step of a tick never raises and never changes the
    store.  With MATLAB disconnected it does nothing.  Otherwise it first
    asks for the simulation time; when that query fails the agents are not
    pushed at all and the failure is logged twice; when it succeeds and the
    store is not empty, one expression pushes every agent of the store with
    its position, velocity, attitude and timestamp. *)
Theorem matlab_sync_pushes_the_store (engine : Engine) (s : Session) :
  let s' := _update_matlab_simulation engine s in
  (matlab_is_connected (bridge s) = false -> s' = s) /\
  (forall e : exn,
     matlab_is_connected (bridge s) = true ->
     engine simulator_current_time = inr e ->
     evaluated s' = evaluated s ++ [simulator_current_time] /\
     effects (bridge s') =
       effects (bridge s) ++
         [logger_error "MATLAB表達式執行失敗" e;
          logger_error "MATLAB模擬更新錯誤" e]) /\
  (forall v : MatlabValue,
     matlab_is_connected (bridge s) = true ->
     engine simulator_current_time = inl v ->
     drone_states (bridge s) <> ∅ ->
     evaluated s' =
       evaluated s ++
         [simulator_current_time;
          update_drone_states_from_python (sync_data (bridge s))] /\
     forall d : string,
       sync_data (bridge s) !! d = sync_of <$> state_of (bridge s) d) /\
  heap (bridge s') = heap (bridge s) /\
  drone_states (bridge s') = drone_states (bridge s).
Proof.
  cbv zeta. unfold _update_matlab_simulation, _update_matlab_drone_states,
    evaluate.
  split; [|split; [|split]].
  - intros ->. reflexivity.
  - intros e -> He. simpl. rewrite He. simpl. rewrite <- app_assoc. done.
  - intros v Hc Hv Hne. rewrite Hc. simpl. rewrite Hv. simpl.
    rewrite decide_False by exact Hne. simpl. rewrite Hc.
    split; [|apply sync_data_lookup].
    destruct (engine (update_drone_states_from_python (sync_data (bridge s))));
      simpl; rewrite <- app_assoc; reflexivity.
  - destruct (matlab_is_connected (bridge s)) eqn:Hc; simpl; [|done].
    destruct (engine simulator_current_time); simpl; [|done].
    destruct (decide _); simpl; [done|]. rewrite Hc.
    destruct (engine _); simpl; done.
Qed.

Lemma matlab_sync_pushes_the_store_witness :
  matlab_is_connected (bridge matlab_session) = true /\
  healthy_engine simulator_current_time = inl (mv_double 0) /\
  drone_states (bridge matlab_session) <> ∅ /\
  evaluated (_update_matlab_simulation healthy_engine matlab_session) =
    evaluated matlab_session ++
      [simulator_current_time;
       update_drone_states_from_python (sync_data (bridge matlab_session))].
Proof.
  assert (Hne : drone_states (bridge matlab_session) <> ∅).
  { intros H. apply (f_equal (fun m => m !! "a1")) in H.
    vm_compute in H. discriminate. }
  split; [reflexivity|]. split; [reflexivity|]. split; [exact Hne|].
  exact (proj1 (proj1 (proj2 (proj2
           (matlab_sync_pushes_the_store healthy_engine matlab_session)))
           (mv_double 0) eq_refl eq_refl Hne)).
Defined.

Lemma get_matlab_simulation_data_frame (engine : Engine) (s : Session) :
  let '(m, s') := _get_matlab_simulation_data engine s in
  (exists es, bridge s' = emit_all es (bridge s)) /\
  (forall sim, m = Some sim ->
     ms_drone_count sim = size (drone_states (bridge s))).
Proof.
  unfold _get_matlab_simulation_data, evaluate.
  destruct (matlab_is_connected (bridge s)) eqn:Hc; simpl.
  - destruct (engine simulator_current_time); simpl.
    + rewrite Hc. destruct (engine simulator_is_playing); simpl.
      * split; [exists []; reflexivity|]. intros sim [= <-]. reflexivity.
      * split; [eexists [_; _]; reflexivity|discriminate].
    + split; [eexists [_; _]; reflexivity|discriminate].
  - split; [eexists [_]; reflexivity|discriminate].
Qed.

Lemma emit_all_store (es : list Effect) (b : Bridge) :
  heap (emit_all es b) = heap b /\
  drone_states (emit_all es b) = drone_states b.
Proof.
  unfold emit_all. revert b. induction es as [|e es IH]; intros b; [done|].
  simpl. destruct (IH (emit e b)) as [-> ->]. done.
Qed.

(** What the viewers are sent mirrors the store.  Without clients nothing
    is built or sent, and neither the clock nor MATLAB is consulted.  With
    clients, the payload lists every agent of the store with its position,
    velocity, attitude, battery voltage, flight mode and armed flag, carries
    the MATLAB summary exactly when MATLAB is connected (with the store's
    agent count when the queries succeed), and the clients left are those
    whose send succeeded. *)
Theorem viewer_payload_mirrors_store (send : nat -> SendResult)
    (engine : Engine) (clients : gset nat) (s : Session) :
  (clients = ∅ ->
   _broadcast_simulation_data send engine clients s = (None, clients, s)) /\
  (clients <> ∅ ->
   exists (payload : BroadcastData) (clients' : gset nat) (s' : Session),
     _broadcast_simulation_data send engine clients s =
       (Some payload, clients', s') /\
     bd_timestamp payload = time_time (bridge s) (clock (bridge s)) /\
     (forall d : string,
        bd_drone_states payload !! d = view_of <$> state_of (bridge s) d) /\
     (bd_matlab_simulation payload = None <->
      matlab_is_connected (bridge s) = false) /\
     (forall sim : MatlabSimulation,
        bd_matlab_simulation payload = Some (Some sim) ->
        ms_drone_count sim = size (drone_states (bridge s))) /\
     (forall c : nat,
        c ∈ clients' <-> c ∈ clients /\ delivered (send c) = true)).
Proof.
  unfold _broadcast_simulation_data. split.
  - intros ->. rewrite decide_True by reflexivity. reflexivity.
  - intros Hne. rewrite decide_False by exact Hne. simpl.
    set (b1 := set_clock (S (clock (bridge s))) (bridge s)).
    set (s1 := mkSession b1 (evaluated s)).
    destruct (matlab_is_connected (bridge s)) eqn:Hc.
    + pose proof (get_matlab_simulation_data_frame engine s1) as Hframe.
      destruct (_get_matlab_simulation_data engine s1) as [m s2].
      destruct Hframe as [_ Hcount].
      pose proof (broadcast_data_spec send clients (bridge s2))
        as [Hkept _].
      destruct (broadcast_data send clients (bridge s2)) as [clients' b3].
      eexists _, _, _. split; [reflexivity|]. simpl.
      split; [reflexivity|]. split; [intros d; apply (views_of_lookup b1)|].
      split; [split; discriminate|].
      split; [|exact Hkept]. intros sim [= ->]. apply (Hcount sim eq_refl).
    + pose proof (broadcast_data_spec send clients (bridge s1))
        as [Hkept _].
      destruct (broadcast_data send clients (bridge s1)) as [clients' b3].
      eexists _, _, _. split; [reflexivity|]. simpl.
      split; [reflexivity|]. split; [intros d; apply (views_of_lookup b1)|].
      split; [split; reflexivity|].
      split; [discriminate|exact Hkept].
Qed.

Lemma viewer_payload_mirrors_store_witness :
  four_clients <> ∅ /\
  exists (payload : BroadcastData) (clients' : gset nat) (s' : Session),
    _broadcast_simulation_data flaky_send failing_engine four_clients
      matlab_session = (Some payload, clients', s') /\
    forall d : string,
      bd_drone_states payload !! d =
        view_of <$> state_of (bridge matlab_session) d.
Proof.
  assert (Hne : four_clients <> ∅).
  { intros H. assert (1 ∈ four_clients) as Hin
      by (unfold four_clients; set_solver).
    rewrite H in Hin. set_solver. }
  split; [exact Hne|].
  destruct (proj2 (viewer_payload_mirrors_store flaky_send failing_engine
                     four_clients matlab_session) Hne)
    as (payload & clients' & s' & Hrun & _ & Hviews & _).
  exists payload, clients', s'. split; [exact Hrun|exact Hviews].
Defined.

(** ** Commands from the ROS2 topic *)

(** A command received on the ROS2 topic is executed by the next drain:
    with an empty queue, handling the message and draining once leaves the
    bridge as the dispatcher leaves it for the decoded command, the queue
    empty again.  A text that does not decode is logged and nothing is
    enqueued. *)
Theorem ros2_command_runs_at_next_drain
    (json_loads : string -> CommandData + exn) (msg_data : string)
    (b : Bridge) :
  data_queue b = [] ->
  (forall c : CommandData,
     json_loads msg_data = inl c ->
     exists b1,
       _handle_ros2_command json_loads msg_data b = Returns () b1 /\
       _process_data_queue b1 = _execute_matlab_command c b) /\
  (forall e : exn,
     json_loads msg_data = inr e ->
     _handle_ros2_command json_loads msg_data b =
       Returns () (emit (logger_error "ROS2命令處理錯誤" e) b)).
Proof.
  intros Hq. unfold _handle_ros2_command. split.
  - intros c ->.
    rewrite Queue_put_room by (rewrite Hq; unfold maxsize; simpl; lia).
    eexists. split; [reflexivity|]. rewrite Hq.
    change (_execute_matlab_command c (set_data_queue [] b) =
            _execute_matlab_command c b).
    rewrite (set_data_queue_same b [] Hq). reflexivity.
  - intros e ->. reflexivity.
Qed.

Lemma ros2_command_runs_at_next_drain_witness :
  data_queue matlab_up = [] /\
  loads_stop "stop" = inl stop_command /\
  exists b1,
    _handle_ros2_command loads_stop "stop" matlab_up = Returns () b1 /\
    _process_data_queue b1 = _execute_matlab_command stop_command matlab_up.
Proof.
  split; [reflexivity|]. split; [reflexivity|].
  exact (proj1 (ros2_command_runs_at_next_drain loads_stop "stop" matlab_up
                  eq_refl) stop_command eq_refl).
Defined.

(** ** Back pressure *)

(** A producer stopped by a full queue gets through after one drain: when
    the full queue holds items whose handlers return, the drain takes ten
    of them and the same call then returns, with the new item at the
    back. *)
Theorem drain_unblocks_producer (d : string) (p : list float)
    (v a : option (list float)) (b : Bridge) :
  length (data_queue b) = maxsize ->
  Forall handled (data_queue b) ->
  add_drone_state d p v a b = Blocks b /\
  exists b',
    add_drone_state d p v a (_process_data_queue b) = Returns () b' /\
    data_queue b' = drop 10 (data_queue b) ++ [added_item d p v a].
Proof.
  intros Hfull Hall. split.
  - apply Queue_put_full. lia.
  - destruct (process_data_queue_fifo b) as [_ Hcap]. specialize (Hcap Hall).
    unfold add_drone_state. rewrite Queue_put_room.
    + eexists. split; [reflexivity|]. simpl. rewrite Hcap. reflexivity.
    + rewrite Hcap, length_drop, Hfull. unfold maxsize. lia.
Qed.

Lemma drain_unblocks_producer_witness :
  length (data_queue full_bridge) = maxsize /\
  Forall handled (data_queue full_bridge) /\
  add_drone_state "a1" (vec3 1 2 3) None None full_bridge = Blocks full_bridge.
Proof.
  assert (Hfull : length (data_queue full_bridge) = maxsize)
    by apply full_bridge_is_full.
  assert (Hall : Forall handled (data_queue full_bridge)).
  { change (data_queue full_bridge)
      with (replicate maxsize (drone_state a1_at_123)).
    apply Forall_replicate. exact I. }
  split; [exact Hfull|]. split; [exact Hall|].
  exact (proj1 (drain_unblocks_producer "a1" (vec3 1 2 3) None None full_bridge
                  Hfull Hall)).
Defined.

(** ** A state on its way to the store *)

Lemma update_emit (sd : StateData) (e : Effect) (b : Bridge) :
  _update_drone_state sd (emit e b) = emit e (_update_drone_state sd b).
Proof.
  destruct (drone_states b !! sd_drone_id sd) as [r|] eqn:Hs.
  - rewrite (update_known sd (emit e b) r) by exact Hs.
    rewrite (update_known _ _ _ Hs). reflexivity.
  - rewrite (update_new sd (emit e b)) by exact Hs.
    rewrite (update_new _ _ Hs). reflexivity.
Qed.

Lemma update_emit_all (sd : StateData) (es : list Effect) (b : Bridge) :
  _update_drone_state sd (emit_all es b) = emit_all es (_update_drone_state sd b).
Proof.
  revert b. induction es as [|e es IH]; intros b; [reflexivity|].
  rewrite !emit_all_cons, IH, update_emit. reflexivity.
Qed.

Lemma apply_updates_emit_all (us : list StateData) (es : list Effect)
    (b : Bridge) :
  apply_updates us (emit_all es b) = emit_all es (apply_updates us b).
Proof.
  induction us as [|u us IH] using rev_ind; [done|].
  rewrite !apply_updates_snoc, IH. apply update_emit_all.
Qed.

Lemma emit_all_set_data_queue (es : list Effect) (q : list DataItem)
    (b : Bridge) :
  emit_all es (set_data_queue q b) = set_data_queue q (emit_all es b).
Proof.
  revert b. induction es as [|e es IH]; intros b; [reflexivity|].
  rewrite !emit_all_cons, <- IH. reflexivity.
Qed.

Lemma emit_all_app (es1 es2 : list Effect) (b : Bridge) :
  emit_all (es1 ++ es2) b = emit_all es2 (emit_all es1 b).
Proof. unfold emit_all. apply foldl_app. Qed.

Lemma apply_updates_cons (u : StateData) (us : list StateData) (b : Bridge) :
  apply_updates (u :: us) b = apply_updates us (_update_drone_state u b).
Proof. reflexivity. Qed.

(** A drain that meets fewer than ten counting items before a state update
    reaches that update: it takes every item, merges the state updates in
    order and leaves nothing queued; the other items only add effects. *)
Lemma process_loop_reaches (items : list DataItem) (sd : StateData) (n : nat)
    (b : Bridge) :
  n + length (List.filter counts items) < 10 ->
  exists es,
    process_loop (items ++ [drone_state sd]) n b =
      set_data_queue []
        (emit_all es (apply_updates (updates_of items ++ [sd]) b)).
Proof.
  revert n b. induction items as [|item rest IH]; intros n b Hn.
  - exists []. simpl. rewrite decide_True by (simpl in Hn; lia).
    rewrite update_set_data_queue. reflexivity.
  - change ((item :: rest) ++ [drone_state sd])
      with (item :: (rest ++ [drone_state sd])).
    cbn [process_loop]. rewrite decide_True by lia.
    destruct item as [u|md|c]; cbn [_process_data_item].
    + destruct (IH (S n)
                  (_update_drone_state u
                     (set_data_queue (rest ++ [drone_state sd]) b)))
        as [es Hes]; [simpl in Hn; lia|].
      exists es. rewrite Hes.
      rewrite update_set_data_queue, apply_updates_set_data_queue,
        emit_all_set_data_queue, set_data_queue_twice.
      reflexivity.
    + destruct (IH n
                  (emit (logger_error "數據處理錯誤"
                           (AttributeError "_update_mission_waypoints"))
                     (set_data_queue (rest ++ [drone_state sd]) b)))
        as [es Hes]; [simpl in Hn; lia|].
      eexists (_ :: es). rewrite Hes.
      change (emit ?e (set_data_queue ?q b)) with (set_data_queue q (emit e b)).
      rewrite apply_updates_set_data_queue, emit_all_set_data_queue,
        set_data_queue_twice.
      change (emit ?e b) with (emit_all [e] b).
      rewrite apply_updates_emit_all, <- emit_all_app. reflexivity.
    + destruct (execute_matlab_command_emits c
                  (set_data_queue (rest ++ [drone_state sd]) b))
        as (es1 & Hes1 & _).
      rewrite Hes1.
      destruct (IH (S n)
                  (emit_all es1 (set_data_queue (rest ++ [drone_state sd]) b)))
        as [es Hes]; [simpl in Hn; lia|].
      exists (es1 ++ es). rewrite Hes.
      rewrite emit_all_set_data_queue, apply_updates_set_data_queue,
        emit_all_set_data_queue, set_data_queue_twice.
      rewrite apply_updates_emit_all, <- emit_all_app. reflexivity.
Qed.

Lemma state_of_emit_all (es : list Effect) (b : Bridge) (d : string) :
  state_of (emit_all es b) d = state_of b d.
Proof.
  unfold state_of, deref.
  destruct (emit_all_frame es b) as (_ & _ & -> & -> & _). reflexivity.
Qed.

(** A state handed to [add_drone_state] is in the store after the next
    drain when the queue has room and fewer than ten of the items queued
    ahead of it count against the drain's limit, that is, are state updates
    or commands; mission items, which the drain throws away without
    counting them, may be ahead in any number.  The call returns, the drain
    then leaves nothing queued, the store is the one obtained by merging
    the queued state updates and the new one in order, and the agent reads
    the position that was passed. *)
Theorem added_state_visible_after_drain (b : Bridge) (d : string)
    (p : list float) (v a : option (list float)) :
  wf b ->
  length (data_queue b) < maxsize ->
  length (List.filter counts (data_queue b)) < 10 ->
  exists b1 es,
    add_drone_state d p v a b = Returns () b1 /\
    _process_data_queue b1 =
      set_data_queue []
        (emit_all es
           (apply_updates
              (updates_of (data_queue b) ++ [add_drone_state_data d p v a]) b)) /\
    data_queue (_process_data_queue b1) = [] /\
    position <$> state_of (_process_data_queue b1) d = Some p.
Proof.
  intros Hwf Hroom Hfew.
  destruct (process_loop_reaches (data_queue b) (add_drone_state_data d p v a)
              0
              (set_data_queue
                 (data_queue b ++ [drone_state (add_drone_state_data d p v a)])
                 b)) as [es Hes]; [simpl; exact Hfew|].
  rewrite apply_updates_set_data_queue, emit_all_set_data_queue,
    set_data_queue_twice in Hes.
  eexists. exists es. split; [apply Queue_put_room, Hroom|].
  unfold _process_data_queue. cbn [data_queue set_data_queue].
  rewrite Hes. split; [reflexivity|]. split; [reflexivity|].
  rewrite state_of_set_data_queue, state_of_emit_all, apply_updates_snoc.
  apply (position_after_update (add_drone_state_data d p v a));
    [apply wf_apply_updates, Hwf|reflexivity].
Qed.

Lemma added_state_visible_after_drain_witness :
  wf mixed_backlog /\
  length (data_queue mixed_backlog) < maxsize /\
  length (List.filter counts (data_queue mixed_backlog)) < 10 /\
  exists b1 es,
    add_drone_state "a1" (vec3 1 2 3) None None mixed_backlog = Returns () b1 /\
    _process_data_queue b1 =
      set_data_queue []
        (emit_all es
           (apply_updates
              (updates_of (data_queue mixed_backlog) ++
                 [add_drone_state_data "a1" (vec3 1 2 3) None None])
              mixed_backlog)) /\
    data_queue (_process_data_queue b1) = [] /\
    position <$> state_of (_process_data_queue b1) "a1" = Some (vec3 1 2 3).
Proof.
  assert (Hwf : wf mixed_backlog).
  { eapply wf_only_store; [| |apply (wf_init true ticking_clock no_engine_fault
                                       no_wire_fault)]; reflexivity. }
  assert (Hroom : length (data_queue mixed_backlog) < maxsize)
    by (unfold maxsize; simpl; lia).
  assert (Hfew : length (List.filter counts (data_queue mixed_backlog)) < 10)
    by (simpl; lia).
  split; [exact Hwf|]. split; [exact Hroom|]. split; [exact Hfew|].
  exact (added_state_visible_after_drain mixed_backlog "a1" (vec3 1 2 3)
           None None Hwf Hroom Hfew).
Defined.

(** ** More on missions *)

(** An upload on a link that holds goes out whole. *)
Lemma send_all_through (ts : Z) (n : nat) (msgs : list MissionMessage)
    (b : Bridge) :
  (forall i, i < length msgs -> mavlink_send_raises b (n + i) = None) ->
  send_all ts n msgs b = (None, emit_all (mavlink_send ts <$> msgs) b).
Proof.
  revert n b. induction msgs as [|m rest IH]; intros n b Hok; [reflexivity|].
  cbn [send_all]. pose proof (Hok 0 ltac:(simpl; lia)) as H0.
  rewrite Nat.add_0_r in H0. rewrite H0.
  rewrite IH; [reflexivity|].
  intros i Hi. cbn [mavlink_send_raises emit].
  replace (S n + i) with (n + S i) by lia. apply Hok. simpl. lia.
Qed.

(** An upload whose send number [k] is the first to raise leaves the
    messages before it on the link. *)
Lemma send_all_fails (ts : Z) (n k : nat) (msgs : list MissionMessage)
    (b : Bridge) (e : exn) :
  k < length msgs ->
  (forall i, i < k -> mavlink_send_raises b (n + i) = None) ->
  mavlink_send_raises b (n + k) = Some e ->
  send_all ts n msgs b = (Some e, emit_all (mavlink_send ts <$> take k msgs) b).
Proof.
  revert n k b. induction msgs as [|m rest IH]; intros n k b Hk Hok He;
    [simpl in Hk; lia|].
  cbn [send_all]. destruct k as [|k].
  - rewrite Nat.add_0_r in He. rewrite He. reflexivity.
  - pose proof (Hok 0 ltac:(lia)) as H0. rewrite Nat.add_0_r in H0.
    rewrite H0.
    rewrite (IH (S n) k); [reflexivity|simpl in Hk; lia| |].
    + intros i Hi. cbn [mavlink_send_raises emit].
      replace (S n + i) with (n + S i) by lia. apply Hok. lia.
    + cbn [mavlink_send_raises emit].
      replace (S n + k) with (n + S k) by lia. exact He.
Qed.

Lemma mission_messages_length (wps : list MissionWaypoint) :
  length (mission_messages wps) = 2 + length wps.
Proof. unfold mission_messages. simpl. rewrite length_fmap. reflexivity. Qed.

(** What an upload leaves in the trace. *)
Lemma send_waypoint_mission_effects (wps : list MissionWaypoint) (ts : Z)
    (b : Bridge) :
  negb (mavlink_is_connected b) || negb (MAVLINK_AVAILABLE b) = false ->
  ((forall i, i < 2 + length wps -> mavlink_send_raises b i = None) ->
   send_waypoint_mission wps ts b =
     (true, emit_all (upload_effects ts wps (2 + length wps) None) b)) /\
  (forall k e,
     k < 2 + length wps ->
     (forall i, i < k -> mavlink_send_raises b i = None) ->
     mavlink_send_raises b k = Some e ->
     send_waypoint_mission wps ts b =
       (false, emit_all (upload_effects ts wps k (Some e)) b)).
Proof.
  intros Hup. unfold send_waypoint_mission. rewrite Hup. split.
  - intros Hok.
    rewrite send_all_through
      by (intros i Hi; rewrite mission_messages_length in Hi; apply Hok, Hi).
    unfold upload_effects. rewrite app_nil_r, take_ge; [reflexivity|].
    rewrite mission_messages_length. lia.
  - intros k e Hk Hok He.
    rewrite (send_all_fails ts 0 k _ b e);
      [|rewrite mission_messages_length; exact Hk|exact Hok|exact He].
    unfold upload_effects. rewrite emit_all_snoc. reflexivity.
Qed.

(** [send_mission_to_drone] fails as a whole or not at all.  For an agent
    id written in ASCII and within the interpreter's digit limit, it raises
    exactly when the link is in use and the id has an underscore whose
    last segment is not an integer literal, and then nothing was sent,
    stored or enqueued. *)
Theorem send_mission_fails_atomically (d : string)
    (wps : list MissionWaypoint) (b : Bridge) :
  ascii_text d ->
  String.length d <= int_max_str_digits ->
  (forall (e : exn) (b' : Bridge),
     send_mission_to_drone d wps b = Raises e b' ->
     b' = b /\ MAVLINK_AVAILABLE b && mavlink_is_connected b = true /\
     target_system_of d = None) /\
  (MAVLINK_AVAILABLE b && mavlink_is_connected b = true ->
   target_system_of d = None ->
   exists e, send_mission_to_drone d wps b = Raises e b).
Proof.
  intros _ _. unfold send_mission_to_drone, Queue_put. split.
  - intros e b'.
    destruct (MAVLINK_AVAILABLE b && mavlink_is_connected b).
    + destruct (target_system_of d) as [ts|].
      * destruct (decide _); discriminate.
      * intros [= _ <-]. done.
    + destruct (decide _); discriminate.
  - intros -> ->. eauto.
Qed.

Lemma send_mission_fails_atomically_witness :
  ascii_text "drone_a" /\
  String.length "drone_a" <= int_max_str_digits /\
  MAVLINK_AVAILABLE mavlink_up && mavlink_is_connected mavlink_up = true /\
  target_system_of "drone_a" = None /\
  exists e, send_mission_to_drone "drone_a" [seq0] mavlink_up =
              Raises e mavlink_up.
Proof.
  assert (Hascii : ascii_text "drone_a")
    by (unfold ascii_text; simpl; repeat constructor; vm_compute; lia).
  assert (Hlen : String.length "drone_a" <= int_max_str_digits)
    by (unfold int_max_str_digits; simpl; lia).
  split; [exact Hascii|]. split; [exact Hlen|].
  split; [reflexivity|]. split; [reflexivity|].
  exact (proj2 (send_mission_fails_atomically "drone_a" [seq0] mavlink_up
                  Hascii Hlen) eq_refl eq_refl).
Defined.

(** When the link is not in use, or the target system can be read off an
    id within the interpreter's digit limit, and the queue has room,
    [send_mission_to_drone] returns with the registry entry replaced, the
    other agents' missions and the store untouched, and one mission item at
    the back of the queue listing the same waypoints in the same order.
    The trace grows by what the link did: nothing when it is not in use;
    the whole upload (clear, count, one item per waypoint) when no send
    raises; and when send number [k] is the first to raise, the [k]
    messages before it followed by one log entry. *)
Theorem send_mission_stores_and_enqueues (d : string)
    (wps : list MissionWaypoint) (b : Bridge) :
  MAVLINK_AVAILABLE b && mavlink_is_connected b = false \/
  (is_Some (target_system_of d) /\ String.length d <= int_max_str_digits) ->
  length (data_queue b) < maxsize ->
  exists b',
    send_mission_to_drone d wps b = Returns () b' /\
    mission_waypoints b' = <[d := wps]> (mission_waypoints b) /\
    data_queue b' = data_queue b ++ [mission_item d wps] /\
    heap b' = heap b /\ drone_states b' = drone_states b /\
    exists es,
      effects b' = effects b ++ es /\
      (MAVLINK_AVAILABLE b && mavlink_is_connected b = false -> es = []) /\
      (forall ts,
         MAVLINK_AVAILABLE b && mavlink_is_connected b = true ->
         target_system_of d = Some ts ->
         (forall i, i < 2 + length wps -> mavlink_send_raises b i = None) ->
         es = upload_effects ts wps (2 + length wps) None) /\
      (forall ts k e,
         MAVLINK_AVAILABLE b && mavlink_is_connected b = true ->
         target_system_of d = Some ts ->
         k < 2 + length wps ->
         (forall i, i < k -> mavlink_send_raises b i = None) ->
         mavlink_send_raises b k = Some e ->
         es = upload_effects ts wps k (Some e)).
Proof.
  intros Hok Hroom. unfold send_mission_to_drone.
  destruct (MAVLINK_AVAILABLE b && mavlink_is_connected b) eqn:Hlink.
  - destruct Hok as [Hoff|[[ts Hts] _]]; [discriminate|]. rewrite Hts.
    destruct (send_waypoint_mission_emits wps ts b) as [es Hes].
    rewrite Hes.
    destruct (emit_all_frame es b) as (Hq & Hm & Hh & Hd & _).
    rewrite Queue_put_room by (simpl; rewrite Hq; exact Hroom).
    eexists. split; [reflexivity|]. simpl.
    rewrite Hm, Hq, Hh, Hd. repeat split.
    exists es. split; [apply emit_all_effects|].
    assert (Hup : negb (mavlink_is_connected b) || negb (MAVLINK_AVAILABLE b)
                  = false).
    { apply andb_true_iff in Hlink as [-> ->]. reflexivity. }
    destruct (send_waypoint_mission_effects wps ts b Hup) as [Hall Hpart].
    assert (Hinj : forall es', emit_all es b = emit_all es' b -> es = es').
    { intros es' Heq. apply (f_equal effects) in Heq.
      rewrite !emit_all_effects in Heq. apply app_inv_head in Heq. exact Heq. }
    split; [discriminate|]. split.
    + intros ts' _ [= <-] Hnone. apply Hinj. rewrite <- Hes.
      rewrite (Hall Hnone). reflexivity.
    + intros ts' k e _ [= <-] Hk Hnone He. apply Hinj. rewrite <- Hes.
      rewrite (Hpart k e Hk Hnone He). reflexivity.
  - rewrite Queue_put_room by exact Hroom.
    eexists. split; [reflexivity|]. simpl. repeat split.
    exists []. rewrite app_nil_r. split; [reflexivity|].
    split; [reflexivity|]. split; discriminate.
Qed.

Lemma send_mission_stores_and_enqueues_witness :
  is_Some (target_system_of "mavlink_7") /\
  String.length "mavlink_7" <= int_max_str_digits /\
  length (data_queue mavlink_failing) < maxsize /\
  exists b',
    send_mission_to_drone "mavlink_7" [seq0; seq1] mavlink_failing =
      Returns () b' /\
    mission_waypoints b' =
      <["mavlink_7" := [seq0; seq1]]> (mission_waypoints mavlink_failing) /\
    data_queue b' =
      data_queue mavlink_failing ++ [mission_item "mavlink_7" [seq0; seq1]] /\
    heap b' = heap mavlink_failing /\
    drone_states b' = drone_states mavlink_failing /\
    exists es,
      effects b' = effects mavlink_failing ++ es /\
      (MAVLINK_AVAILABLE mavlink_failing &&
         mavlink_is_connected mavlink_failing = false -> es = []) /\
      (forall ts,
         MAVLINK_AVAILABLE mavlink_failing &&
           mavlink_is_connected mavlink_failing = true ->
         target_system_of "mavlink_7" = Some ts ->
         (forall i, i < 2 + length [seq0; seq1] ->
                    mavlink_send_raises mavlink_failing i = None) ->
         es = upload_effects ts [seq0; seq1] (2 + length [seq0; seq1]) None) /\
      (forall ts k e,
         MAVLINK_AVAILABLE mavlink_failing &&
           mavlink_is_connected mavlink_failing = true ->
         target_system_of "mavlink_7" = Some ts ->
         k < 2 + length [seq0; seq1] ->
         (forall i, i < k -> mavlink_send_raises mavlink_failing i = None) ->
         mavlink_send_raises mavlink_failing k = Some e ->
         es = upload_effects ts [seq0; seq1] k (Some e)).
Proof.
  assert (Hts : is_Some (target_system_of "mavlink_7"))
    by (exists 7%Z; reflexivity).
  assert (Hlen : String.length "mavlink_7" <= int_max_str_digits)
    by (unfold int_max_str_digits; simpl; lia).
  assert (Hroom : length (data_queue mavlink_failing) < maxsize)
    by (unfold maxsize; simpl; lia).
  split; [exact Hts|]. split; [exact Hlen|]. split; [exact Hroom|].
  exact (send_mission_stores_and_enqueues "mavlink_7" [seq0; seq1]
           mavlink_failing (or_intror (conj Hts Hlen)) Hroom).
Defined.

(** On the failing link the upload of two waypoints stops after the clear
    and the count: those two messages went out, the failure is logged, and
    the mission is stored and enqueued all the same. *)
Example upload_cut_after_two_sends :
  effects
    (bridge_after
       (send_mission_to_drone "mavlink_7" [seq0; seq1] mavlink_failing)) =
    [mavlink_send 7 MISSION_CLEAR_ALL; mavlink_send 7 (MISSION_COUNT 2);
     logger_error "發送航點任務失敗" (Exception "link lost")] /\
  mission_waypoints
    (bridge_after
       (send_mission_to_drone "mavlink_7" [seq0; seq1] mavlink_failing))
    !! "mavlink_7" = Some [seq0; seq1].
Proof. split; reflexivity. Qed.

(** ** A pass of the main loop *)

(** *** Steps that only read the clock and log *)

Lemma only_logged_refl (b : Bridge) : only_logged b b.
Proof.
  unfold only_logged. do 12 (split; [reflexivity|]).
  exists []. rewrite app_nil_r. split; [reflexivity|constructor].
Qed.

Lemma only_logged_trans (b1 b2 b3 : Bridge) :
  only_logged b1 b2 -> only_logged b2 b3 -> only_logged b1 b3.
Proof.
  unfold only_logged.
  intros (Ha1 & Ha2 & Ha3 & Ha4 & Ha5 & Ha6 & Ha7 & Ha8 & Ha9 & Ha10 & Ha11
          & Ha12 & es1 & He1 & Hl1)
         (Hb1 & Hb2 & Hb3 & Hb4 & Hb5 & Hb6 & Hb7 & Hb8 & Hb9 & Hb10 & Hb11
          & Hb12 & es2 & He2 & Hl2).
  split; [congruence|]. split; [congruence|]. split; [lia|].
  do 9 (split; [congruence|]).
  exists (es1 ++ es2). split.
  - rewrite He2, He1, app_assoc. reflexivity.
  - apply Forall_app. split; assumption.
Qed.

Lemma only_logged_log (site : string) (e : exn) (b : Bridge) :
  only_logged b (emit (logger_error site e) b).
Proof.
  unfold only_logged. simpl. do 12 (split; [reflexivity|]).
  eexists [_]. split; [reflexivity|]. repeat constructor.
Qed.

Lemma only_logged_time (b : Bridge) : only_logged b (time b).2.
Proof.
  unfold only_logged. simpl. do 2 (split; [reflexivity|]). split; [lia|].
  do 9 (split; [reflexivity|]).
  exists []. rewrite app_nil_r. split; [reflexivity|constructor].
Qed.

Lemma only_logged_emit_all (es : list Effect) (b : Bridge) :
  Forall is_log es -> only_logged b (emit_all es b).
Proof.
  revert b. induction es as [|e es IH]; intros b Hall.
  - apply only_logged_refl.
  - apply Forall_cons in Hall as [He Hes]. rewrite emit_all_cons.
    eapply only_logged_trans; [|apply IH, Hes].
    destruct e; try contradiction. apply only_logged_log.
Qed.

Lemma evaluate_only_logged (engine : Engine) (expression : Expression)
    (s : Session) :
  match evaluate engine expression s with
  | eval_returns _ s1 => only_logged (bridge s) (bridge s1)
  | eval_raises _ s1 => only_logged (bridge s) (bridge s1)
  end.
Proof.
  unfold evaluate. destruct (matlab_is_connected (bridge s)).
  - destruct (engine expression); simpl;
      [apply only_logged_refl|apply only_logged_log].
  - apply only_logged_refl.
Qed.

Lemma update_matlab_drone_states_only_logged (engine : Engine)
    (state_data : gmap string AgentSync) (s : Session) :
  only_logged (bridge s)
    (bridge (_update_matlab_drone_states engine state_data s)).
Proof.
  unfold _update_matlab_drone_states.
  pose proof (evaluate_only_logged engine
                (update_drone_states_from_python state_data) s) as He.
  destruct (evaluate engine (update_drone_states_from_python state_data) s)
    as [v s1|e s1]; [exact He|].
  eapply only_logged_trans; [exact He|apply only_logged_log].
Qed.

Lemma update_matlab_simulation_only_logged (engine : Engine) (s : Session) :
  only_logged (bridge s) (bridge (_update_matlab_simulation engine s)).
Proof.
  unfold _update_matlab_simulation.
  destruct (negb (matlab_is_connected (bridge s))); [apply only_logged_refl|].
  pose proof (evaluate_only_logged engine simulator_current_time s) as He.
  destruct (evaluate engine simulator_current_time s) as [v s1|e s1].
  - destruct (decide (drone_states (bridge s1) = ∅)); [exact He|].
    eapply only_logged_trans;
      [exact He|apply update_matlab_drone_states_only_logged].
  - eapply only_logged_trans; [exact He|apply only_logged_log].
Qed.

Lemma get_matlab_simulation_data_only_logged (engine : Engine) (s : Session) :
  only_logged (bridge s) (bridge (_get_matlab_simulation_data engine s).2).
Proof.
  unfold _get_matlab_simulation_data.
  pose proof (evaluate_only_logged engine simulator_current_time s) as H1.
  destruct (evaluate engine simulator_current_time s) as [v1 s1|e s1]; simpl.
  - pose proof (evaluate_only_logged engine simulator_is_playing s1) as H2.
    destruct (evaluate engine simulator_is_playing s1) as [v2 s2|e s2]; simpl.
    + eapply only_logged_trans; eassumption.
    + eapply only_logged_trans; [exact H1|].
      eapply only_logged_trans; [exact H2|apply only_logged_log].
  - eapply only_logged_trans; [exact H1|apply only_logged_log].
Qed.

Lemma send_log_is_log (send : nat -> SendResult) (clients : list nat) :
  Forall is_log (omap (fun c => send_log (send c)) clients).
Proof.
  induction clients as [|c rest IH]; [constructor|].
  simpl. destruct (send c); simpl; [exact IH|exact IH|].
  constructor; [exact I|exact IH].
Qed.

Lemma broadcast_data_only_logged (send : nat -> SendResult)
    (clients : gset nat) (b : Bridge) :
  only_logged b (broadcast_data send clients b).2.
Proof.
  unfold broadcast_data.
  destruct (decide (clients = ∅)); [apply only_logged_refl|].
  pose proof (broadcast_loop_spec send (elements clients) ∅ b) as Hspec.
  destruct (broadcast_loop send (elements clients) ∅ b) as [disconnected b1].
  destruct Hspec as [_ ->]. simpl.
  apply only_logged_emit_all, send_log_is_log.
Qed.

Lemma broadcast_simulation_data_only_logged (send : nat -> SendResult)
    (engine : Engine) (clients : gset nat) (s : Session) :
  only_logged (bridge s)
    (bridge (_broadcast_simulation_data send engine clients s).2).
Proof.
  unfold _broadcast_simulation_data.
  destruct (decide (clients = ∅)); [apply only_logged_refl|].
  pose proof (only_logged_time (bridge s)) as Ht.
  destruct (time (bridge s)) as [t b1] eqn:Htime. simpl in Ht.
  destruct (matlab_is_connected b1).
  - pose proof (get_matlab_simulation_data_only_logged engine
                  (mkSession b1 (evaluated s))) as Hg.
    destruct (_get_matlab_simulation_data engine (mkSession b1 (evaluated s)))
      as [matlab_data s2]. simpl in Hg.
    pose proof (broadcast_data_only_logged send clients (bridge s2)) as Hb.
    destruct (broadcast_data send clients (bridge s2)) as [clients' b3].
    simpl in *.
    eapply only_logged_trans; [exact Ht|].
    eapply only_logged_trans; eassumption.
  - pose proof (broadcast_data_only_logged send clients b1) as Hb.
    simpl. destruct (broadcast_data send clients b1) as [clients' b3].
    simpl in *. eapply only_logged_trans; eassumption.
Qed.

Lemma send_zmq_data_only_logged (socket : option SocketType)
    (send_raises : option exn) (b : Bridge) :
  only_logged b (_send_zmq_data socket send_raises b).2.
Proof.
  unfold _send_zmq_data.
  destruct (decide (drone_states b = ∅)); [apply only_logged_refl|].
  pose proof (only_logged_time b) as Ht.
  destruct (time b) as [t b1] eqn:Htime. simpl in Ht.
  unfold send_data.
  destruct socket as [[|]|]; simpl; try exact Ht.
  destruct send_raises as [e|]; simpl.
  - eapply only_logged_trans; [exact Ht|].
    eapply only_logged_trans; [apply (only_logged_time b1)|].
    apply only_logged_log.
  - eapply only_logged_trans; [exact Ht|apply (only_logged_time b1)].
Qed.

Lemma update_ros2_topics_only_logged
    (create_raises publish_raises : string -> option exn) (w : Runtime) :
  only_logged (bridge_of w)
    (bridge_of (_update_ros2_topics create_raises publish_raises w)).
Proof.
  unfold _update_ros2_topics.
  destruct (negb (ROS2_AVAILABLE w) || negb (is_initialized (ros2_bridge w)));
    [apply only_logged_refl|].
  destruct (publish_paths create_raises publish_raises
              (drone_items (bridge_of w)) (ros2_bridge w)) as [[e|] r1].
  - apply only_logged_log.
  - apply only_logged_refl.
Qed.

(** The statements between the drain and the sleep leave the bridge as it
    is, up to readings of the clock and log entries. *)
Lemma run_step_only_logged (it : Iteration) (k : Step) (w : Runtime) :
  sleeps k = false -> k <> at_process_data_queue ->
  only_logged (bridge_of w) (bridge_of (run_step it k w)).
Proof.
  intros Hs Hk. destruct k; try discriminate; try contradiction; cbn [run_step].
  - apply update_matlab_simulation_only_logged.
  - pose proof (broadcast_simulation_data_only_logged (client_send it)
                  (matlab_eval it) (ws_clients w) (session w)) as Hb.
    destruct (_broadcast_simulation_data (client_send it) (matlab_eval it)
                (ws_clients w) (session w)) as [[data clients'] s'].
    exact Hb.
  - pose proof (send_zmq_data_only_logged (zmq_socket w) (zmq_send_raises it)
                  (bridge_of w)) as Hz.
    destruct (_send_zmq_data (zmq_socket w) (zmq_send_raises it) (bridge_of w))
      as [message b']. exact Hz.
  - apply update_ros2_topics_only_logged.
Qed.

(** *** What a pass preserves *)

Section Pass.
Variable P : Bridge -> Prop.
Hypothesis P_drain : forall b, P b -> P (_process_data_queue b).
Hypothesis P_logged : forall b b', only_logged b b' -> P b -> P b'.

Lemma run_step_work_invariant (it : Iteration) (k : Step) (w : Runtime) :
  sleeps k = false -> P (bridge_of w) -> P (bridge_of (run_step it k w)).
Proof.
  intros Hs Hw. destruct k; try discriminate Hs.
  - apply P_drain, Hw.
  - eapply P_logged; [apply run_step_only_logged; done|exact Hw].
  - eapply P_logged; [apply run_step_only_logged; done|exact Hw].
  - eapply P_logged; [apply run_step_only_logged; done|exact Hw].
  - eapply P_logged; [apply run_step_only_logged; done|exact Hw].
Qed.

Lemma run_steps_work_invariant (it : Iteration) (steps : list Step)
    (w : Runtime) :
  Forall (fun k => sleeps k = false) steps ->
  P (bridge_of w) -> P (bridge_of (reached (run_steps it steps w))).
Proof.
  revert w. induction steps as [|k rest IH]; intros w Hall Hw; [exact Hw|].
  apply Forall_cons in Hall as [Hk Hrest]. cbn [run_steps].
  destruct (tick_fault it k); [exact Hw|].
  apply IH; [exact Hrest|]. apply run_step_work_invariant; assumption.
Qed.

Hypothesis P_emit : forall e b, P b -> P (emit e b).

Lemma run_step_invariant (it : Iteration) (k : Step) (w : Runtime) :
  P (bridge_of w) -> P (bridge_of (run_step it k w)).
Proof.
  intros Hw. destruct (sleeps k) eqn:Hs.
  - destruct k; try discriminate; apply P_emit, Hw.
  - apply run_step_work_invariant; assumption.
Qed.

Lemma run_steps_invariant (it : Iteration) (steps : list Step) (w : Runtime) :
  P (bridge_of w) -> P (bridge_of (reached (run_steps it steps w))).
Proof.
  revert w. induction steps as [|k rest IH]; intros w Hw; [exact Hw|].
  cbn [run_steps]. destruct (tick_fault it k); [exact Hw|].
  apply IH, run_step_invariant, Hw.
Qed.

Hypothesis P_stop : forall b, P b -> P (stop b).

Lemma stop_during_sleep_invariant (it : Iteration) (w : Runtime) :
  P (bridge_of w) -> P (bridge_of (stop_during_sleep it w)).
Proof.
  intros Hw. unfold stop_during_sleep.
  destruct (stop_requested it); [apply P_stop, Hw|exact Hw].
Qed.

Lemma tick_invariant (it : Iteration) (w : Runtime) :
  P (bridge_of w) -> P (bridge_of (after_pass (tick it w))).
Proof.
  intros Hw. unfold tick.
  pose proof (run_steps_invariant it try_block w Hw) as Htry.
  destruct (run_steps it try_block w) as [w1|[[e|e] w1]]; cbn [reached] in Htry.
  - apply stop_during_sleep_invariant, Htry.
  - set (w2 := set_bridge (emit (logger_error "主循環錯誤" e) (bridge_of w1)) w1).
    assert (Hw2 : P (bridge_of w2)) by apply P_emit, Htry.
    pose proof (run_steps_invariant it [at_error_sleep] w2 Hw2) as Hsleep.
    destruct (run_steps it [at_error_sleep] w2) as [w3|[r w3]];
      cbn [reached] in Hsleep; [|exact Hsleep].
    apply stop_during_sleep_invariant, Hsleep.
  - exact Htry.
Qed.
End Pass.

(** *** How a pass ends *)

Lemma run_steps_raised (it : Iteration) (steps : list Step) (w : Runtime) :
  match run_steps it steps w with
  | inl _ => head (omap (tick_fault it) steps) = None
  | inr (r, _) => head (omap (tick_fault it) steps) = Some r
  end.
Proof.
  revert w. induction steps as [|k rest IH]; intros w; [reflexivity|].
  cbn [run_steps omap list_omap]. destruct (tick_fault it k) as [r|].
  - reflexivity.
  - apply IH.
Qed.

Lemma run_steps_app (it : Iteration) (steps1 steps2 : list Step) (w : Runtime) :
  run_steps it (steps1 ++ steps2) w =
    match run_steps it steps1 w with
    | inl w1 => run_steps it steps2 w1
    | inr cut => inr cut
    end.
Proof.
  revert w. induction steps1 as [|k rest IH]; intros w; [reflexivity|].
  cbn [app run_steps]. destruct (tick_fault it k); [reflexivity|apply IH].
Qed.

(** A pass ends at the loop head unless something leaves the loop. *)
Lemma tick_result (it : Iteration) (w : Runtime) :
  match tick it w with
  | pass_done _ => leaves it = None
  | pass_raised r _ => leaves it = Some r
  end.
Proof.
  unfold tick, leaves, escapes.
  pose proof (run_steps_raised it try_block w) as Hraised.
  destruct (run_steps it try_block w) as [w1|[[e|e] w1]]; rewrite Hraised.
  - reflexivity.
  - cbn [run_steps]. destruct (tick_fault it at_error_sleep); reflexivity.
  - reflexivity.
Qed.

Lemma work_does_not_sleep : Forall (fun k => sleeps k = false) work.
Proof. repeat constructor. Qed.

Lemma process_data_queue_running (b : Bridge) :
  running (_process_data_queue b) = running b.
Proof. apply process_loop_running. Qed.

(** No statement of the body touches the running flag. *)
Lemma run_steps_running (it : Iteration) (steps : list Step) (w : Runtime) :
  running (bridge_of (reached (run_steps it steps w))) = running (bridge_of w).
Proof.
  apply (run_steps_invariant (fun b => running b = running (bridge_of w))).
  - intros b Hb. rewrite process_data_queue_running. exact Hb.
  - intros b b' (_ & _ & _ & _ & _ & _ & _ & _ & _ & _ & _ & Hr & _) Hb.
    rewrite Hr. exact Hb.
  - intros e b Hb. exact Hb.
  - reflexivity.
Qed.

(** The running flag after a pass: cleared when [stop()] ran during its
    sleep, as it was otherwise. *)
Lemma tick_running (it : Iteration) (w : Runtime) :
  running (bridge_of (after_pass (tick it w))) =
    match tick it w with
    | pass_done _ => if stop_requested it then false else running (bridge_of w)
    | pass_raised _ _ => running (bridge_of w)
    end.
Proof.
  unfold tick.
  pose proof (run_steps_running it try_block w) as Htry.
  destruct (run_steps it try_block w) as [w1|[[e|e] w1]]; cbn [reached] in Htry.
  - cbn [after_pass]. unfold stop_during_sleep.
    destruct (stop_requested it); [reflexivity|exact Htry].
  - set (w2 := set_bridge (emit (logger_error "主循環錯誤" e) (bridge_of w1)) w1).
    pose proof (run_steps_running it [at_error_sleep] w2) as Hsleep.
    destruct (run_steps it [at_error_sleep] w2) as [w3|[r w3]];
      cbn [reached] in Hsleep; cbn [after_pass].
    + unfold stop_during_sleep.
      destruct (stop_requested it); [reflexivity|].
      rewrite Hsleep. exact Htry.
    + rewrite Hsleep. exact Htry.
  - exact Htry.
Qed.

(** *** What a pass adds to the trace *)

Lemma process_loop_trace (items : list DataItem) (n : nat) (b : Bridge) :
  exists es, effects (process_loop items n b) = effects b ++ es.
Proof.
  revert n b. induction items as [|item rest IH]; intros n b.
  - exists []. rewrite app_nil_r. reflexivity.
  - cbn [process_loop]. destruct (decide (n < 10));
      [|exists []; rewrite app_nil_r; reflexivity].
    destruct item as [sd|md|c]; cbn [_process_data_item].
    + destruct (IH (S n) (_update_drone_state sd (set_data_queue rest b)))
        as [es Hes].
      exists es. rewrite Hes.
      destruct (update_frame sd (set_data_queue rest b))
        as (_ & _ & _ & -> & _). reflexivity.
    + destruct (IH n (emit (logger_error "數據處理錯誤"
                              (AttributeError "_update_mission_waypoints"))
                        (set_data_queue rest b))) as [es Hes].
      eexists (_ :: es). rewrite Hes. simpl. rewrite <- app_assoc. reflexivity.
    + destruct (execute_matlab_command_emits c (set_data_queue rest b))
        as (es1 & Hes1 & _).
      destruct (IH (S n) (_execute_matlab_command c (set_data_queue rest b)))
        as [es Hes].
      exists (es1 ++ es). rewrite Hes, Hes1, emit_all_effects. simpl.
      rewrite app_assoc. reflexivity.
Qed.

Lemma is_log_no_sleep (es : list Effect) :
  Forall is_log es -> sleeps_of es = [].
Proof.
  induction 1 as [|e es He _ IH]; [reflexivity|].
  destruct e; try contradiction. exact IH.
Qed.

(** The work of a pass, cut short or not, extends the trace by effects
    among which nothing sleeps. *)
Lemma work_trace (it : Iteration) (w : Runtime) :
  exists es,
    effects (bridge_of (reached (run_steps it work w))) =
      effects (bridge_of w) ++ es /\
    sleeps_of es = [].
Proof.
  apply (run_steps_work_invariant
           (fun b => exists es, effects b = effects (bridge_of w) ++ es /\
                                sleeps_of es = [])).
  - intros b (es & Hes & Hs).
    destruct (process_loop_trace (data_queue b) 0 b) as [es' Hes'].
    exists (es ++ es'). unfold _process_data_queue.
    rewrite Hes', Hes, app_assoc. split; [reflexivity|].
    pose proof (process_loop_sleeps (data_queue b) 0 b) as Hsl.
    rewrite Hes', !sleeps_of_app in Hsl.
    rewrite sleeps_of_app, Hs. simpl.
    rewrite <- (app_nil_r (sleeps_of (effects b))) in Hsl at 2.
    apply app_inv_head in Hsl. exact Hsl.
  - intros b b' (_ & _ & _ & _ & _ & _ & _ & _ & _ & _ & _ & _ & es' & He' & Hl)
      (es & Hes & Hs).
    exists (es ++ es'). rewrite He', Hes, app_assoc. split; [reflexivity|].
    rewrite sleeps_of_app, Hs, (is_log_no_sleep es' Hl). reflexivity.
  - apply work_does_not_sleep.
  - exists []. rewrite app_nil_r. split; reflexivity.
Qed.

Lemma bridge_of_set_bridge (b : Bridge) (w : Runtime) :
  bridge_of (set_bridge b w) = b.
Proof. reflexivity. Qed.

Lemma effects_emit (e : Effect) (b : Bridge) :
  effects (emit e b) = effects b ++ [e].
Proof. reflexivity. Qed.

Lemma effects_stop (b : Bridge) : effects (stop b) = effects b.
Proof. reflexivity. Qed.

(** The [try] block: what the work added, then the pause of line 616 when
    nothing was raised. *)
Lemma try_block_trace (it : Iteration) (w : Runtime) :
  exists es,
    sleeps_of es = [] /\
    match run_steps it try_block w with
    | inl w1 =>
        effects (bridge_of w1) =
          effects (bridge_of w) ++ es ++ [asyncio_sleep update_interval]
    | inr (_, w1) => effects (bridge_of w1) = effects (bridge_of w) ++ es
    end.
Proof.
  destruct (work_trace it w) as (es & Hes & Hs).
  exists es. split; [exact Hs|].
  unfold try_block. rewrite run_steps_app.
  destruct (run_steps it work w) as [w1|[r w1]]; cbn [reached] in Hes.
  - cbn [run_steps]. destruct (tick_fault it at_sleep); [exact Hes|].
    cbn [run_step]. rewrite bridge_of_set_bridge, effects_emit, Hes, app_assoc.
    reflexivity.
  - exact Hes.
Qed.


(** The pauses of a pass. *)
Lemma tick_sleeps (it : Iteration) (w : Runtime) :
  sleeps_of (effects (bridge_of (after_pass (tick it w)))) =
    sleeps_of (effects (bridge_of w)) ++ pauses_of it.
Proof.
  unfold tick, pauses_of, pause_of, leaves.
  pose proof (run_steps_raised it try_block w) as Hraised.
  destruct (try_block_trace it w) as (es & Hs & Htrace).
  fold (escapes it) in Hraised.
  destruct (run_steps it try_block w) as [w1|[[e|e] w1]]; rewrite Hraised.
  - cbn [after_pass]. unfold stop_during_sleep.
    destruct (stop_requested it);
      rewrite ?bridge_of_set_bridge, ?effects_stop, Htrace, !sleeps_of_app, Hs;
      simpl; rewrite ?app_nil_r; reflexivity.
  - cbn [run_steps]. destruct (tick_fault it at_error_sleep) as [r|].
    + cbn [after_pass].
      rewrite bridge_of_set_bridge, effects_emit, Htrace, !sleeps_of_app, Hs.
      simpl. rewrite ?app_nil_r. reflexivity.
    + cbn [after_pass run_step]. unfold stop_during_sleep.
      destruct (stop_requested it);
        rewrite ?bridge_of_set_bridge, ?effects_stop, ?bridge_of_set_bridge,
          !effects_emit, Htrace, !sleeps_of_app, Hs;
        simpl; rewrite ?app_nil_r; reflexivity.
  - cbn [after_pass]. rewrite Htrace, sleeps_of_app, Hs. simpl.
    rewrite app_nil_r. reflexivity.
Qed.

(** *** The loop *)

Lemma main_loop_step (it : Iteration) (rest : list Iteration) (w : Runtime) :
  running (bridge_of w) = true ->
  _main_loop (it :: rest) w =
    match tick it w with
    | pass_done w1 => _main_loop rest w1
    | pass_raised r w1 => Propagated r w1
    end.
Proof. intros Hr. cbn [_main_loop]. rewrite Hr. reflexivity. Qed.



(** Undisturbed, the loop keeps ticking. *)
Lemma main_loop_keeps_ticking (schedule : list Iteration) (w : Runtime) :
  running (bridge_of w) = true ->
  Forall undisturbed schedule ->
  exists w', _main_loop schedule w = AtLoopHead w' /\
             running (bridge_of w') = true /\
             sleeps_of (effects (bridge_of w')) =
               sleeps_of (effects (bridge_of w)) ++ (pause_of <$> schedule).
Proof.
  revert w. induction schedule as [|it rest IH]; intros w Hr Hall.
  - cbn [_main_loop]. rewrite Hr. exists w. rewrite app_nil_r. auto.
  - apply Forall_cons in Hall as [[Hstop Hleaves] Hrest].
    rewrite main_loop_step by exact Hr.
    pose proof (tick_result it w) as Hres.
    pose proof (tick_running it w) as Hrun.
    pose proof (tick_sleeps it w) as Hsl.
    unfold pauses_of in Hsl. rewrite Hleaves in Hsl.
    destruct (tick it w) as [w1|r w1]; [|congruence].
    cbn [after_pass] in Hrun, Hsl. rewrite Hstop, Hr in Hrun.
    destruct (IH w1 Hrun Hrest) as (w' & Hloop & Hr' & Hs').
    exists w'. split; [exact Hloop|]. split; [exact Hr'|].
    rewrite Hs', Hsl, <- app_assoc. reflexivity.
Qed.




(** *** Invariants of a pass *)

Lemma wf_tick (it : Iteration) (w : Runtime) :
  wf (bridge_of w) -> wf (bridge_of (after_pass (tick it w))).
Proof.
  apply tick_invariant.
  - intros b. apply process_loop_invariant.
    + intros q b0. apply wf_only_store; reflexivity.
    + intros e b0. apply wf_only_store; reflexivity.
    + intros sd b0. apply wf_update.
  - intros b b' (_ & _ & _ & _ & _ & _ & _ & Hh & Hd & _).
    apply wf_only_store; assumption.
  - intros e b. apply wf_only_store; reflexivity.
  - intros b. apply wf_only_store; reflexivity.
Qed.

Lemma wf_handle_ros2_command (json_loads : string -> CommandData + exn)
    (text : string) (b : Bridge) :
  wf b -> wf (bridge_after (_handle_ros2_command json_loads text b)).
Proof.
  intros Hwf. unfold _handle_ros2_command.
  destruct (json_loads text) as [c|e]; [apply wf_Queue_put, Hwf|].
  eapply wf_only_store; [| |exact Hwf]; reflexivity.
Qed.

(** The store stays well formed under everything the bridge does: after a
    pass of the main loop, however it ends, after a call of the public API,
    of a MAVLink handler or of the ROS2 command handler, and after [stop],
    every agent still refers to an object of its own. *)
Theorem store_stays_well_formed (w : Runtime) :
  wf (bridge_of w) ->
  (forall it : Iteration, wf (bridge_of (after_pass (tick it w)))) /\
  (forall (d : string) (p : list float) (v a : option (list float)),
     wf (bridge_after (add_drone_state d p v a (bridge_of w)))) /\
  (forall (d : string) (wps : list MissionWaypoint),
     wf (bridge_after (send_mission_to_drone d wps (bridge_of w)))) /\
  (forall msg : GlobalPositionInt,
     wf (bridge_after (_handle_mavlink_position msg (bridge_of w)))) /\
  (forall msg : AttitudeMsg,
     wf (bridge_after (_handle_mavlink_attitude msg (bridge_of w)))) /\
  (forall msg : SysStatus,
     wf (bridge_after (_handle_mavlink_status msg (bridge_of w)))) /\
  (forall (json_loads : string -> CommandData + exn) (text : string),
     wf (bridge_after (_handle_ros2_command json_loads text (bridge_of w)))) /\
  wf (stop (bridge_of w)).
Proof.
  intros Hwf. split; [|split; [|split; [|split; [|split; [|split; [|split]]]]]].
  - intros it. apply wf_tick, Hwf.
  - intros d p v a. apply wf_Queue_put, Hwf.
  - intros d wps. apply wf_send_mission, Hwf.
  - intros msg. apply wf_Queue_put, Hwf.
  - intros msg. apply wf_Queue_put, Hwf.
  - intros msg. apply wf_Queue_put, Hwf.
  - intros json_loads text. apply wf_handle_ros2_command, Hwf.
  - eapply wf_only_store; [| |exact Hwf]; reflexivity.
Qed.

Lemma wf_busy : wf (bridge_of busy).
Proof.
  eapply wf_only_store; [| |apply (wf_update a1_at_123 fresh_bridge), wf_init];
    reflexivity.
Qed.

Lemma store_stays_well_formed_witness :
  wf (bridge_of busy) /\
  wf (bridge_of (after_pass (tick faulty_pass busy))) /\
  wf (bridge_of (after_pass (tick cancelled_pass busy))) /\
  wf (stop (bridge_of busy)).
Proof.
  destruct (store_stays_well_formed busy wf_busy)
    as (Htick & _ & _ & _ & _ & _ & _ & Hstop).
  split; [exact wf_busy|]. split; [apply Htick|]. split; [apply Htick|].
  exact Hstop.
Defined.

(** Agents are never removed and never change object: an agent in the
    store before a pass of the main loop is there after it, under the same
    reference, however the pass ends. *)
Theorem tick_keeps_agents (it : Iteration) (w : Runtime) (d : string)
    (ref : nat) :
  drone_states (bridge_of w) !! d = Some ref ->
  drone_states (bridge_of (after_pass (tick it w))) !! d = Some ref.
Proof.
  apply (tick_invariant (fun b => drone_states b !! d = Some ref)).
  - intros b.
    apply (process_loop_invariant (fun b0 => drone_states b0 !! d = Some ref)).
    + intros q b0 H. exact H.
    + intros e b0 H. exact H.
    + intros sd b0 H. apply update_keeps_agents, H.
  - intros b b' (_ & _ & _ & _ & _ & _ & _ & _ & Hd & _) H.
    rewrite Hd. exact H.
  - intros e b H. exact H.
  - intros b H. exact H.
Qed.

Lemma tick_keeps_agents_witness :
  drone_states (bridge_of busy) !! "a1" = Some 0 /\
  drone_states (bridge_of (after_pass (tick stopping_pass busy))) !! "a1" =
    Some 0.
Proof.
  split; [reflexivity|].
  exact (tick_keeps_agents stopping_pass busy "a1" 0 eq_refl).
Defined.

Lemma tick_registry (it : Iteration) (w : Runtime) :
  mission_waypoints (bridge_of (after_pass (tick it w))) =
    mission_waypoints (bridge_of w).
Proof.
  apply (tick_invariant
           (fun b => mission_waypoints b = mission_waypoints (bridge_of w))).
  - intros b.
    apply (process_loop_invariant
             (fun b0 => mission_waypoints b0 = mission_waypoints (bridge_of w))).
    + intros q b0 H. exact H.
    + intros e b0 H. exact H.
    + intros sd b0 H.
      destruct (update_frame sd b0) as (_ & _ & _ & _ & -> & _). exact H.
  - intros b b' (_ & _ & _ & _ & _ & _ & _ & _ & _ & Hm & _) H.
    rewrite Hm. exact H.
  - intros e b H. exact H.
  - intros b H. exact H.
  - reflexivity.
Qed.

Lemma Queue_put_registry (item : DataItem) (b : Bridge) :
  mission_waypoints (bridge_after (Queue_put item b)) = mission_waypoints b.
Proof. unfold Queue_put. destruct (decide _); reflexivity. Qed.

(** Only [send_mission_to_drone] writes the mission registry, and only the
    entry of the agent it is called for.  A pass of the main loop, whatever
    is queued and however it ends, [add_drone_state], the MAVLink handlers,
    the ROS2 command handler and [stop] leave the registry as it is. *)
Theorem tick_leaves_registry (w : Runtime) :
  (forall it : Iteration,
     mission_waypoints (bridge_of (after_pass (tick it w))) =
       mission_waypoints (bridge_of w)) /\
  (forall (d : string) (p : list float) (v a : option (list float)),
     mission_waypoints (bridge_after (add_drone_state d p v a (bridge_of w))) =
       mission_waypoints (bridge_of w)) /\
  (forall msg : GlobalPositionInt,
     mission_waypoints
       (bridge_after (_handle_mavlink_position msg (bridge_of w))) =
       mission_waypoints (bridge_of w)) /\
  (forall msg : AttitudeMsg,
     mission_waypoints
       (bridge_after (_handle_mavlink_attitude msg (bridge_of w))) =
       mission_waypoints (bridge_of w)) /\
  (forall msg : SysStatus,
     mission_waypoints
       (bridge_after (_handle_mavlink_status msg (bridge_of w))) =
       mission_waypoints (bridge_of w)) /\
  (forall (json_loads : string -> CommandData + exn) (text : string),
     mission_waypoints
       (bridge_after (_handle_ros2_command json_loads text (bridge_of w))) =
       mission_waypoints (bridge_of w)) /\
  mission_waypoints (stop (bridge_of w)) = mission_waypoints (bridge_of w) /\
  (forall (d d' : string) (wps : list MissionWaypoint),
     d' <> d ->
     mission_waypoints
       (bridge_after (send_mission_to_drone d wps (bridge_of w))) !! d' =
       mission_waypoints (bridge_of w) !! d').
Proof.
  split; [|split; [|split; [|split; [|split; [|split; [|split]]]]]].
  - intros it. apply tick_registry.
  - intros d p v a. apply Queue_put_registry.
  - intros msg. apply Queue_put_registry.
  - intros msg. apply Queue_put_registry.
  - intros msg. apply Queue_put_registry.
  - intros json_loads text. unfold _handle_ros2_command.
    destruct (json_loads text); [apply Queue_put_registry|reflexivity].
  - reflexivity.
  - intros d d' wps Hd. unfold send_mission_to_drone.
    destruct (MAVLINK_AVAILABLE (bridge_of w) &&
              mavlink_is_connected (bridge_of w)).
    + destruct (target_system_of d) as [ts|]; [|reflexivity].
      rewrite Queue_put_registry. simpl.
      rewrite lookup_insert_ne by congruence.
      destruct (send_waypoint_mission_queue wps ts (bridge_of w)) as [_ ->].
      reflexivity.
    + rewrite Queue_put_registry. simpl.
      rewrite lookup_insert_ne by congruence. reflexivity.
Qed.

Lemma tick_leaves_registry_witness :
  "b2" <> "a1" /\
  mission_waypoints
    (bridge_after (send_mission_to_drone "a1" [seq0] (bridge_of busy))) !! "b2" =
    mission_waypoints (bridge_of busy) !! "b2" /\
  mission_waypoints (bridge_of (after_pass (tick quiet_pass busy))) =
    mission_waypoints (bridge_of busy).
Proof.
  assert (Hne : "b2" <> "a1") by discriminate.
  destruct (tick_leaves_registry busy)
    as (Htick & _ & _ & _ & _ & _ & _ & Hsend).
  split; [exact Hne|].
  split; [exact (Hsend "a1" "b2" [seq0] Hne)|exact (Htick quiet_pass)].
Defined.

(** *** Stopping *)

(** When [stop()] runs during the sleep of a pass out of which nothing
    leaves the loop, that pass is the last one: the loop returns right
    after it, whatever passes were to follow and whatever is still
    queued. *)
Theorem main_loop_stops_on_request (it : Iteration) (rest : list Iteration)
    (w : Runtime) :
  running (bridge_of w) = true ->
  stop_requested it = true ->
  leaves it = None ->
  exists w',
    tick it w = pass_done w' /\
    running (bridge_of w') = false /\
    _main_loop (it :: rest) w = Exited w'.
Proof.
  intros Hr Hstop Hleaves.
  pose proof (tick_result it w) as Hres.
  pose proof (tick_running it w) as Hrun.
  rewrite main_loop_step by exact Hr.
  destruct (tick it w) as [w1|r w1]; [|congruence].
  cbn [after_pass] in Hrun. rewrite Hstop in Hrun.
  exists w1. split; [reflexivity|]. split; [exact Hrun|].
  destruct rest; cbn [_main_loop]; rewrite Hrun; reflexivity.
Qed.

Lemma main_loop_stops_on_request_witness :
  running (bridge_of busy) = true /\
  stop_requested stopping_pass = true /\
  leaves stopping_pass = None /\
  exists w',
    tick stopping_pass busy = pass_done w' /\
    running (bridge_of w') = false /\
    _main_loop [stopping_pass; quiet_pass] busy = Exited w'.
Proof.
  split; [reflexivity|]. split; [reflexivity|]. split; [reflexivity|].
  exact (main_loop_stops_on_request stopping_pass [quiet_pass] busy
           eq_refl eq_refl eq_refl).
Defined.

(** *** Pacing *)

(** Every pass of the main loop that is not cut by an exception leaving the
    loop sleeps exactly once, at its end: the update interval of 0.1 s
    after a clean pass and one second after a pass in which an exception
    was caught at line 618.  A pass that is cut completes no pause, and
    nothing else the loop does sleeps. *)
Theorem main_loop_sleeps_once_per_pass (schedule : list Iteration)
    (w : Runtime) :
  (forall it : Iteration,
     sleeps_of (effects (bridge_of (after_pass (tick it w)))) =
       sleeps_of (effects (bridge_of w)) ++ pauses_of it) /\
  (running (bridge_of w) = true ->
   Forall undisturbed schedule ->
   exists w',
     _main_loop schedule w = AtLoopHead w' /\
     sleeps_of (effects (bridge_of w')) =
       sleeps_of (effects (bridge_of w)) ++ (pause_of <$> schedule)).
Proof.
  split; [intros it; apply tick_sleeps|].
  intros Hr Hall.
  destruct (main_loop_keeps_ticking schedule w Hr Hall) as (w' & Hl & _ & Hs).
  eauto.
Qed.

Lemma main_loop_sleeps_once_per_pass_witness :
  running (bridge_of busy) = true /\
  Forall undisturbed [faulty_pass; quiet_pass] /\
  exists w',
    _main_loop [faulty_pass; quiet_pass] busy = AtLoopHead w' /\
    sleeps_of (effects (bridge_of w')) =
      sleeps_of (effects (bridge_of busy)) ++
        (pause_of <$> [faulty_pass; quiet_pass]).
Proof.
  assert (Hall : Forall undisturbed [faulty_pass; quiet_pass])
    by (repeat constructor).
  split; [reflexivity|]. split; [exact Hall|].
  exact (proj2 (main_loop_sleeps_once_per_pass [faulty_pass; quiet_pass] busy)
           eq_refl Hall).
Defined.

(** ** The queue under every producer *)

(** A mission on a full queue: the upload and the store happen, then the
    call is suspended in [put]; or line 921 raises before any of it. *)
Lemma send_mission_full (d : string) (wps : list MissionWaypoint)
    (b : Bridge) :
  maxsize <= length (data_queue b) ->
  (exists b', send_mission_to_drone d wps b = Blocks b' /\
              data_queue b' = data_queue b) \/
  (exists e, send_mission_to_drone d wps b = Raises e b).
Proof.
  intros Hfull. unfold send_mission_to_drone.
  destruct (MAVLINK_AVAILABLE b && mavlink_is_connected b).
  - destruct (target_system_of d) as [ts|]; [|right; eauto].
    left. destruct (send_waypoint_mission_queue wps ts b) as [Hq _].
    rewrite Queue_put_full by (simpl; rewrite Hq; exact Hfull).
    eexists. split; [reflexivity|]. simpl. exact Hq.
  - left. rewrite Queue_put_full by exact Hfull.
    eexists. split; reflexivity.
Qed.

(** A mission on a queue with room: the item goes to the back, unless line
    921 raises first. *)
Lemma send_mission_room (d : string) (wps : list MissionWaypoint)
    (b : Bridge) :
  length (data_queue b) < maxsize ->
  (exists b', send_mission_to_drone d wps b = Returns () b' /\
              data_queue b' = data_queue b ++ [mission_item d wps]) \/
  (exists e, send_mission_to_drone d wps b = Raises e b).
Proof.
  intros Hroom. unfold send_mission_to_drone.
  destruct (MAVLINK_AVAILABLE b && mavlink_is_connected b).
  - destruct (target_system_of d) as [ts|]; [|right; eauto].
    left. destruct (send_waypoint_mission_queue wps ts b) as [Hq _].
    rewrite Queue_put_room by (simpl; rewrite Hq; exact Hroom).
    eexists. split; [reflexivity|]. simpl. rewrite Hq. reflexivity.
  - left. rewrite Queue_put_room by exact Hroom.
    eexists. split; reflexivity.
Qed.

Lemma tick_bounded (it : Iteration) (w : Runtime) :
  bounded (bridge_of w) -> bounded (bridge_of (after_pass (tick it w))).
Proof.
  apply tick_invariant.
  - apply process_data_queue_bounded.
  - unfold bounded.
    intros b b' (_ & _ & _ & _ & _ & _ & _ & _ & _ & _ & Hq & _) Hb.
    rewrite Hq. exact Hb.
  - intros e b Hb. exact Hb.
  - intros b Hb. exact Hb.
Qed.

Lemma handle_ros2_command_bounded (json_loads : string -> CommandData + exn)
    (text : string) (b : Bridge) :
  bounded b -> bounded (bridge_after (_handle_ros2_command json_loads text b)).
Proof.
  intros Hb. unfold _handle_ros2_command.
  destruct (json_loads text) as [c|e]; [apply Queue_put_bounded, Hb|exact Hb].
Qed.

(** C2, as the code has it.  Every producer ([add_drone_state], the three
    MAVLink handlers, the ROS2 command handler, [send_mission_to_drone])
    enqueues with the blocking [put]: on a queue that holds its capacity of
    1000 items the call is suspended until a slot is free and nothing is
    reported to the caller; with room left the item goes to the back and
    the call returns [None].  The only other way out of a producer is the
    [ValueError] of line 921, raised before the queue is reached.  Under
    every producer, across the drain and a whole pass of the main loop,
    however it ends, and under [stop], the number of queued items never
    exceeds the capacity. *)
Theorem put_blocks_when_full_queue_stays_bounded :
  maxsize = 1000 /\
  (forall b : Bridge,
     maxsize <= length (data_queue b) ->
     (forall (d : string) (p : list float) (v a : option (list float)),
        add_drone_state d p v a b = Blocks b) /\
     (forall msg : GlobalPositionInt, _handle_mavlink_position msg b = Blocks b) /\
     (forall msg : AttitudeMsg, _handle_mavlink_attitude msg b = Blocks b) /\
     (forall msg : SysStatus, _handle_mavlink_status msg b = Blocks b) /\
     (forall (json_loads : string -> CommandData + exn) (text : string)
             (c : CommandData),
        json_loads text = inl c ->
        _handle_ros2_command json_loads text b = Blocks b) /\
     (forall (d : string) (wps : list MissionWaypoint),
        (exists b', send_mission_to_drone d wps b = Blocks b' /\
                    data_queue b' = data_queue b) \/
        (exists e, send_mission_to_drone d wps b = Raises e b))) /\
  (forall b : Bridge,
     length (data_queue b) < maxsize ->
     (forall (d : string) (p : list float) (v a : option (list float)),
        add_drone_state d p v a b =
          Returns ()
            (set_data_queue
               (data_queue b ++ [drone_state (add_drone_state_data d p v a)])
               b)) /\
     (forall msg : GlobalPositionInt,
        _handle_mavlink_position msg b =
          Returns ()
            (set_data_queue (data_queue b ++ [drone_state (position_data msg)])
               b)) /\
     (forall msg : AttitudeMsg,
        _handle_mavlink_attitude msg b =
          Returns ()
            (set_data_queue (data_queue b ++ [drone_state (attitude_data msg)])
               b)) /\
     (forall msg : SysStatus,
        _handle_mavlink_status msg b =
          Returns ()
            (set_data_queue (data_queue b ++ [drone_state (status_data msg)])
               b)) /\
     (forall (json_loads : string -> CommandData + exn) (text : string)
             (c : CommandData),
        json_loads text = inl c ->
        _handle_ros2_command json_loads text b =
          Returns () (set_data_queue (data_queue b ++ [matlab_command c]) b)) /\
     (forall (d : string) (wps : list MissionWaypoint),
        (exists b', send_mission_to_drone d wps b = Returns () b' /\
                    data_queue b' = data_queue b ++ [mission_item d wps]) \/
        (exists e, send_mission_to_drone d wps b = Raises e b))) /\
  (forall b : Bridge,
     bounded b ->
     (forall (d : string) (p : list float) (v a : option (list float)),
        bounded (bridge_after (add_drone_state d p v a b))) /\
     (forall msg : GlobalPositionInt,
        bounded (bridge_after (_handle_mavlink_position msg b))) /\
     (forall msg : AttitudeMsg,
        bounded (bridge_after (_handle_mavlink_attitude msg b))) /\
     (forall msg : SysStatus,
        bounded (bridge_after (_handle_mavlink_status msg b))) /\
     (forall (json_loads : string -> CommandData + exn) (text : string),
        bounded (bridge_after (_handle_ros2_command json_loads text b))) /\
     (forall (d : string) (wps : list MissionWaypoint),
        bounded (bridge_after (send_mission_to_drone d wps b))) /\
     bounded (_process_data_queue b) /\
     bounded (stop b)) /\
  (forall (it : Iteration) (w : Runtime),
     bounded (bridge_of w) -> bounded (bridge_of (after_pass (tick it w)))).
Proof.
  split; [reflexivity|]. split; [|split; [|split]].
  - intros b Hfull. repeat split.
    + intros d p v a. apply Queue_put_full, Hfull.
    + intros msg. apply Queue_put_full, Hfull.
    + intros msg. apply Queue_put_full, Hfull.
    + intros msg. apply Queue_put_full, Hfull.
    + intros json_loads text c Hc. unfold _handle_ros2_command. rewrite Hc.
      apply Queue_put_full, Hfull.
    + intros d wps. apply send_mission_full, Hfull.
  - intros b Hroom. repeat split.
    + intros d p v a. apply Queue_put_room, Hroom.
    + intros msg. apply Queue_put_room, Hroom.
    + intros msg. apply Queue_put_room, Hroom.
    + intros msg. apply Queue_put_room, Hroom.
    + intros json_loads text c Hc. unfold _handle_ros2_command. rewrite Hc.
      apply Queue_put_room, Hroom.
    + intros d wps. apply send_mission_room, Hroom.
  - intros b Hb.
    split; [|split; [|split; [|split; [|split; [|split; [|split]]]]]].
    + intros d p v a. apply Queue_put_bounded, Hb.
    + intros msg. apply Queue_put_bounded, Hb.
    + intros msg. apply Queue_put_bounded, Hb.
    + intros msg. apply Queue_put_bounded, Hb.
    + intros json_loads text. apply handle_ros2_command_bounded, Hb.
    + intros d wps. apply send_mission_bounded, Hb.
    + apply process_data_queue_bounded, Hb.
    + exact Hb.
  - apply tick_bounded.
Qed.

Lemma put_blocks_when_full_queue_stays_bounded_witness :
  maxsize <= length (data_queue full_bridge) /\
  add_drone_state "a1" (vec3 1 2 3) None None full_bridge = Blocks full_bridge /\
  _handle_mavlink_position position_msg_7 full_bridge = Blocks full_bridge /\
  _handle_ros2_command loads_stop "stop" full_bridge = Blocks full_bridge /\
  bounded fresh_bridge /\
  bounded (bridge_after (add_drone_state "a1" (vec3 1 2 3) None None
                           fresh_bridge)) /\
  bounded (bridge_after (_handle_mavlink_status status_msg_7 fresh_bridge)) /\
  bounded (bridge_of busy) /\
  bounded (bridge_of (after_pass (tick quiet_pass busy))).
Proof.
  assert (Hfull : maxsize <= length (data_queue full_bridge))
    by (rewrite full_bridge_is_full; reflexivity).
  assert (Hb : bounded fresh_bridge) by (unfold bounded; simpl; lia).
  assert (Hbusy : bounded (bridge_of busy))
    by (apply (Nat.le_trans _ 0); [vm_compute; constructor|lia]).
  destruct put_blocks_when_full_queue_stays_bounded
    as (_ & Hblock & _ & Hinv & Hpass).
  destruct (Hblock _ Hfull) as (Hadd & Hpos & _ & _ & Hros & _).
  destruct (Hinv _ Hb) as (Hadd' & _ & _ & Hst' & _).
  split; [exact Hfull|]. split; [exact (Hadd _ _ _ _)|].
  split; [exact (Hpos _)|]. split; [exact (Hros loads_stop _ _ eq_refl)|].
  split; [exact Hb|]. split; [exact (Hadd' _ _ _ _)|].
  split; [exact (Hst' _)|]. split; [exact Hbusy|exact (Hpass _ _ Hbusy)].
Defined.
